(** * The APS bid adapter (modules/apsBidAdapter.js)

    A shallow embedding of the adapter and the properties of its
    request hook, response hook, validation gate, user-sync extractor
    and telemetry recorder.

    Conventions of the embedding.
    - JavaScript values are JSON-shaped data (undefined, null, booleans,
      numbers, strings, arrays, plain objects) plus error objects.
      Functions, symbols, getters and prototypes are not represented.
    - Numbers are IEEE 754 binary64 values, written with [spec_float].
    - Strings are sequences of code units below 256.
    - Objects are association lists in property order.  The adapter
      mutates objects in place; the embedding threads the updated value
      back into its parent, which is the same thing for tree-shaped
      data.
    - Property names used by the adapter are fixed identifiers; none is
      an array index, [length], or a property of error objects. *)

From Stdlib Require Import Bool Ascii String List ZArith NArith Lia.
From Stdlib Require Import Floats.SpecFloat DecimalString.
Import ListNotations.
Local Open Scope list_scope.
Local Open Scope string_scope.

Set Implicit Arguments.
Set Warnings "-register-all".

(** ** Numbers *)

Definition number := spec_float.

Definition prec : Z := 53.
Definition emax : Z := 1024.

(** The binary64 value of an integer literal. *)
Definition num_of_Z (z : Z) : number := binary_normalize prec emax z 0 false.

Definition NaN : number := S754_nan.
Definition zero : number := S754_zero false.

(** [x >= 0] on numbers: false when [x] is NaN. *)
Definition number_ge_zero (x : number) : bool := SFleb zero x.

(** A number that is neither NaN nor negative: either zero, or positive
    infinity, or a finite number whose sign bit is clear. *)
Definition non_negative (x : number) : bool :=
  match x with
  | S754_zero _ => true
  | S754_infinity sign => negb sign
  | S754_nan => false
  | S754_finite sign _ _ => negb sign
  end.

(** ** Values *)

Inductive exn : Type :=
| TypeError
| Error (message : string).

Inductive value : Type :=
| Undefined
| Null
| Bool (b : bool)
| Num (x : number)
| Str (s : string)
| Arr (elems : list value) (props : list (string * value))
| Obj (props : list (string * value))
| ErrObj (e : exn) (props : list (string * value)).

Definition props := list (string * value).

Definition empty_object : value := Obj [].
Definition array (elems : list value) : value := Arr elems [].

(** ** Association lists in property order *)

Fixpoint lookup (k : string) (ps : props) : option value :=
  match ps with
  | [] => None
  | (k', v) :: rest => if String.eqb k k' then Some v else lookup k rest
  end.

(** Writing a property keeps the position of an existing key and appends a
    new one. *)
Fixpoint write (k : string) (x : value) (ps : props) : props :=
  match ps with
  | [] => [(k, x)]
  | (k', v) :: rest =>
      if String.eqb k k' then (k, x) :: rest else (k', v) :: write k x rest
  end.

Fixpoint remove (k : string) (ps : props) : props :=
  match ps with
  | [] => []
  | (k', v) :: rest =>
      if String.eqb k k' then remove k rest else (k', v) :: remove k rest
  end.

(** ** Property access *)

Definition own_props (v : value) : option props :=
  match v with
  | Arr _ ps | Obj ps | ErrObj _ ps => Some ps
  | _ => None
  end.

Definition with_props (v : value) (ps : props) : value :=
  match v with
  | Arr es _ => Arr es ps
  | Obj _ => Obj ps
  | ErrObj e _ => ErrObj e ps
  | _ => v
  end.

Definition is_nullish (v : value) : bool :=
  match v with
  | Undefined | Null => true
  | _ => false
  end.

(** [v.k] for a [v] that is neither null nor undefined. *)
Definition get (k : string) (v : value) : value :=
  match own_props v with
  | Some ps => match lookup k ps with Some x => x | None => Undefined end
  | None => Undefined
  end.

(** [v?.k] *)
Definition opt_get (k : string) (v : value) : value :=
  if is_nullish v then Undefined else get k v.

(** Own-property test. *)
Definition has_key (k : string) (v : value) : bool :=
  match own_props v with
  | Some ps => match lookup k ps with Some _ => true | None => false end
  | None => false
  end.

(** [delete v.k] for a [v] that is neither null nor undefined. *)
Definition delete (k : string) (v : value) : value :=
  match own_props v with
  | Some ps => with_props v (remove k ps)
  | None => v
  end.

(** The effect of [v.k = x] on an object or array [v]. *)
Definition put (k : string) (x : value) (v : value) : value :=
  match own_props v with
  | Some ps => with_props v (write k x ps)
  | None => v
  end.

(** Arrays, plain objects and error objects carry properties. *)
Definition is_object (v : value) : bool :=
  match own_props v with Some _ => true | None => false end.

(** ** Results of evaluation: a value or a thrown value *)

Inductive result (A : Type) : Type :=
| Ok (a : A)
| Throw (e : value).

Arguments Ok {A} a.
Arguments Throw {A} e.

Definition bind {A B : Type} (r : result A) (f : A -> result B) : result B :=
  match r with
  | Ok a => f a
  | Throw e => Throw e
  end.

Declare Scope js_scope.
Delimit Scope js_scope with js.
Notation "x <- r ;; k" := (bind r (fun x => k))
  (at level 61, r at next level, right associativity) : js_scope.
Local Open Scope js_scope.

Definition new_error (message : string) : value := ErrObj (Error message) [].
Definition type_error : value := ErrObj TypeError [].

(** [v.k], throwing a TypeError on null and undefined. *)
Definition get_prop (k : string) (v : value) : result value :=
  if is_nullish v then Throw type_error else Ok (get k v).

(** [v.k = x] in strict mode (the adapter is an ES module): a TypeError on
    null, undefined and primitives. *)
Definition set_prop (k : string) (x : value) (v : value) : result value :=
  match own_props v with
  | Some _ => Ok (put k x v)
  | None => Throw type_error
  end.

(** ** Truthiness, typeof, strict equality *)

Definition is_empty (s : string) : bool :=
  match s with EmptyString => true | String _ _ => false end.

Definition truthy (v : value) : bool :=
  match v with
  | Undefined | Null => false
  | Bool b => b
  | Num (S754_zero _) | Num S754_nan => false
  | Num _ => true
  | Str s => negb (is_empty s)
  | Arr _ _ | Obj _ | ErrObj _ _ => true
  end.

Definition is_number (v : value) : bool :=
  match v with Num _ => true | _ => false end.

Definition is_array (v : value) : bool :=
  match v with Arr _ _ => true | _ => false end.

(** [a === b] where one side is a primitive literal.  Two objects are equal
    only when they are the same object, which never arises here. *)
Definition strict_equals (a b : value) : bool :=
  match a, b with
  | Undefined, Undefined => true
  | Null, Null => true
  | Bool x, Bool y => Bool.eqb x y
  | Num x, Num y => SFeqb x y
  | Str x, Str y => String.eqb x y
  | _, _ => false
  end.

(** [a ?? b] *)
Definition nullish_or (a b : value) : value := if is_nullish a then b else a.

(** [a || b] *)
Definition or_else (a b : value) : value := if truthy a then a else b.

(** ** Strings *)

(** White space and line terminators of ECMAScript among the code units
    below 256: TAB, LF, VT, FF, CR, SP and NBSP. *)
Definition is_whitespace (c : ascii) : bool :=
  let n := N_of_ascii c in
  ((9 <=? n) && (n <=? 13) || (n =? 32) || (n =? 160))%N.

Fixpoint trim_start (s : string) : string :=
  match s with
  | EmptyString => EmptyString
  | String c rest => if is_whitespace c then trim_start rest else s
  end.

Fixpoint trim_end (s : string) : string :=
  match s with
  | EmptyString => EmptyString
  | String c rest =>
      let rest' := trim_end rest in
      if is_whitespace c && is_empty rest' then EmptyString
      else String c rest'
  end.

(** [s.trim()] *)
Definition trim (s : string) : string := trim_end (trim_start s).

Fixpoint all_whitespace (s : string) : bool :=
  match s with
  | EmptyString => true
  | String c rest => is_whitespace c && all_whitespace rest
  end.

(** [s.startsWith(p)] *)
Definition starts_with (p s : string) : bool := String.prefix p s.

(** [s.split(sep)] for a one-character separator. *)
Fixpoint split (sep : ascii) (s : string) : list string :=
  match s with
  | EmptyString => [EmptyString]
  | String c rest =>
      if Ascii.eqb c sep then EmptyString :: split sep rest
      else match split sep rest with
           | [] => [String c EmptyString]
           | part :: parts => String c part :: parts
           end
  end.

Fixpoint contains_char (c : ascii) (s : string) : bool :=
  match s with
  | EmptyString => false
  | String c' rest => Ascii.eqb c c' || contains_char c rest
  end.

(** The decimal rendering of an array index. *)
Definition string_of_index (n : nat) : string :=
  NilEmpty.string_of_uint (Nat.to_uint n).

(** ** Base64 ([btoa]) *)

Definition base64_alphabet : string :=
  "ABCDEFGHIJKLMNOPQRSTUVWXYZabcdefghijklmnopqrstuvwxyz0123456789+/".

Definition sextet_char (n : N) : ascii :=
  match String.get (N.to_nat n) base64_alphabet with
  | Some c => c
  | None => "="%char
  end.

(** [btoa(s)]: every three code units give four characters; one or two
    trailing units are padded with [=].  The engine's [btoa] throws on a
    code unit above 255; the strings of the embedding have none, so what
    is proved of the markup is stated of Bids that were returned. *)
Fixpoint btoa (s : string) : string :=
  match s with
  | EmptyString => EmptyString
  | String a EmptyString =>
      let x := N_of_ascii a in
      String (sextet_char (x / 4))
        (String (sextet_char ((x mod 4) * 16)) "==")
  | String a (String b EmptyString) =>
      let x := N_of_ascii a in
      let y := N_of_ascii b in
      String (sextet_char (x / 4))
        (String (sextet_char ((x mod 4) * 16 + y / 16))
           (String (sextet_char ((y mod 16) * 4)) "="))
  | String a (String b (String c rest)) =>
      let x := N_of_ascii a in
      let y := N_of_ascii b in
      let z := N_of_ascii c in
      String (sextet_char (x / 4))
        (String (sextet_char ((x mod 4) * 16 + y / 16))
           (String (sextet_char ((y mod 16) * 4 + z / 64))
              (String (sextet_char (z mod 64)) (btoa rest))))
  end%N.

(** The inverse table of [sextet_char]. *)
Definition char_sextet (c : ascii) : option N :=
  let n := N_of_ascii c in
  (if (65 <=? n) && (n <=? 90) then Some (n - 65)
   else if (97 <=? n) && (n <=? 122) then Some (n - 71)
   else if (48 <=? n) && (n <=? 57) then Some (n + 4)
   else if n =? 43 then Some 62
   else if n =? 47 then Some 63
   else None)%N.

(** Decoding of padded base64 text, the reading side of [btoa]. *)
Fixpoint base64_decode (s : string) : option string :=
  match s with
  | EmptyString => Some EmptyString
  | String a (String b (String c (String d rest))) =>
      match char_sextet a, char_sextet b with
      | Some p, Some q =>
          let x := ascii_of_N (p * 4 + q / 16) in
          if Ascii.eqb d "=" then
            if negb (is_empty rest) then None
            else if Ascii.eqb c "=" then Some (String x EmptyString)
            else match char_sextet c with
                 | Some r =>
                     Some (String x
                             (String (ascii_of_N ((q mod 16) * 16 + r / 4))
                                EmptyString))
                 | None => None
                 end
          else
            match char_sextet c, char_sextet d, base64_decode rest with
            | Some r, Some t, Some tail =>
                Some (String x
                        (String (ascii_of_N ((q mod 16) * 16 + r / 4))
                           (String (ascii_of_N ((r mod 4) * 64 + t)) tail)))
            | _, _, _ => None
            end
      | _, _ => None
      end
  | _ => None
  end%N.

(** ** Configuration, telemetry store and console *)

(** [config.readConfig] is the host framework's; the configuration is a
    table from option names to values, and an absent option reads as
    undefined. *)
Definition config := list (string * value).

Definition readConfig (cfg : config) (name : string) : value :=
  match lookup name cfg with
  | Some v => v
  | None => Undefined
  end.

(** A [CustomEvent]: its type and its [detail]. *)
Record event : Type := CustomEvent {
  event_type : string;
  event_detail : value
}.

(** The per-account entry of [window._aps]. *)
Record account_entry : Type := AccountEntry {
  queue : list event;
  store : list (value * value)
}.

(** Key equality of a [Map] (SameValueZero): NaN equals NaN and the two
    zeros are equal.  Account identifiers are numbers and strings; on
    objects, which a [Map] compares by identity, the tree model compares
    structure. *)
Fixpoint same_value_zero (a b : value) {struct a} : bool :=
  let fix elems_eq (l m : list value) {struct l} : bool :=
    match l, m with
    | [], [] => true
    | x :: l', y :: m' => same_value_zero x y && elems_eq l' m'
    | _, _ => false
    end in
  let fix props_eq (p q : list (string * value)) {struct p} : bool :=
    match p, q with
    | [], [] => true
    | (k, x) :: p', (k', y) :: q' =>
        String.eqb k k' && same_value_zero x y && props_eq p' q'
    | _, _ => false
    end in
  match a, b with
  | Undefined, Undefined => true
  | Null, Null => true
  | Bool x, Bool y => Bool.eqb x y
  | Num S754_nan, Num S754_nan => true
  | Num x, Num y => SFeqb x y
  | Str x, Str y => String.eqb x y
  | Arr es ps, Arr es' ps' => elems_eq es es' && props_eq ps ps'
  | Obj ps, Obj ps' => props_eq ps ps'
  | ErrObj TypeError ps, ErrObj TypeError ps' => props_eq ps ps'
  | ErrObj (Error m) ps, ErrObj (Error m') ps' =>
      String.eqb m m' && props_eq ps ps'
  | _, _ => false
  end.

(** [window._aps]: a [Map] from account identifiers to entries, in
    insertion order. *)
Definition aps_map := list (value * account_entry).

Fixpoint aps_get (key : value) (m : aps_map) : option account_entry :=
  match m with
  | [] => None
  | (k, e) :: rest => if same_value_zero key k then Some e else aps_get key rest
  end.

Definition aps_has (key : value) (m : aps_map) : bool :=
  match aps_get key m with Some _ => true | None => false end.

Fixpoint aps_set (key : value) (e : account_entry) (m : aps_map) : aps_map :=
  match m with
  | [] => [(key, e)]
  | (k, e') :: rest =>
      if same_value_zero key k then (k, e) :: rest
      else (k, e') :: aps_set key e rest
  end.

(** [m.get(key).queue.push(ev)] *)
Fixpoint aps_push (key : value) (ev : event) (m : aps_map) : aps_map :=
  match m with
  | [] => []
  | (k, e) :: rest =>
      if same_value_zero key k
      then (k, AccountEntry (queue e ++ [ev])%list (store e)) :: rest
      else (k, e) :: aps_push key ev rest
  end.

Inductive log_entry : Type :=
| LogWarn (message : string)
| LogError (message : string) (err : value).

(** What the adapter reads and writes outside its arguments: the
    configuration, the global [window._aps] (absent until first use) and
    the console behind [logWarn] and [logError]. *)
Record world : Type := World {
  cfg : config;
  window_aps : option aps_map;
  console : list log_entry
}.

Definition ADAPTER_VERSION : string := "2.0.0".
Definition AAX_ENDPOINT : string :=
  "https://web.ads.aps.amazon-adsystem.com/e/pb/bid".
Definition DEFAULT_PREBID_CREATIVE_JS_URL : string :=
  "https://client.aps.amazon-adsystem.com/prebid-creative.js".

(** Own enumerable properties, as [{...v}] copies them. *)
Fixpoint indexed (i : nat) (l : list value) : list (string * value) :=
  match l with
  | [] => []
  | x :: rest => (string_of_index i, x) :: indexed (S i) rest
  end.

Fixpoint code_units (s : string) : list value :=
  match s with
  | EmptyString => []
  | String c rest => Str (String c EmptyString) :: code_units rest
  end.

Definition spread (v : value) : value :=
  match v with
  | Obj ps => Obj ps
  | Arr es ps => Obj (indexed 0 es ++ ps)%list
  | ErrObj _ ps => Obj ps
  | Str s => Obj (indexed 0 (code_units s))
  | _ => Obj []
  end.

(** The name under which [record] files an event: prefixed with
    [prebidAdapter/] unless it already is, and completed with [/didTrigger]
    when it has fewer than three parts. *)
Definition final_event_name (eventName : string) : string :=
  let prefixedEventName :=
    if starts_with "prebidAdapter/" eventName then eventName
    else "prebidAdapter/" ++ eventName in
  let parts := split "/" prefixedEventName in
  if (List.length parts <? 3)%nat then prefixedEventName ++ "/didTrigger"
  else prefixedEventName.

(** The [detail] of the event: a copy of the data, an [analytics] object
    unless the data carries an [error], and the provenance fields. *)
Definition event_detail_of (data : value) : value :=
  let detailData := spread data in
  let detailData :=
    if negb (truthy (get "error" detailData))
    then put "analytics"
           (or_else (get "analytics" detailData) empty_object) detailData
    else detailData in
  put "libraryVersion" (Str ADAPTER_VERSION)
    (put "source" (Str "prebid-adapter") (spread detailData)).

(** [record(eventName, data)] *)
Definition record (eventName : string) (data : value) (w : world) : world :=
  if strict_equals (readConfig (cfg w) "aps.telemetry") (Bool false) then w
  else
    let finalEventName := final_event_name eventName in
    let accountID := readConfig (cfg w) "aps.accountID" in
    if negb (truthy accountID) then w
    else
      let aps := match window_aps w with Some m => m | None => [] end in
      let aps :=
        if negb (aps_has accountID aps)
        then aps_set accountID (AccountEntry [] []) aps
        else aps in
      World (cfg w)
            (Some (aps_push accountID
                     (CustomEvent finalEventName (event_detail_of data)) aps))
            (console w).

(** ** Operations that read and write the world *)

Definition M (A : Type) : Type := world -> result A * world.

Definition mret {A : Type} (a : A) : M A := fun w => (Ok a, w).

Definition mbind {A B : Type} (m : M A) (f : A -> M B) : M B :=
  fun w =>
    match m w with
    | (Ok a, w') => f a w'
    | (Throw e, w') => (Throw e, w')
    end.

Notation "x <~ m ;; k" := (mbind m (fun x => k))
  (at level 61, m at next level, right associativity) : js_scope.

Definition lift {A : Type} (r : result A) : M A := fun w => (r, w).

(** [try { body } catch (err) { handler }] *)
Definition try_catch {A : Type} (body : M A) (handler : value -> M A) : M A :=
  fun w =>
    match body w with
    | (Ok a, w') => (Ok a, w')
    | (Throw e, w') => handler e w'
    end.

Definition do_record (eventName : string) (data : value) : M unit :=
  fun w => (Ok tt, record eventName data w).

Definition read_config (name : string) : M value :=
  fun w => (Ok (readConfig (cfg w) name), w).

Definition log (entry : log_entry) : M unit :=
  fun w => (Ok tt, World (cfg w) (window_aps w) (console w ++ [entry])%list).

Definition logWarn (message : string) : M unit := log (LogWarn message).

Definition logError (message : string) (err : value) : M unit :=
  log (LogError message err).

(** The world after a [catch] block of the adapter has run on the error
    [err]: the error event is handed to [record], then the error is
    logged. *)
Definition after_catch (name message : string) (err : value) (w : world)
  : world :=
  snd (logError message err
         (record (name ++ "/didError") (Obj [("error", err)]) w)).

(** The event most recently pushed on the queue of the configured
    account. *)
Definition last_event (w : world) : option event :=
  match window_aps w with
  | Some m =>
      match aps_get (readConfig (cfg w) "aps.accountID") m with
      | Some entry => List.last (List.map Some (queue entry)) None
      | None => None
      end
  | None => None
  end.

Definition last_log (w : world) : option log_entry :=
  List.last (List.map Some (console w)) None.

(** What it means for an operation [op], made of [record(name)] followed by
    [try { body } catch (err) { record(name/didError, {error: err});
    logError(message, err) }], to contain the exceptions of its body:
    - [op] always returns normally;
    - when the body throws [err], [op] returns undefined, and the world is
      the one left by the [catch] block;
    - in that world the console ends with the logged error and, when
      telemetry is not switched off and the account identifier is truthy,
      the account's queue ends with the event [event_name] carrying
      [err]. *)
Definition contains_exceptions
    (name event_name message : string) (body op : M value) : Prop :=
  forall w : world,
    (exists v w', op w = (Ok v, w'))
    /\ forall err w1,
         body (record name Undefined w) = (Throw err, w1) ->
         op w = (Ok Undefined, after_catch name message err w1)
         /\ last_log (after_catch name message err w1)
            = Some (LogError message err)
         /\ (strict_equals (readConfig (cfg w1) "aps.telemetry") (Bool false)
             = false ->
             truthy (readConfig (cfg w1) "aps.accountID") = true ->
             exists ev,
               last_event (after_catch name message err w1) = Some ev
               /\ event_type ev = event_name
               /\ get "error" (event_detail ev) = err).

(** ** The validation predicate *)

(** Modelled from the spec: [isNumber] and [isStr] of the framework's
    utilities ([src/utils.js], not part of this module) are the type tests
    for numbers and strings. *)
Definition isNumber (v : value) : bool := is_number v.

Definition isStr (v : value) : bool :=
  match v with Str _ => true | _ => false end.

(** [isValidAccountID(accountID)] *)
Definition isValidAccountID (accountID : value) : bool :=
  if is_nullish accountID then false
  else if isNumber accountID then true
  else if isStr accountID then
    match accountID with
    | Str s => (0 <? String.length (trim s))%nat
    | _ => false
    end
  else false.

(** ** A reference engine for evaluating examples

    [Number::toString], [StringToNumber] and [JSON.stringify] belong to the
    JavaScript engine and are parameters of the development below.  The
    functions here instantiate them when a statement is evaluated on
    concrete data: they agree with the engine on integers of magnitude
    below 10^21 and on strings of decimal digits. *)

Definition quote : string := String (ascii_of_nat 34) EmptyString.
Definition backslash : string := String (ascii_of_nat 92) EmptyString.
Definition newline : string := String (ascii_of_nat 10) EmptyString.

Definition decimal_of_Z (z : Z) : string :=
  match z with
  | Z0 => "0"
  | Zpos p => NilEmpty.string_of_uint (Pos.to_uint p)
  | Zneg p => "-" ++ NilEmpty.string_of_uint (Pos.to_uint p)
  end.

Definition integer_to_string (x : number) : string :=
  match x with
  | S754_zero _ => "0"
  | S754_nan => "NaN"
  | S754_infinity false => "Infinity"
  | S754_infinity true => "-Infinity"
  | S754_finite s m e =>
      let magnitude :=
        match e with
        | Z0 => Zpos m
        | Zpos k => Z.shiftl (Zpos m) (Zpos k)
        | Zneg k => Z.shiftr (Zpos m) (Zpos k)
        end in
      decimal_of_Z (if s then Z.opp magnitude else magnitude)
  end.

Fixpoint digits_value (acc : Z) (s : string) : option Z :=
  match s with
  | EmptyString => Some acc
  | String c rest =>
      let n := Z.of_N (N_of_ascii c) in
      if ((48 <=? n) && (n <=? 57))%Z
      then digits_value (10 * acc + (n - 48))%Z rest
      else None
  end.

Definition digits_to_number (s : string) : number :=
  match digits_value 0 (trim s) with
  | Some z => num_of_Z z
  | None => NaN
  end.

Definition hex_digit (n : N) : string :=
  match String.get (N.to_nat n) "0123456789abcdef" with
  | Some c => String c EmptyString
  | None => EmptyString
  end.

Definition json_escape_char (c : ascii) : string :=
  let n := N_of_ascii c in
  if (n =? 34)%N then backslash ++ quote
  else if (n =? 92)%N then backslash ++ backslash
  else if (n =? 8)%N then backslash ++ "b"
  else if (n =? 9)%N then backslash ++ "t"
  else if (n =? 10)%N then backslash ++ "n"
  else if (n =? 12)%N then backslash ++ "f"
  else if (n =? 13)%N then backslash ++ "r"
  else if (n <? 32)%N
       then backslash ++ "u00" ++ hex_digit (n / 16) ++ hex_digit (n mod 16)
  else String c EmptyString.

Fixpoint json_escape (s : string) : string :=
  match s with
  | EmptyString => EmptyString
  | String c rest => json_escape_char c ++ json_escape rest
  end.

Definition json_quote (s : string) : string := quote ++ json_escape s ++ quote.

Fixpoint join (sep : string) (l : list string) : string :=
  match l with
  | [] => EmptyString
  | [x] => x
  | x :: rest => x ++ sep ++ join sep rest
  end.

(** The JSON text of a value; [None] where [JSON.stringify] gives
    undefined. *)
Fixpoint json_text (v : value) : option string :=
  let element (x : value) : string :=
    match json_text x with Some t => t | None => "null" end in
  let fix elements (l : list value) : list string :=
    match l with
    | [] => []
    | x :: rest => element x :: elements rest
    end in
  let fix members (ps : list (string * value)) : list string :=
    match ps with
    | [] => []
    | (k, x) :: rest =>
        match json_text x with
        | Some t => (json_quote k ++ ":" ++ t) :: members rest
        | None => members rest
        end
    end in
  match v with
  | Undefined => None
  | Null => Some "null"
  | Bool true => Some "true"
  | Bool false => Some "false"
  | Num (S754_nan | S754_infinity _) => Some "null"
  | Num x => Some (integer_to_string x)
  | Str s => Some (json_quote s)
  | Arr es _ => Some ("[" ++ join "," (elements es) ++ "]")
  | Obj ps | ErrObj _ ps => Some ("{" ++ join "," (members ps) ++ "}")
  end.

Definition json_stringify (v : value) : value :=
  match json_text v with
  | Some t => Str t
  | None => Undefined
  end.

(** ** Sample data for the examples *)

Definition num (z : Z) : value := Num (num_of_Z z).

Definition sample_config : config := [("aps.accountID", Str "example-account")].

Definition sample_world : world := World sample_config None [].

Definition imp_with_format : value :=
  Obj [("id", Str "1");
       ("banner",
        Obj [("format",
              array [Obj [("w", num 300); ("h", num 250)];
                     Obj [("w", num 728); ("h", num 90)]])])].

Definition imp_without_format : value :=
  Obj [("id", Str "2"); ("banner", Obj [])].

Definition imp_with_bad_format : value :=
  Obj [("id", Str "3");
       ("banner", Obj [("format", array [Obj [("w", Str "300"); ("h", num 250)]])])].

Definition sample_request : value :=
  Obj [("id", Str "auction-1");
       ("device",
        Obj [("geo", Obj [("lat", num 47); ("lon", num 8); ("country", Str "CHE")])]);
       ("user",
        Obj [("id", Str "u-1"); ("gender", Str "F"); ("yob", num 1990);
             ("keywords", Str "a,b"); ("data", array [])]);
       ("imp", array [imp_with_format; imp_without_format])].

Definition sample_buildRequest (imps bidderRequest context : value)
  : result value := Ok sample_request.

Definition bad_buildRequest (imps bidderRequest context : value)
  : result value := Ok (Obj [("imp", array [imp_with_bad_format])]).

Definition video_wire_bid : value :=
  Obj [("id", Str "bid-v"); ("impid", Str "1"); ("mtype", num 2);
       ("adm", Str "https://ads.example/vast.xml")].

Definition banner_wire_bid : value :=
  Obj [("id", Str "bid-b"); ("impid", Str "2"); ("mtype", num 1);
       ("adm", Str "<div>creative</div>")].

Definition sample_response_body : value :=
  Obj [("id", Str "auction-1");
       ("seatbid",
        array [Obj [("seat", Str "aps");
                    ("bid", array [video_wire_bid; banner_wire_bid])]])].

Definition sample_response : value := Obj [("body", sample_response_body)].

Definition sample_server_request : value := Obj [("data", sample_request)].

(** A generic conversion that names the media type after [mtype]. *)
Definition generic_by_mtype (bid context : value) : result value :=
  Ok (Obj [("mediaType",
            Str (if strict_equals (get "mtype" bid) (num 2)
                 then "video" else "banner"));
           ("seatBidId", get "id" bid)]).

Definition sample_sync_responses : list value :=
  [Obj [("body",
         Obj [("ext",
               Obj [("userSyncs",
                     array [Obj [("type", Str "iframe"); ("url", Str "https://s.example/i")];
                            Obj [("type", Str "image"); ("url", Str "https://s.example/p")]])])])];
   Obj [("body", Obj [])]].

(** Reading a markup back: the text that follows a marker, the text up to
    the next single quote, and the number of places where a marker
    occurs. *)
Fixpoint after (marker s : string) : string :=
  match s with
  | EmptyString => EmptyString
  | String _ rest =>
      if String.prefix marker s
      then String.substring (String.length marker)
             (String.length s - String.length marker) s
      else after marker rest
  end.

Fixpoint until_quote (s : string) : string :=
  match s with
  | EmptyString => EmptyString
  | String c rest =>
      if Ascii.eqb c "'" then EmptyString else String c (until_quote rest)
  end.

Fixpoint occurrences (marker s : string) : nat :=
  match s with
  | EmptyString => 0
  | String _ rest =>
      (if String.prefix marker s then 1 else 0) + occurrences marker rest
  end.

(** The [aaxResponse] payload of a markup. *)
Definition payload_of (ad : value) : string :=
  match ad with
  | Str s => until_quote (after "aaxResponse: '" s)
  | _ => EmptyString
  end.


(** Further sample data: debug configurations, a request with a missing
    impression and a sync list with a missing entry. *)
Definition debug_config : config :=
  [("aps.accountID", Str "example-account");
   ("aps.debug", Bool true);
   ("aps.debugURL", Str "https://debug.example/bid");
   ("aps.renderMethod", Str "fif")].

Definition debug_world : world := World debug_config None [].

Definition numeric_endpoint_world : world :=
  World [("aps.accountID", Str "example-account");
         ("aps.debug", Bool true);
         ("aps.debugURL", num 5)] None [].

Definition sample_toORTB (bidRequests bidderRequest : value) : result value :=
  Ok sample_request.

Definition request_with_null_imp : value :=
  Obj [("id", Str "auction-2"); ("imp", array [imp_with_format; Null])].

Definition generic_as_video (bid context : value) : result value :=
  Ok (Obj [("mediaType", Str "video"); ("seatBidId", get "id" bid)]).

Definition sync_responses_with_null : list value :=
  [Obj [("body",
         Obj [("ext",
               Obj [("userSyncs",
                     array [Obj [("type", Str "iframe");
                                 ("url", Str "https://s.example/i")];
                            Null])])])]].

Definition world_with_history : world :=
  World sample_config
    (Some [(Str "other-account",
            AccountEntry [CustomEvent "kept" Undefined] []);
           (Str "example-account",
            AccountEntry [CustomEvent "earlier" Undefined]
              [(Str "note", Str "kept")])])
    [].

(** An impression whose banner has a negative width beside a format list. *)
Definition imp_with_negative_width : value :=
  Obj [("id", Str "4");
       ("banner",
        Obj [("w", num (-1)); ("h", num 5);
             ("format", array [Obj [("w", num 300); ("h", num 250)]])])].

Definition negative_width_buildRequest (imps bidderRequest context : value)
  : result value :=
  Ok (Obj [("id", Str "auction-3"); ("imp", array [imp_with_negative_width])]).
(** ** The adapter *)

Section Adapter.

(** The JavaScript engine: [Number::toString], [StringToNumber] and
    [JSON.stringify]. *)
Variable number_to_string : number -> string.
Variable string_to_number : string -> number.
Variable JSON_stringify : value -> value.

(** The media type constant [VIDEO] of [src/mediaTypes.js]. *)
Variable VIDEO : string.

(** The converter that [ortbConverter] builds around the two hooks below
    is library code.  [toORTB] maps the bid requests and the bidder
    request to the wire request, or throws.  [fromORTB] receives the
    response body and the request by reference and may edit them, so it
    gives the interpreted response together with the response body as it
    stands after the call. *)
Variable toORTB : value -> value -> result value.
Variable fromORTB : value -> value -> result (value * value).

(** *** Conversions *)

Definition error_to_string (e : exn) : string :=
  match e with
  | TypeError => "TypeError"
  | Error message =>
      if is_empty message then "Error" else "Error: " ++ message
  end.

(** [ToString], as template literals and string concatenation apply it.
    The message text of a TypeError raised by the engine is not
    modelled. *)
Fixpoint to_string (v : value) : string :=
  let element (x : value) : string :=
    match x with
    | Undefined | Null => EmptyString
    | _ => to_string x
    end in
  let fix elements (l : list value) : list string :=
    match l with
    | [] => []
    | x :: rest => element x :: elements rest
    end in
  match v with
  | Undefined => "undefined"
  | Null => "null"
  | Bool true => "true"
  | Bool false => "false"
  | Num x => number_to_string x
  | Str s => s
  | Arr es _ => join "," (elements es)
  | Obj _ => "[object Object]"
  | ErrObj e _ => error_to_string e
  end.

(** [ToNumber], as the relational operators apply it. *)
Definition to_number (v : value) : number :=
  match v with
  | Undefined => NaN
  | Null => zero
  | Bool true => num_of_Z 1
  | Bool false => zero
  | Num x => x
  | Str s => string_to_number s
  | Arr _ _ | Obj _ | ErrObj _ _ => string_to_number (to_string v)
  end.

(** [v >= 0] *)
Definition ge_zero (v : value) : bool := number_ge_zero (to_number v).

(** *** The request hook: [converter.request] *)

Definition elems_of (v : value) : list value :=
  match v with Arr es _ => es | _ => [] end.

Definition props_of (v : value) : props :=
  match own_props v with Some ps => ps | None => [] end.

(** [if (request?.device?.geo) { delete ...lat; delete ...lon }] *)
Definition strip_geo (request : value) : value :=
  let device := opt_get "device" request in
  let geo := opt_get "geo" device in
  if truthy geo
  then put "device" (put "geo" (delete "lon" (delete "lat" geo)) device)
         request
  else request.

Definition strip_user_fields (user : value) : value :=
  delete "data"
    (delete "geo"
       (delete "customdata"
          (delete "kwarry"
             (delete "keywords" (delete "yob" (delete "gender" user)))))).

Definition doesHWExist (banner : value) : bool :=
  ge_zero (get "w" banner) && ge_zero (get "h" banner).

Definition doesFormatExist (banner : value) : bool :=
  is_array (get "format" banner)
  && (0 <? List.length (elems_of (get "format" banner)))%nat.

Definition first_of (format : value) : value :=
  match elems_of format with
  | first :: _ => first
  | [] => Undefined
  end.

Definition invalid_dimensions (index : nat) (w h : value) : value :=
  new_error ("Invalid banner format dimensions at impression "
             ++ string_of_index index
             ++ ": w=" ++ to_string w ++ ", h=" ++ to_string h).

Definition missing_impression (index : nat) : value :=
  new_error ("Impression at index " ++ string_of_index index
             ++ " is null or undefined").

(** The callback of [request.imp.forEach]; it gives the impression as the
    callback leaves it. *)
Definition process_imp (index : nat) (imp : value) : result value :=
  if negb (truthy imp) then Throw (missing_impression index)
  else
    let banner := get "banner" imp in
    if negb (truthy banner) then Ok imp
    else if negb (doesHWExist banner) && doesFormatExist banner then
      let first := first_of (get "format" banner) in
      if is_nullish first then Throw type_error
      else
        let w := get "w" first in
        let h := get "h" first in
        if negb (is_number w) || negb (is_number h)
        then Throw (invalid_dimensions index w h)
        else Ok (put "banner" (put "h" h (put "w" w banner)) imp)
    else Ok imp.

Fixpoint for_each_imp (index : nat) (imps : list value)
  : result (list value) :=
  match imps with
  | [] => Ok []
  | imp :: rest =>
      imp' <- process_imp index imp ;;
      rest' <- for_each_imp (S index) rest ;;
      Ok (imp' :: rest')
  end.

(** The edits of the hook on the request that [buildRequest] returned. *)
Definition request_edits (c : config) (request : value) : result value :=
  let request := strip_geo request in
  user <- get_prop "user" request ;;
  let request :=
    if truthy user then put "user" (strip_user_fields user) request
    else request in
  request <- set_prop "ext" (nullish_or (get "ext" request) empty_object)
               request ;;
  ext <- set_prop "account" (readConfig c "aps.accountID")
           (get "ext" request) ;;
  let request := put "ext" ext request in
  request <- set_prop "cur"
               (nullish_or (get "cur" request) (array [Str "USD"]))
               request ;;
  let imp := get "imp" request in
  if negb (truthy imp) || negb (is_array imp)
  then Throw (new_error "Request must contain a valid impressions array")
  else
    imps <- for_each_imp 0 (elems_of imp) ;;
    Ok (put "imp" (Arr imps (props_of imp)) request).

(** [request(buildRequest, imps, bidderRequest, context)] *)
Definition converter_request
    (c : config)
    (buildRequest : value -> value -> value -> result value)
    (imps bidderRequest context : value) : result value :=
  request <- buildRequest imps bidderRequest context ;;
  request_edits c request.

(** *** The response hook: [converter.bidResponse] *)

Definition two : number := num_of_Z 2.

(** [bidResponse(buildBidResponse, bid, context)].  The hook edits the wire
    bid in place, so the result is the Bid together with the wire bid as
    the hook leaves it. *)
Definition converter_bidResponse
    (buildBidResponse : value -> value -> result value)
    (bid context : value) : result (value * value) :=
  mtype <- get_prop "mtype" bid ;;
  let video := strict_equals mtype (Num two) in
  let vastUrl := if video then get "adm" bid else Undefined in
  let bid := if video then delete "adm" bid else bid in
  bidResponse <- buildBidResponse bid context ;;
  mediaType <- get_prop "mediaType" bidResponse ;;
  if strict_equals mediaType (Str VIDEO) then
    bidResponse <- set_prop "vastUrl" vastUrl bidResponse ;;
    Ok (bidResponse, bid)
  else Ok (bidResponse, bid).

(** Modelled from the spec: generic conversion is the [buildBidResponse]
    of the converter library ([libraries/ortbConverter], not part of this
    module), which the hook receives as an argument.  The spec calls
    [mtype] the media-type code of the wire bid and 2 its video value, and
    it divides the Bids into video and other ones by that code: the Bid
    that generic conversion makes of a wire bid with code 2 has the media
    type [VIDEO]. *)
Definition video_code_gives_video
    (buildBidResponse : value -> value -> result value) : Prop :=
  forall bid context bidResponse,
    strict_equals (get "mtype" bid) (Num two) = true ->
    buildBidResponse bid context = Ok bidResponse ->
    strict_equals (get "mediaType" bidResponse) (Str VIDEO) = true.

(** *** [spec.isBidRequestValid] *)

Definition isBidRequestValid_body : M value :=
  accountID <~ read_config "aps.accountID" ;;
  if negb (isValidAccountID accountID) then
    _ <~ logWarn ("Invalid accountID: " ++ to_string accountID) ;;
    mret (Bool false)
  else mret (Bool true).

Definition isBidRequestValid (bid : value) : M value :=
  _ <~ do_record "isBidRequestValid" Undefined ;;
  try_catch isBidRequestValid_body
    (fun err =>
       _ <~ do_record "isBidRequestValid/didError" (Obj [("error", err)]) ;;
       _ <~ logError "Error while validating bid request" err ;;
       mret Undefined).

(** *** [spec.buildRequests] *)

(** [endpoint.includes('?')]: strings and arrays have the method. *)
Definition includes_question_mark (endpoint : value) : result bool :=
  match endpoint with
  | Str s => Ok (contains_char "?" s)
  | Arr es _ => Ok (existsb (same_value_zero (Str "?")) es)
  | _ => Throw type_error
  end.

Definition debug_endpoint (c : config) (endpoint : value) : result value :=
  if truthy (readConfig c "aps.debug") then
    has_query <- includes_question_mark endpoint ;;
    let debugQueryChar := if has_query then "&" else "?" in
    let renderMethod := readConfig c "aps.renderMethod" in
    if strict_equals renderMethod (Str "fif")
    then Ok (Str (to_string endpoint ++ debugQueryChar
                  ++ "amzn_debug_mode=fif&amzn_debug_mode=1"))
    else Ok (Str (to_string endpoint ++ debugQueryChar
                  ++ "amzn_debug_mode=1"))
  else Ok endpoint.

Definition buildRequests_body (bidRequests bidderRequest : value)
  : M value :=
  fun w =>
    let c := cfg w in
    lift
      (endpoint <- debug_endpoint c
                     (nullish_or (readConfig c "aps.debugURL")
                        (Str AAX_ENDPOINT)) ;;
       data <- toORTB bidRequests bidderRequest ;;
       Ok (Obj [("method", Str "POST");
                ("url", endpoint);
                ("data", data);
                ("options",
                 Obj [("contentType", Str "application/json")])]))
      w.

Definition buildRequests (bidRequests bidderRequest : value) : M value :=
  _ <~ do_record "buildRequests" Undefined ;;
  try_catch (buildRequests_body bidRequests bidderRequest)
    (fun err =>
       _ <~ do_record "buildRequests/didError" (Obj [("error", err)]) ;;
       _ <~ logError "Error while building bid request" err ;;
       mret Undefined).

(** *** [spec.interpretResponse] *)

(** The markup of a non-video bid, up to its closing tag. *)
Definition ad_markup_body
    (creativeUrl accountID aaxResponse seatBidId : string) : string :=
  "<script src=" ++ quote ++ creativeUrl ++ quote ++ "></script>"
  ++ newline ++
  "<script>" ++ newline ++
  "  const accountID = '" ++ accountID ++ "';" ++ newline ++
  "  window._aps = window._aps || new Map();" ++ newline ++
  "  if (!window._aps.has(accountID)) {" ++ newline ++
  "    window._aps.set(accountID, { queue: [], store: new Map([['listeners', new Map()]]) });"
  ++ newline ++
  "  }" ++ newline ++
  "  window._aps.get(accountID).queue.push(" ++ newline ++
  "    new CustomEvent('prebid/creative/render', {" ++ newline ++
  "      detail: {" ++ newline ++
  "        aaxResponse: '" ++ aaxResponse ++ "'," ++ newline ++
  "        seatBidId: " ++ seatBidId ++ newline ++
  "      }" ++ newline ++
  "    })" ++ newline ++
  "  );" ++ newline.

(** The template literal assigned to [bid.ad]. *)
Definition ad_markup
    (creativeUrl accountID aaxResponse seatBidId : string) : string :=
  ad_markup_body creativeUrl accountID aaxResponse seatBidId ++ "</script>".

(** The callback of [interpretedResponse.bids.forEach]; [body] is
    [response.body] as it stands when the callback runs. *)
Definition render_bid (creativeUrl accountID body : value) (bid : value)
  : result value :=
  mediaType <- get_prop "mediaType" bid ;;
  if negb (strict_equals mediaType (Str VIDEO)) then
    let bid := delete "ad" bid in
    set_prop "ad"
      (Str (trim (ad_markup
                    (to_string creativeUrl)
                    (to_string accountID)
                    (btoa (to_string (JSON_stringify body)))
                    (to_string (JSON_stringify (get "seatBidId" bid))))))
      bid
  else Ok bid.

Fixpoint for_each_bid (creativeUrl accountID body : value)
    (bids : list value) : result (list value) :=
  match bids with
  | [] => Ok []
  | bid :: rest =>
      bid' <- render_bid creativeUrl accountID body bid ;;
      rest' <- for_each_bid creativeUrl accountID body rest ;;
      Ok (bid' :: rest')
  end.

Definition creative_url (c : config) : value :=
  or_else (readConfig c "aps.creativeURL")
    (Str DEFAULT_PREBID_CREATIVE_JS_URL).

Definition interpretResponse_body (response request : value) : M value :=
  fun w =>
    let c := cfg w in
    lift
      (body <- get_prop "body" response ;;
       data <- get_prop "data" request ;;
       converted <- fromORTB body data ;;
       let interpretedResponse := fst converted in
       let body := snd converted in
       let accountID := readConfig c "aps.accountID" in
       let creativeUrl := creative_url c in
       bids <- get_prop "bids" interpretedResponse ;;
       match bids with
       | Arr es ps =>
           es' <- for_each_bid creativeUrl accountID body es ;;
           Ok (Arr es' ps)
       | _ => Throw type_error
       end)
      w.

Definition interpretResponse (response request : value) : M value :=
  _ <~ do_record "interpretResponse" Undefined ;;
  try_catch (interpretResponse_body response request)
    (fun err =>
       _ <~ do_record "interpretResponse/didError" (Obj [("error", err)]) ;;
       _ <~ logError "Error while interpreting bid response" err ;;
       mret Undefined).

(** *** [spec.getUserSyncs] *)

(** What the [flatMap] callback contributes for one response: the elements
    of an array, or the value itself when it is not an array. *)
Definition user_syncs_of (res : value) : list value :=
  let syncs :=
    nullish_or
      (opt_get "userSyncs" (opt_get "ext" (opt_get "body" res)))
      (array []) in
  match syncs with
  | Arr es _ => es
  | _ => [syncs]
  end.

(** The condition of the [filter] callback, on an entry and options that
    are neither null nor undefined. *)
Definition sync_enabled (syncOptions s : value) : bool :=
  (strict_equals (get "type" s) (Str "iframe")
   && truthy (get "iframeEnabled" syncOptions))
  || (strict_equals (get "type" s) (Str "image")
      && truthy (get "pixelEnabled" syncOptions)).

(** The [filter] callback. *)
Definition wants_sync (syncOptions s : value) : result bool :=
  type <- get_prop "type" s ;;
  iframe <- (if strict_equals type (Str "iframe")
             then enabled <- get_prop "iframeEnabled" syncOptions ;;
                  Ok (truthy enabled)
             else Ok false) ;;
  if iframe then Ok true
  else if strict_equals type (Str "image")
       then enabled <- get_prop "pixelEnabled" syncOptions ;;
            Ok (truthy enabled)
       else Ok false.

Fixpoint filter_syncs (syncOptions : value) (l : list value)
  : result (list value) :=
  match l with
  | [] => Ok []
  | s :: rest =>
      keep <- wants_sync syncOptions s ;;
      rest' <- filter_syncs syncOptions rest ;;
      Ok (if keep then s :: rest' else rest')
  end.

Definition getUserSyncs_body (syncOptions serverResponses : value)
  : M value :=
  lift
    match serverResponses with
    | Arr responses _ =>
        kept <- filter_syncs syncOptions
                  (flat_map user_syncs_of responses) ;;
        Ok (array kept)
    | _ => Throw type_error
    end.

Definition getUserSyncs
    (syncOptions serverResponses gdprConsent uspConsent : value)
  : M value :=
  _ <~ do_record "getUserSyncs" Undefined ;;
  try_catch (getUserSyncs_body syncOptions serverResponses)
    (fun err =>
       _ <~ do_record "getUserSyncs/didError" (Obj [("error", err)]) ;;
       _ <~ logError "Error while getting user syncs" err ;;
       mret Undefined).

(** *** The converter around the response hook *)

(** Modelled from the spec: the response side of the converter that
    [ortbConverter] builds ([libraries/ortbConverter], not part of this
    module).  It maps every wire bid of every seat of the response to a
    Bid through the [bidResponse] hook.  The hook works on the wire bid
    itself, so the response body afterwards holds the wire bids as the
    hook left them.  The conversion context, which the hook only passes
    on, is the request. *)
Fixpoint convert_bids
    (buildBidResponse : value -> value -> result value)
    (context : value) (bids : list value)
  : result (list value * list value) :=
  match bids with
  | [] => Ok ([], [])
  | bid :: rest =>
      converted <- converter_bidResponse buildBidResponse bid context ;;
      others <- convert_bids buildBidResponse context rest ;;
      Ok (fst converted :: fst others, snd converted :: snd others)
  end.

Fixpoint convert_seats
    (buildBidResponse : value -> value -> result value)
    (context : value) (seats : list value)
  : result (list value * list value) :=
  match seats with
  | [] => Ok ([], [])
  | seat :: rest =>
      let bids := opt_get "bid" seat in
      converted <- convert_bids buildBidResponse context (elems_of bids) ;;
      others <- convert_seats buildBidResponse context rest ;;
      let seat' :=
        if is_array bids
        then put "bid" (Arr (snd converted) (props_of bids)) seat
        else seat in
      Ok ((fst converted ++ fst others)%list, seat' :: snd others)
  end.

Definition fromORTB_through_hook
    (buildBidResponse : value -> value -> result value)
    (response request : value) : result (value * value) :=
  let seats := opt_get "seatbid" response in
  converted <- convert_seats buildBidResponse request (elems_of seats) ;;
  let response' :=
    if is_array seats
    then put "seatbid" (Arr (snd converted) (props_of seats)) response
    else response in
  Ok (Obj [("bids", array (fst converted))], response').

(** *** The notification callbacks *)

(** [onTimeout(timeoutData)] *)
Definition onTimeout (timeoutData : value) : M value :=
  _ <~ do_record "onTimeout" (Obj [("error", timeoutData)]) ;;
  mret Undefined.

(** [onSetTargeting(bid)] *)
Definition onSetTargeting (bid : value) : M value :=
  _ <~ do_record "onSetTargeting" Undefined ;;
  mret Undefined.

(** [onAdRenderSucceeded(bid)] *)
Definition onAdRenderSucceeded (bid : value) : M value :=
  _ <~ do_record "onAdRenderSucceeded" Undefined ;;
  mret Undefined.

(** [onBidderError(error)] *)
Definition onBidderError (error : value) : M value :=
  _ <~ do_record "onBidderError" (Obj [("error", error)]) ;;
  mret Undefined.

(** [onBidWon(bid)] *)
Definition onBidWon (bid : value) : M value :=
  _ <~ do_record "onBidWon" Undefined ;;
  mret Undefined.

(** [onBidAttribute(bid)] *)
Definition onBidAttribute (bid : value) : M value :=
  _ <~ do_record "onBidAttribute" Undefined ;;
  mret Undefined.

(** [onBidBillable(bid)] *)
Definition onBidBillable (bid : value) : M value :=
  _ <~ do_record "onBidBillable" Undefined ;;
  mret Undefined.

(** *** Measures used in the statements *)

(** The number of separators in a string. *)
Fixpoint count_char (c : ascii) (s : string) : nat :=
  match s with
  | EmptyString => 0
  | String c' rest =>
      (if Ascii.eqb c' c then 1 else 0) + count_char c rest
  end.

(** The entry of an account in [window._aps], an empty one when the account
    has none yet. *)
Definition entry_of (key : value) (m : option aps_map) : account_entry :=
  match m with
  | Some m =>
      match aps_get key m with
      | Some entry => entry
      | None => AccountEntry [] []
      end
  | None => AccountEntry [] []
  end.

(** The event that [record(eventName, data)] files. *)
Definition event_of (eventName : string) (data : value) : event :=
  CustomEvent (final_event_name eventName) (event_detail_of data).

(** Telemetry is on and the account identifier is truthy: the two gates of
    [record]. *)
Definition telemetry_on (w : world) : bool :=
  negb (strict_equals (readConfig (cfg w) "aps.telemetry") (Bool false))
  && truthy (readConfig (cfg w) "aps.accountID").

(** The entries of [window._aps], none when it does not exist yet. *)
Definition aps_entries (w : world) : aps_map :=
  match window_aps w with Some m => m | None => [] end.

(** What a notification callback does: it returns undefined and its whole
    effect is one call of [record] under its own name. *)
Definition notifies (name : string) (data : value) (callback : M value)
  : Prop :=
  forall w : world,
    callback w = (Ok Undefined, record name data w)
    /\ (telemetry_on w = true ->
        last_event (snd (callback w))
        = Some (CustomEvent ("prebidAdapter/" ++ name ++ "/didTrigger")
                  (event_detail_of data)))
    /\ (telemetry_on w = false -> snd (callback w) = w).

(** The request descriptor that [buildRequests] returns. *)
Definition descriptor (url data : value) : value :=
  Obj [("method", Str "POST");
       ("url", url);
       ("data", data);
       ("options", Obj [("contentType", Str "application/json")])].

(** The endpoint before the debug parameters:
    [config.readConfig('aps.debugURL') ?? AAX_ENDPOINT]. *)
Definition configured_endpoint (c : config) : value :=
  nullish_or (readConfig c "aps.debugURL") (Str AAX_ENDPOINT).

(** The debug parameters that [buildRequests] appends. *)
Definition debug_parameters (c : config) : string :=
  if strict_equals (readConfig c "aps.renderMethod") (Str "fif")
  then "amzn_debug_mode=fif&amzn_debug_mode=1"
  else "amzn_debug_mode=1".

(** An operation only ever appends to the queues: for every account key,
    the queue after the operation is the queue before it followed by at
    most two events, and the auxiliary store of the account is the same. *)
Definition append_only (op : M value) : Prop :=
  forall (w : world) (key : value),
    exists suffix,
      queue (entry_of key (window_aps (snd (op w))))
      = (queue (entry_of key (window_aps w)) ++ suffix)%list
      /\ (List.length suffix <= 2)%nat
      /\ store (entry_of key (window_aps (snd (op w))))
         = store (entry_of key (window_aps w)).

(** ** Properties *)

(** *** Association lists and property access *)

Lemma lookup_write_same (k : string) (x : value) (ps : props) :
  lookup k (write k x ps) = Some x.
Proof.
  induction ps as [| [k' v] rest IH]; simpl.
  - now rewrite String.eqb_refl.
  - destruct (String.eqb k k') eqn:E; simpl.
    + now rewrite String.eqb_refl.
    + now rewrite E.
Qed.

Lemma lookup_write_other (k k' : string) (x : value) (ps : props) :
  String.eqb k k' = false -> lookup k (write k' x ps) = lookup k ps.
Proof.
  intros Hk. induction ps as [| [k2 v] rest IH]; simpl.
  - now rewrite Hk.
  - destruct (String.eqb k' k2) eqn:E; simpl.
    + apply String.eqb_eq in E. subst k2. now rewrite Hk.
    + now rewrite IH.
Qed.

Lemma lookup_remove_same (k : string) (ps : props) :
  lookup k (remove k ps) = None.
Proof.
  induction ps as [| [k' v] rest IH]; simpl; [reflexivity |].
  destruct (String.eqb k k') eqn:E; simpl; [assumption |].
  now rewrite E.
Qed.

Lemma lookup_remove_other (k k' : string) (ps : props) :
  String.eqb k k' = false -> lookup k (remove k' ps) = lookup k ps.
Proof.
  intros Hk. induction ps as [| [k2 v] rest IH]; simpl; [reflexivity |].
  destruct (String.eqb k' k2) eqn:E; simpl.
  - apply String.eqb_eq in E. subst k2. now rewrite Hk.
  - now rewrite IH.
Qed.

Lemma own_props_with_props (v : value) (ps : props) :
  is_object v = true -> own_props (with_props v ps) = Some ps.
Proof. destruct v; simpl; intros H; try discriminate; reflexivity. Qed.

Lemma is_object_put (k : string) (x v : value) :
  is_object (put k x v) = is_object v.
Proof. destruct v; reflexivity. Qed.

Lemma is_object_delete (k : string) (v : value) :
  is_object (delete k v) = is_object v.
Proof. destruct v; reflexivity. Qed.

Lemma is_object_not_nullish (v : value) :
  is_object v = true -> is_nullish v = false.
Proof. destruct v; simpl; intros H; try discriminate; reflexivity. Qed.

Lemma truthy_not_nullish (v : value) :
  truthy v = true -> is_nullish v = false.
Proof. destruct v; simpl; intros H; try discriminate; reflexivity. Qed.

Lemma get_put_same (k : string) (x v : value) :
  is_object v = true -> get k (put k x v) = x.
Proof.
  destruct v; simpl; intros H; try discriminate;
    unfold get, put; simpl; now rewrite lookup_write_same.
Qed.

Lemma get_put_other (k k' : string) (x v : value) :
  String.eqb k k' = false -> get k (put k' x v) = get k v.
Proof.
  intros Hk. destruct v; try reflexivity;
    unfold get, put; simpl; now rewrite lookup_write_other.
Qed.

Lemma get_delete_other (k k' : string) (v : value) :
  String.eqb k k' = false -> get k (delete k' v) = get k v.
Proof.
  intros Hk. destruct v; try reflexivity;
    unfold get, delete; simpl; now rewrite lookup_remove_other.
Qed.

Lemma get_delete_same (k : string) (v : value) :
  get k (delete k v) = Undefined.
Proof.
  destruct v; try reflexivity;
    unfold get, delete; simpl; now rewrite lookup_remove_same.
Qed.

Lemma has_key_delete_same (k : string) (v : value) :
  has_key k (delete k v) = false.
Proof.
  destruct v; try reflexivity;
    unfold has_key, delete; simpl; now rewrite lookup_remove_same.
Qed.

Lemma has_key_delete_other (k k' : string) (v : value) :
  String.eqb k k' = false -> has_key k (delete k' v) = has_key k v.
Proof.
  intros Hk. destruct v; try reflexivity;
    unfold has_key, delete; simpl; now rewrite lookup_remove_other.
Qed.

Lemma has_key_put_other (k k' : string) (x v : value) :
  String.eqb k k' = false -> has_key k (put k' x v) = has_key k v.
Proof.
  intros Hk. destruct v; try reflexivity;
    unfold has_key, put; simpl; now rewrite lookup_write_other.
Qed.

Lemma has_key_primitive (k : string) (v : value) :
  is_object v = false -> has_key k v = false.
Proof. destruct v; simpl; intros H; try discriminate; reflexivity. Qed.

Lemma truthy_or_primitive (v : value) :
  truthy v = true \/ is_object v = false.
Proof. destruct v; simpl; auto. Qed.

(** *** The request hook *)

Lemma opt_get_get (k : string) (v : value) : opt_get k v = get k v.
Proof. destruct v; reflexivity. Qed.

Lemma truthy_get_object (k : string) (v : value) :
  truthy (get k v) = true -> is_object v = true.
Proof. destruct v; simpl; intros H; try discriminate; reflexivity. Qed.

Lemma falsy_no_key (k : string) (v : value) :
  truthy v = false -> has_key k v = false.
Proof. destruct v; simpl; intros H; try discriminate; reflexivity. Qed.

Lemma set_prop_ok (k : string) (x v r : value) :
  set_prop k x v = Ok r -> is_object v = true /\ r = put k x v.
Proof.
  unfold set_prop, is_object. destruct (own_props v); intros H;
    [inversion H; auto | discriminate].
Qed.

Lemma get_prop_ok (k : string) (v r : value) :
  get_prop k v = Ok r -> is_nullish v = false /\ r = get k v.
Proof.
  unfold get_prop. destruct (is_nullish v); intros H;
    [discriminate | inversion H; auto].
Qed.

Lemma strip_geo_is_object (request : value) :
  is_object (strip_geo request) = is_object request.
Proof.
  unfold strip_geo. destruct (truthy _); [apply is_object_put | reflexivity].
Qed.

Lemma strip_geo_get_other (k : string) (request : value) :
  String.eqb k "device" = false ->
  get k (strip_geo request) = get k request.
Proof.
  intros Hk. unfold strip_geo.
  destruct (truthy _); [now apply get_put_other | reflexivity].
Qed.

Lemma strip_geo_no_coordinates (request : value) :
  has_key "lat" (get "geo" (get "device" (strip_geo request))) = false
  /\ has_key "lon" (get "geo" (get "device" (strip_geo request))) = false.
Proof.
  unfold strip_geo. rewrite !opt_get_get.
  destruct (truthy (get "geo" (get "device" request))) eqn:Hgeo.
  - assert (Hdev : is_object (get "device" request) = true)
      by (eapply truthy_get_object; eassumption).
    assert (Hreq : is_object request = true).
    { destruct request; try reflexivity; simpl in Hdev; discriminate. }
    rewrite get_put_same by assumption.
    rewrite get_put_same by assumption.
    split.
    + rewrite has_key_delete_other by reflexivity.
      apply has_key_delete_same.
    + apply has_key_delete_same.
  - split; apply falsy_no_key; assumption.
Qed.

Lemma strip_user_fields_keys (user : value) (k : string) :
  In k ["gender"; "yob"; "keywords"; "kwarry"; "customdata"; "geo"; "data"] ->
  has_key k (strip_user_fields user) = false.
Proof.
  unfold strip_user_fields. simpl.
  intros [H | [H | [H | [H | [H | [H | [H | []]]]]]]]; subst k;
    repeat first
      [ apply has_key_delete_same
      | rewrite has_key_delete_other by reflexivity ].
Qed.

(** What a successful run of the edits leaves in the request. *)
Lemma request_edits_inv (c : config) (request r' : value) :
  request_edits c request = Ok r' ->
  is_object request = true
  /\ is_array (get "imp" request) = true
  /\ get "device" r' = get "device" (strip_geo request)
  /\ get "user" r' =
       (if truthy (get "user" request)
        then strip_user_fields (get "user" request)
        else get "user" request)
  /\ exists imps',
       for_each_imp 0 (elems_of (get "imp" request)) = Ok imps'
       /\ get "imp" r' = Arr imps' (props_of (get "imp" request)).
Proof.
  unfold request_edits.
  destruct (get_prop "user" (strip_geo request)) as [user | e] eqn:Huser;
    simpl; [| discriminate].
  apply get_prop_ok in Huser. destruct Huser as [_ Huser].
  rewrite strip_geo_get_other in Huser by reflexivity. subst user.
  set (r1 := if truthy (get "user" request)
             then put "user" (strip_user_fields (get "user" request))
                    (strip_geo request)
             else strip_geo request).
  destruct (set_prop "ext" _ r1) as [r2 | e] eqn:Hext; simpl;
    [| discriminate].
  apply set_prop_ok in Hext. destruct Hext as [Hobj1 Hr2].
  assert (Hobj : is_object request = true).
  { subst r1. destruct (truthy (get "user" request));
      rewrite ?is_object_put, strip_geo_is_object in Hobj1; assumption. }
  destruct (set_prop "account" _ (get "ext" r2)) as [ext | e] eqn:Hacc;
    simpl; [| discriminate].
  destruct (set_prop "cur" _ (put "ext" ext r2)) as [r4 | e] eqn:Hcur;
    simpl; [| discriminate].
  apply set_prop_ok in Hcur. destruct Hcur as [Hobj3 Hr4].
  assert (Himp : get "imp" r4 = get "imp" request).
  { subst r4 r2. rewrite !get_put_other by reflexivity.
    subst r1. destruct (truthy (get "user" request));
      rewrite ?get_put_other by reflexivity;
      now apply strip_geo_get_other. }
  assert (Hdev : get "device" r4 = get "device" (strip_geo request)).
  { subst r4 r2. rewrite !get_put_other by reflexivity.
    subst r1. destruct (truthy (get "user" request));
      rewrite ?get_put_other by reflexivity; reflexivity. }
  assert (Husr : get "user" r4 =
                 (if truthy (get "user" request)
                  then strip_user_fields (get "user" request)
                  else get "user" request)).
  { subst r4 r2. rewrite !get_put_other by reflexivity.
    subst r1. destruct (truthy (get "user" request)).
    - apply get_put_same. now rewrite strip_geo_is_object.
    - now apply strip_geo_get_other. }
  assert (Hobj4 : is_object r4 = true).
  { subst r4. now rewrite is_object_put. }
  rewrite Himp.
  destruct (negb (truthy (get "imp" request))
            || negb (is_array (get "imp" request))) eqn:Hguard;
    [discriminate |].
  apply orb_false_elim in Hguard. destruct Hguard as [_ Harr].
  apply negb_false_iff in Harr.
  destruct (for_each_imp 0 (elems_of (get "imp" request)))
    as [imps' | e] eqn:Himps; simpl; [| discriminate].
  intros H. inversion H; subst r'. clear H.
  repeat split; try assumption.
  - now rewrite get_put_other by reflexivity.
  - now rewrite get_put_other by reflexivity.
  - exists imps'. split; [reflexivity |]. now apply get_put_same.
Qed.

Lemma for_each_imp_nth (imps : list value) :
  forall (index : nat) (imps' : list value) (i : nat) (imp : value),
    for_each_imp index imps = Ok imps' ->
    nth_error imps i = Some imp ->
    exists imp',
      process_imp (index + i) imp = Ok imp' /\ nth_error imps' i = Some imp'.
Proof.
  induction imps as [| x rest IH]; intros index imps' i imp Hrun Hnth.
  - destruct i; discriminate.
  - simpl in Hrun.
    destruct (process_imp index x) as [x' | e] eqn:Hx; simpl in Hrun;
      [| discriminate].
    destruct (for_each_imp (S index) rest) as [rest' | e] eqn:Hrest;
      simpl in Hrun; [| discriminate].
    inversion Hrun; subst imps'; clear Hrun.
    destruct i as [| i]; simpl in Hnth.
    + inversion Hnth; subst x. exists x'.
      rewrite Nat.add_0_r. split; [assumption | reflexivity].
    + destruct (IH (S index) rest' i imp Hrest Hnth) as [imp' [Hp Hn]].
      exists imp'. rewrite Nat.add_succ_r. split; assumption.
Qed.

Lemma request_edits_imp (c : config) (request r' : value)
    (i : nat) (imp : value) :
  request_edits c request = Ok r' ->
  nth_error (elems_of (get "imp" request)) i = Some imp ->
  exists imp',
    process_imp i imp = Ok imp'
    /\ nth_error (elems_of (get "imp" r')) i = Some imp'.
Proof.
  intros Hrun Hnth.
  destruct (request_edits_inv _ _ Hrun)
    as (_ & _ & _ & _ & imps' & Himps & Hget).
  destruct (for_each_imp_nth _ _ _ Himps Hnth) as [imp' [Hp Hn]].
  exists imp'. rewrite Hget. simpl. split; assumption.
Qed.

Lemma request_edits_throws (c : config) (request : value)
    (i : nat) (imp e : value) :
  nth_error (elems_of (get "imp" request)) i = Some imp ->
  process_imp i imp = Throw e ->
  exists e', request_edits c request = Throw e'.
Proof.
  intros Hnth Hthrow.
  destruct (request_edits c request) as [r' | e'] eqn:Hrun.
  - destruct (request_edits_imp _ _ _ Hrun Hnth) as [imp' [Hp _]].
    rewrite Hp in Hthrow. discriminate.
  - now exists e'.
Qed.

Lemma absent_dimensions (banner : value) :
  get "w" banner = Undefined -> doesHWExist banner = false.
Proof. intros Hw. unfold doesHWExist. rewrite Hw. reflexivity. Qed.

Lemma process_imp_without_format (index : nat) (imp : value) :
  truthy imp = true ->
  doesFormatExist (get "banner" imp) = false ->
  process_imp index imp = Ok imp.
Proof.
  intros Himp Hformat. unfold process_imp. rewrite Himp, Hformat. simpl.
  destruct (truthy (get "banner" imp)); simpl; [| reflexivity].
  now rewrite andb_false_r.
Qed.

Lemma process_imp_with_dimensions (index : nat) (imp : value) :
  truthy imp = true ->
  truthy (get "banner" imp) = false \/ doesHWExist (get "banner" imp) = true ->
  process_imp index imp = Ok imp.
Proof.
  intros Himp H. unfold process_imp. rewrite Himp. simpl.
  destruct H as [H | H]; rewrite H; simpl; [reflexivity |].
  now destruct (truthy (get "banner" imp)).
Qed.

Lemma process_imp_truthy (index : nat) (imp imp' : value) :
  process_imp index imp = Ok imp' -> truthy imp = true.
Proof.
  unfold process_imp. destruct (truthy imp); simpl;
    [reflexivity | discriminate].
Qed.

Lemma process_imp_backfill (index : nat) (imp : value) (w h : number) :
  truthy imp = true ->
  truthy (get "banner" imp) = true ->
  doesHWExist (get "banner" imp) = false ->
  doesFormatExist (get "banner" imp) = true ->
  get "w" (first_of (get "format" (get "banner" imp))) = Num w ->
  get "h" (first_of (get "format" (get "banner" imp))) = Num h ->
  process_imp index imp =
    Ok (put "banner"
          (put "h" (Num h) (put "w" (Num w) (get "banner" imp))) imp).
Proof.
  intros Himp Hbanner Hhw Hformat Hw Hh. unfold process_imp.
  rewrite Himp, Hbanner, Hhw, Hformat. simpl.
  destruct (is_nullish (first_of (get "format" (get "banner" imp))))
    eqn:Hnull.
  - destruct (first_of (get "format" (get "banner" imp)));
      simpl in *; discriminate.
  - rewrite Hw, Hh. reflexivity.
Qed.

Lemma process_imp_invalid (index : nat) (imp : value) :
  truthy imp = true ->
  truthy (get "banner" imp) = true ->
  doesHWExist (get "banner" imp) = false ->
  doesFormatExist (get "banner" imp) = true ->
  is_nullish (first_of (get "format" (get "banner" imp))) = false ->
  is_number (get "w" (first_of (get "format" (get "banner" imp)))) = false
  \/ is_number (get "h" (first_of (get "format" (get "banner" imp)))) = false ->
  process_imp index imp =
    Throw (invalid_dimensions index
             (get "w" (first_of (get "format" (get "banner" imp))))
             (get "h" (first_of (get "format" (get "banner" imp))))).
Proof.
  intros Himp Hbanner Hhw Hformat Hnull Hnum. unfold process_imp.
  rewrite Himp, Hbanner, Hhw, Hformat, Hnull. simpl.
  destruct Hnum as [H | H]; rewrite H; simpl; [reflexivity |].
  now rewrite orb_true_r.
Qed.

Lemma for_each_imp_first_throw (imps : list value) :
  forall (index i : nat) (imp e : value),
    nth_error imps i = Some imp ->
    process_imp (index + i) imp = Throw e ->
    (forall j x, (j < i)%nat -> nth_error imps j = Some x ->
                 exists x', process_imp (index + j) x = Ok x') ->
    for_each_imp index imps = Throw e.
Proof.
  induction imps as [| y rest IH]; intros index i imp e Hnth Hthrow Hbefore.
  - destruct i; discriminate.
  - destruct i as [| i]; simpl in Hnth.
    + inversion Hnth; subst y. rewrite Nat.add_0_r in Hthrow.
      simpl. now rewrite Hthrow.
    + destruct (Hbefore 0%nat y) as [y' Hy]; [lia | reflexivity |].
      rewrite Nat.add_0_r in Hy. simpl. rewrite Hy. simpl.
      rewrite (IH (S index) i imp e); [reflexivity | assumption | |].
      * now rewrite Nat.add_succ_comm.
      * intros j x Hj Hx. rewrite Nat.add_succ_comm.
        apply Hbefore; [lia | assumption].
Qed.

(** When the request is an object whose [ext] is absent or an object and
    whose [imp] is an array, the edits fail exactly when an impression
    fails, with that error. *)
Lemma request_edits_throw_of_imp (c : config) (request e : value) :
  is_object request = true ->
  is_nullish (get "ext" request) = true
  \/ is_object (get "ext" request) = true ->
  is_array (get "imp" request) = true ->
  for_each_imp 0 (elems_of (get "imp" request)) = Throw e ->
  request_edits c request = Throw e.
Proof.
  intros Hobj Hext Harr Himps. unfold request_edits.
  unfold get_prop at 1.
  rewrite (is_object_not_nullish (strip_geo request))
    by now rewrite strip_geo_is_object.
  simpl. rewrite strip_geo_get_other by reflexivity.
  set (r1 := if truthy (get "user" request)
             then put "user" (strip_user_fields (get "user" request))
                    (strip_geo request)
             else strip_geo request).
  assert (Hobj1 : is_object r1 = true).
  { subst r1. destruct (truthy (get "user" request));
      rewrite ?is_object_put, strip_geo_is_object; assumption. }
  assert (Hext1 : get "ext" r1 = get "ext" request).
  { subst r1. destruct (truthy (get "user" request));
      rewrite ?get_put_other by reflexivity;
      now apply strip_geo_get_other. }
  assert (Himp1 : get "imp" r1 = get "imp" request).
  { subst r1. destruct (truthy (get "user" request));
      rewrite ?get_put_other by reflexivity;
      now apply strip_geo_get_other. }
  unfold set_prop at 1. unfold is_object in Hobj1.
  destruct (own_props r1) eqn:Hp1; [| discriminate]. simpl.
  assert (Hobj1' : is_object r1 = true) by (unfold is_object; now rewrite Hp1).
  rewrite get_put_same by assumption. rewrite Hext1.
  assert (Hext2 : is_object (nullish_or (get "ext" request) empty_object)
                  = true).
  { unfold nullish_or. destruct Hext as [H | H].
    - now rewrite H.
    - rewrite (is_object_not_nullish _ H). assumption. }
  unfold set_prop at 1. unfold is_object in Hext2.
  destruct (own_props (nullish_or (get "ext" request) empty_object));
    [| discriminate]. simpl.
  unfold set_prop at 1.
  assert (Hobj3 : is_object
                    (put "ext"
                       (put "account" (readConfig c "aps.accountID")
                          (nullish_or (get "ext" request) empty_object))
                       (put "ext"
                          (nullish_or (get "ext" request) empty_object) r1))
                  = true) by now rewrite !is_object_put.
  unfold is_object in Hobj3.
  destruct (own_props (put "ext" _ (put "ext" _ r1))); [| discriminate].
  simpl. rewrite !get_put_other by reflexivity. rewrite Himp1.
  assert (Htruthy : truthy (get "imp" request) = true)
    by (destruct (get "imp" request); simpl in Harr; try discriminate;
        reflexivity).
  rewrite Htruthy, Harr. simpl. now rewrite Himps.
Qed.

(** C1 (as amended).  An impression whose banner lacks both width and
    height and has no non-empty format list makes nothing fail: the
    callback of the hook returns normally on it, and every request the
    hook returns carries the impression unchanged, its banner still
    without width and height. *)
Theorem C1_banner_without_format_is_kept
    (c : config) (buildRequest : value -> value -> value -> result value)
    (imps bidderRequest context request : value) (i : nat) (imp : value) :
  buildRequest imps bidderRequest context = Ok request ->
  nth_error (elems_of (get "imp" request)) i = Some imp ->
  truthy (get "banner" imp) = true ->
  get "w" (get "banner" imp) = Undefined ->
  get "h" (get "banner" imp) = Undefined ->
  doesFormatExist (get "banner" imp) = false ->
  process_imp i imp = Ok imp
  /\ forall r',
       converter_request c buildRequest imps bidderRequest context = Ok r' ->
       exists imp',
         nth_error (elems_of (get "imp" r')) i = Some imp'
         /\ imp' = imp
         /\ get "w" (get "banner" imp') = Undefined
         /\ get "h" (get "banner" imp') = Undefined.
Proof.
  intros Hbuild Hnth Hbanner Hw Hh Hformat.
  assert (Himp : truthy imp = true).
  { apply truthy_get_object in Hbanner.
    destruct imp; simpl in Hbanner; try discriminate; reflexivity. }
  assert (Hp : process_imp i imp = Ok imp)
    by now apply process_imp_without_format.
  split; [assumption |].
  intros r' Hrun. unfold converter_request in Hrun.
  rewrite Hbuild in Hrun. simpl in Hrun.
  destruct (request_edits_imp _ _ _ Hrun Hnth) as [imp' [Hp' Hn]].
  rewrite Hp in Hp'. inversion Hp'; subst imp'.
  exists imp. auto.
Qed.

(** C2.  A request that the hook returns has neither [lat] nor [lon]
    under [device.geo] and none of [gender], [yob], [keywords],
    [kwarry], [customdata], [geo], [data] under [user]. *)
Theorem C2_privacy_fields_removed
    (c : config) (buildRequest : value -> value -> value -> result value)
    (imps bidderRequest context r' : value) :
  converter_request c buildRequest imps bidderRequest context = Ok r' ->
  (forall k, In k ["lat"; "lon"] ->
             has_key k (get "geo" (get "device" r')) = false)
  /\ (forall k,
        In k ["gender"; "yob"; "keywords"; "kwarry"; "customdata"; "geo";
              "data"] ->
        has_key k (get "user" r') = false).
Proof.
  unfold converter_request.
  destruct (buildRequest imps bidderRequest context) as [request | e];
    simpl; [| discriminate].
  intros Hrun.
  destruct (request_edits_inv _ _ Hrun) as (_ & _ & Hdev & Husr & _).
  split.
  - intros k Hk. rewrite Hdev.
    destruct (strip_geo_no_coordinates request) as [Hlat Hlon].
    destruct Hk as [H | [H | []]]; subst k; assumption.
  - intros k Hk. rewrite Husr.
    destruct (truthy (get "user" request)) eqn:Hu.
    + now apply strip_user_fields_keys.
    + now apply falsy_no_key.
Qed.

Lemma number_ge_zero_sign (x : number) :
  number_ge_zero x = non_negative x.
Proof.
  destruct x as [sign | sign | | sign m e]; try destruct sign; reflexivity.
Qed.

Lemma ge_zero_number (x : number) : ge_zero (Num x) = non_negative x.
Proof. apply number_ge_zero_sign. Qed.

Lemma doesHWExist_numbers (banner : value) (x y : number) :
  get "w" banner = Num x -> get "h" banner = Num y ->
  doesHWExist banner = non_negative x && non_negative y.
Proof.
  intros Hw Hh. unfold doesHWExist.
  now rewrite Hw, Hh, !ge_zero_number.
Qed.

(** C4 (as amended).  The hook decides that a banner has its dimensions by
    the test [banner.w >= 0 && banner.h >= 0].  For the impression at
    index [i] of the request that [buildRequest] returned, with [banner]
    its banner component and [first] the first entry of [banner.format]:
    - the test on the values: it fails for a banner with neither [w] nor
      [h]; it fails as soon as [w] or [h] is a number that is NaN or
      negative; it passes when [w] and [h] are numbers that are neither;
      it passes when both are null, which [>=] reads as zero;
    - when the test fails, the format list is a non-empty array and
      [first.w], [first.h] are numbers, every request the hook returns
      has [banner.w] and [banner.h] of that impression set to them;
    - when the test fails, the format list is a non-empty array and
      [first.w] or [first.h] is not a number, the callback throws the
      error [Invalid banner format dimensions at impression i: ...], the
      hook throws, and it throws this very error when the request is
      otherwise well formed and no earlier impression fails;
    - an impression without a banner, or whose banner passes the test, in
      particular one whose [w] and [h] are numbers neither NaN nor
      negative, is the same in every request the hook returns. *)
Theorem C4_banner_backfill
    (c : config) (buildRequest : value -> value -> value -> result value)
    (imps bidderRequest context request : value) (i : nat) (imp : value) :
  buildRequest imps bidderRequest context = Ok request ->
  nth_error (elems_of (get "imp" request)) i = Some imp ->
  let banner := get "banner" imp in
  let first := first_of (get "format" banner) in
  let hook := converter_request c buildRequest imps bidderRequest context in
  ((get "w" banner = Undefined -> get "h" banner = Undefined ->
    doesHWExist banner = false)
   /\ (forall x,
         get "w" banner = Num x \/ get "h" banner = Num x ->
         non_negative x = false ->
         doesHWExist banner = false)
   /\ (forall x y,
         get "w" banner = Num x -> get "h" banner = Num y ->
         non_negative x = true -> non_negative y = true ->
         doesHWExist banner = true)
   /\ (get "w" banner = Null -> get "h" banner = Null ->
       doesHWExist banner = true))
  /\ (forall w h r',
        doesHWExist banner = false -> doesFormatExist banner = true ->
        get "w" first = Num w -> get "h" first = Num h ->
        hook = Ok r' ->
        exists imp',
          nth_error (elems_of (get "imp" r')) i = Some imp'
          /\ imp' = put "banner" (put "h" (Num h) (put "w" (Num w) banner))
                      imp
          /\ get "w" (get "banner" imp') = Num w
          /\ get "h" (get "banner" imp') = Num h)
  /\ (doesHWExist banner = false -> doesFormatExist banner = true ->
      is_nullish first = false ->
      is_number (get "w" first) = false
      \/ is_number (get "h" first) = false ->
      process_imp i imp =
        Throw (invalid_dimensions i (get "w" first) (get "h" first))
      /\ (exists e, hook = Throw e)
      /\ (is_nullish (get "ext" request) = true
          \/ is_object (get "ext" request) = true ->
          is_array (get "imp" request) = true ->
          (forall j x, (j < i)%nat ->
                       nth_error (elems_of (get "imp" request)) j = Some x ->
                       exists x', process_imp j x = Ok x') ->
          hook =
            Throw (invalid_dimensions i (get "w" first) (get "h" first))))
  /\ (forall r',
        truthy banner = false \/ doesHWExist banner = true ->
        hook = Ok r' ->
        nth_error (elems_of (get "imp" r')) i = Some imp)
  /\ (forall x y r',
        get "w" banner = Num x -> get "h" banner = Num y ->
        non_negative x = true -> non_negative y = true ->
        hook = Ok r' ->
        nth_error (elems_of (get "imp" r')) i = Some imp).
Proof.
  intros Hbuild Hnth banner first hook.
  assert (Hhook : hook = request_edits c request).
  { subst hook. unfold converter_request. now rewrite Hbuild. }
  assert (Hformat_object :
            doesFormatExist banner = true ->
            truthy banner = true /\ is_object banner = true
            /\ is_object imp = true /\ truthy imp = true).
  { unfold doesFormatExist. intros H. apply andb_prop in H.
    destruct H as [H _].
    assert (Hb : is_object banner = true).
    { destruct banner; try reflexivity; simpl in H; discriminate. }
    assert (Ht : truthy banner = true)
      by (destruct banner; simpl in Hb; try discriminate; reflexivity).
    assert (Hi : is_object imp = true)
      by (subst banner; eapply truthy_get_object; eassumption).
    repeat split; try assumption.
    destruct imp; simpl in Hi; try discriminate; reflexivity. }
  assert (Hkept :
            forall r',
              truthy banner = false \/ doesHWExist banner = true ->
              hook = Ok r' ->
              nth_error (elems_of (get "imp" r')) i = Some imp).
  { intros r' Hcase Hrun. rewrite Hhook in Hrun.
    destruct (request_edits_imp _ _ _ Hrun Hnth) as [imp' [Hp Hn]].
    pose proof (process_imp_truthy _ _ Hp) as Himp.
    rewrite (process_imp_with_dimensions i imp Himp Hcase) in Hp.
    now inversion Hp; subst imp'. }
  split.
  { split; [intros Hw _; now apply absent_dimensions |].
    split.
    { intros x [Hx | Hx] Hneg; unfold doesHWExist; rewrite Hx;
        rewrite ge_zero_number, Hneg;
        [reflexivity | apply andb_false_r]. }
    split.
    { intros x y Hw Hh Hx Hy.
      now rewrite (doesHWExist_numbers banner Hw Hh), Hx, Hy. }
    intros Hw Hh. unfold doesHWExist. now rewrite Hw, Hh. }
  split.
  { intros w h r' Hhw Hformat Hw Hh Hrun. rewrite Hhook in Hrun.
    destruct (Hformat_object Hformat) as (Hb & Hbo & Hio & _).
    destruct (request_edits_imp _ _ _ Hrun Hnth) as [imp' [Hp Hn]].
    pose proof (process_imp_truthy _ _ Hp) as Himp.
    rewrite (process_imp_backfill i imp Himp Hb Hhw Hformat Hw Hh) in Hp.
    inversion Hp; subst imp'. eexists. split; [eassumption |].
    split; [reflexivity |].
    rewrite get_put_same by assumption. split.
    - rewrite get_put_other by reflexivity. now apply get_put_same.
    - apply get_put_same. now rewrite is_object_put. }
  split.
  { intros Hhw Hformat Hnull Hnum.
    destruct (Hformat_object Hformat) as (Hb & _ & _ & Himp).
    pose proof (process_imp_invalid i imp Himp Hb Hhw Hformat Hnull Hnum)
      as Hthrow.
    split; [assumption |]. split.
    - rewrite Hhook. eapply request_edits_throws; eassumption.
    - intros Hext Harr Hbefore.
      rewrite Hhook. apply request_edits_throw_of_imp; try assumption.
      + destruct request; try reflexivity; simpl in Harr; discriminate.
      + eapply for_each_imp_first_throw; eassumption. }
  split; [exact Hkept |].
  intros x y r' Hw Hh Hx Hy Hrun. apply (Hkept r'); [| assumption].
  right. now rewrite (doesHWExist_numbers banner Hw Hh), Hx, Hy.
Qed.

(** *** Trimming and the validation gate *)

Lemma trim_end_empty (s : string) :
  is_empty (trim_end s) = all_whitespace s.
Proof.
  induction s as [| c rest IH]; simpl; [reflexivity |].
  rewrite IH. destruct (is_whitespace c), (all_whitespace rest); reflexivity.
Qed.

Lemma all_whitespace_trim_start (s : string) :
  all_whitespace (trim_start s) = all_whitespace s.
Proof.
  induction s as [| c rest IH]; simpl; [reflexivity |].
  destruct (is_whitespace c) eqn:Hc; simpl; [assumption |].
  now rewrite Hc.
Qed.

Lemma trim_empty (s : string) : is_empty (trim s) = all_whitespace s.
Proof.
  unfold trim. now rewrite trim_end_empty, all_whitespace_trim_start.
Qed.

Lemma length_positive (s : string) :
  (0 <? String.length s)%nat = negb (is_empty s).
Proof. destruct s; reflexivity. Qed.

Lemma is_empty_true (s : string) : is_empty s = true <-> s = EmptyString.
Proof. destruct s; simpl; split; intros H; congruence. Qed.

Lemma all_whitespace_false (s : string) :
  all_whitespace s = false <->
  exists c, In c (list_ascii_of_string s) /\ is_whitespace c = false.
Proof.
  induction s as [| c rest IH]; simpl.
  - split; [discriminate | intros [c [[] _]]].
  - destruct (is_whitespace c) eqn:Hc; simpl.
    + rewrite IH. split.
      * intros [d [Hd Hw]]. exists d. auto.
      * intros [d [[Hd | Hd] Hw]]; [subst d; congruence | exists d; auto].
    + split; [| reflexivity]. intros _. exists c. auto.
Qed.

Lemma isValidAccountID_string (s : string) :
  isValidAccountID (Str s) = negb (all_whitespace s).
Proof.
  unfold isValidAccountID. simpl.
  now rewrite length_positive, trim_empty.
Qed.

Lemma isBidRequestValid_result (bid : value) (w : world) :
  fst (isBidRequestValid bid w) =
    Ok (Bool (isValidAccountID (readConfig (cfg w) "aps.accountID"))).
Proof.
  unfold isBidRequestValid, mbind, do_record, try_catch,
    isBidRequestValid_body, read_config, mbind.
  assert (Hcfg : forall n d, cfg (record n d w) = cfg w).
  { intros n d. unfold record.
    destruct (strict_equals _ _); [reflexivity |].
    destruct (negb _); reflexivity. }
  rewrite Hcfg.
  destruct (isValidAccountID (readConfig (cfg w) "aps.accountID"));
    reflexivity.
Qed.

(** C3.  [isBidRequestValid] returns the verdict of [isValidAccountID] on
    the configured account identifier, and that verdict is true exactly
    for a number (any number) and for a string that keeps some content
    when trimmed, which is a string with a character that is not white
    space.  Null, undefined, empty and blank strings and values of other
    types are refused. *)
Theorem C3_account_validation :
  (forall bid w,
     fst (isBidRequestValid bid w) =
       Ok (Bool (isValidAccountID (readConfig (cfg w) "aps.accountID"))))
  /\ (forall v,
        isValidAccountID v = true <->
        is_nullish v = false
        /\ ((exists x, v = Num x)
            \/ (exists s, v = Str s /\ trim s <> EmptyString)))
  /\ (forall s,
        trim s <> EmptyString <->
        exists ch, In ch (list_ascii_of_string s) /\ is_whitespace ch = false)
  /\ isValidAccountID (Num zero) = true
  /\ isValidAccountID Null = false
  /\ isValidAccountID Undefined = false
  /\ isValidAccountID (Str EmptyString) = false
  /\ (forall s, all_whitespace s = true -> isValidAccountID (Str s) = false)
  /\ (forall v, isNumber v = false -> isStr v = false ->
                isValidAccountID v = false).
Proof.
  assert (Htrim : forall s,
             trim s <> EmptyString <-> all_whitespace s = false).
  { intros s. rewrite <- trim_empty, <- is_empty_true.
    destruct (is_empty (trim s)); split; intros H;
      first [reflexivity | discriminate | now elim H]. }
  split; [intros bid w; apply isBidRequestValid_result |].
  split.
  { intros v. split.
    - intros H.
      split; [destruct v; try reflexivity; cbv in H; discriminate |].
      destruct v; try (cbv in H; discriminate).
      + left. now exists x.
      + right. exists s. split; [reflexivity |].
        apply Htrim. rewrite isValidAccountID_string in H.
        now apply negb_true_iff in H.
    - intros [_ [[x Hx] | [s [Hs Hne]]]]; subst v; [reflexivity |].
      rewrite isValidAccountID_string. apply negb_true_iff.
      now apply Htrim. }
  split.
  { intros s. rewrite Htrim. apply all_whitespace_false. }
  repeat split.
  - intros s Hs. rewrite isValidAccountID_string. now rewrite Hs.
  - intros v Hn Hs.
    destruct v; try reflexivity; cbv in Hn, Hs; discriminate.
Qed.

(** *** The telemetry recorder *)

Lemma SFeqb_refl (x : number) : x <> S754_nan -> SFeqb x x = true.
Proof.
  intros Hx. unfold SFeqb, SFcompare.
  destruct x as [s | s | | s m e]; try reflexivity.
  - destruct s; reflexivity.
  - now elim Hx.
  - rewrite Z.compare_refl.
    assert (Hm : Pos.compare_cont Eq m m = Eq) by apply Pos.compare_refl.
    rewrite Hm. destruct s; reflexivity.
Qed.

Lemma same_value_zero_refl : forall v : value, same_value_zero v v = true.
Proof.
  fix same_value_zero_refl 1. intros v.
  assert (Hprops : forall ps : list (string * value),
             (forall k x, In (k, x) ps -> same_value_zero x x = true) ->
             (fix props_eq (p q : list (string * value)) {struct p} : bool :=
                match p, q with
                | [], [] => true
                | (k, x) :: p', (k', y) :: q' =>
                    String.eqb k k' && same_value_zero x y && props_eq p' q'
                | _, _ => false
                end) ps ps = true).
  { induction ps as [| [k x] rest IH]; intros Hall; [reflexivity |].
    rewrite String.eqb_refl, (Hall k x (or_introl eq_refl)). simpl.
    apply IH. intros k' x' Hin. apply (Hall k' x'). now right. }
  assert (Helems : forall es : list value,
             (forall x, In x es -> same_value_zero x x = true) ->
             (fix elems_eq (l m : list value) {struct l} : bool :=
                match l, m with
                | [], [] => true
                | x :: l', y :: m' => same_value_zero x y && elems_eq l' m'
                | _, _ => false
                end) es es = true).
  { induction es as [| x rest IH]; intros Hall; [reflexivity |].
    rewrite (Hall x (or_introl eq_refl)). simpl.
    apply IH. intros x' Hin. apply Hall. now right. }
  assert (Hin_props : forall ps : list (string * value),
             (fix all (l : list (string * value)) : Prop :=
                match l with
                | [] => True
                | (_, x) :: rest => same_value_zero x x = true /\ all rest
                end) ps ->
             forall k x, In (k, x) ps -> same_value_zero x x = true).
  { induction ps as [| [k0 x0] rest IH]; simpl; intros Hall k x Hin;
      [contradiction |].
    destruct Hall as [H0 Hrest]. destruct Hin as [Heq | Hin].
    - inversion Heq; subst. assumption.
    - eapply IH; eassumption. }
  assert (Hin_elems : forall es : list value,
             (fix all (l : list value) : Prop :=
                match l with
                | [] => True
                | x :: rest => same_value_zero x x = true /\ all rest
                end) es ->
             forall x, In x es -> same_value_zero x x = true).
  { induction es as [| x0 rest IH]; simpl; intros Hall x Hin;
      [contradiction |].
    destruct Hall as [H0 Hrest]. destruct Hin as [Heq | Hin].
    - subst. assumption.
    - eapply IH; eassumption. }
  pose (props_refl :=
          fix go (ps : list (string * value)) :
            (fix all (l : list (string * value)) : Prop :=
               match l with
               | [] => True
               | (_, x) :: rest => same_value_zero x x = true /\ all rest
               end) ps :=
            match ps with
            | [] => I
            | (_, x) :: rest => conj (same_value_zero_refl x) (go rest)
            end).
  pose (elems_refl :=
          fix go (es : list value) :
            (fix all (l : list value) : Prop :=
               match l with
               | [] => True
               | x :: rest => same_value_zero x x = true /\ all rest
               end) es :=
            match es with
            | [] => I
            | x :: rest => conj (same_value_zero_refl x) (go rest)
            end).
  destruct v as [| | b | x | s | es ps | ps | e ps].
  - reflexivity.
  - reflexivity.
  - simpl. now destruct b.
  - destruct x as [sg | sg | | sg m e]; try reflexivity;
      simpl; apply SFeqb_refl; discriminate.
  - simpl. apply String.eqb_refl.
  - simpl.
    rewrite (Helems es (Hin_elems es (elems_refl es))).
    rewrite (Hprops ps (Hin_props ps (props_refl ps))). reflexivity.
  - simpl. apply (Hprops ps (Hin_props ps (props_refl ps))).
  - destruct e as [| message]; simpl.
    + apply (Hprops ps (Hin_props ps (props_refl ps))).
    + rewrite String.eqb_refl.
      apply (Hprops ps (Hin_props ps (props_refl ps))).
Qed.

Lemma aps_get_push (key : value) (ev : event) (m : aps_map) :
  aps_get key (aps_push key ev m) =
    match aps_get key m with
    | Some entry => Some (AccountEntry (queue entry ++ [ev])%list (store entry))
    | None => None
    end.
Proof.
  induction m as [| [k entry] rest IH]; simpl; [reflexivity |].
  destruct (same_value_zero key k) eqn:Hk; simpl; now rewrite Hk.
Qed.

Lemma aps_get_set (key : value) (entry : account_entry) (m : aps_map) :
  aps_get key (aps_set key entry m) = Some entry.
Proof.
  induction m as [| [k entry'] rest IH]; simpl.
  - now rewrite same_value_zero_refl.
  - destruct (same_value_zero key k) eqn:Hk; simpl; now rewrite Hk.
Qed.

Lemma last_pushed (q : list event) (ev : event) :
  List.last (List.map Some (q ++ [ev])%list) None = Some ev.
Proof. rewrite List.map_app. simpl. apply List.last_last. Qed.

Lemma record_cfg (eventName : string) (data : value) (w : world) :
  cfg (record eventName data w) = cfg w.
Proof.
  unfold record. destruct (strict_equals _ _); [reflexivity |].
  destruct (negb _); reflexivity.
Qed.

Lemma record_console (eventName : string) (data : value) (w : world) :
  console (record eventName data w) = console w.
Proof.
  unfold record. destruct (strict_equals _ _); [reflexivity |].
  destruct (negb _); reflexivity.
Qed.

Lemma record_disabled (eventName : string) (data : value) (w : world) :
  readConfig (cfg w) "aps.telemetry" = Bool false ->
  record eventName data w = w.
Proof. intros H. unfold record. now rewrite H. Qed.

Lemma record_without_account (eventName : string) (data : value)
    (w : world) :
  truthy (readConfig (cfg w) "aps.accountID") = false ->
  record eventName data w = w.
Proof.
  intros H. unfold record. rewrite H. simpl.
  now destruct (strict_equals _ _).
Qed.

(** With telemetry on and a truthy account identifier, the event is the
    last one of the account's queue. *)
Lemma record_enabled (eventName : string) (data : value) (w : world) :
  strict_equals (readConfig (cfg w) "aps.telemetry") (Bool false) = false ->
  truthy (readConfig (cfg w) "aps.accountID") = true ->
  last_event (record eventName data w) =
    Some (CustomEvent (final_event_name eventName) (event_detail_of data)).
Proof.
  intros Hon Hacc. unfold last_event. rewrite record_cfg.
  unfold record. rewrite Hon, Hacc. simpl.
  rewrite aps_get_push.
  set (aps := match window_aps w with Some m => m | None => [] end).
  unfold aps_has.
  destruct (aps_get (readConfig (cfg w) "aps.accountID") aps)
    as [entry |] eqn:Hget; simpl.
  - rewrite Hget. apply last_pushed.
  - rewrite aps_get_set. simpl. reflexivity.
Qed.

Lemma error_detail (err : value) :
  get "error" (event_detail_of (Obj [("error", err)])) = err.
Proof.
  unfold event_detail_of. simpl.
  change (get "error" (Obj [("error", err)])) with err.
  destruct (truthy err); reflexivity.
Qed.

(** The shape shared by the four operations the framework calls. *)
Lemma try_catch_boundary (name event_name message : string)
    (body op : M value) :
  (forall w,
     op w =
       (_ <~ do_record name Undefined ;;
        try_catch body
          (fun err =>
             _ <~ do_record (name ++ "/didError") (Obj [("error", err)]) ;;
             _ <~ logError message err ;;
             mret Undefined)) w) ->
  final_event_name (name ++ "/didError") = event_name ->
  contains_exceptions name event_name message body op.
Proof.
  intros Hop Hname w. rewrite Hop.
  unfold mbind, do_record, try_catch, logError, log, mret.
  destruct (body (record name Undefined w)) as [[v | err] w1] eqn:Hbody.
  - split; [now exists v, w1 | intros err w2 H; discriminate].
  - split; [eexists; eexists; reflexivity |].
    intros err' w2 H. inversion H; subst err' w2. clear H.
    split; [reflexivity |]. split.
    + unfold after_catch, last_log, logError, log. simpl.
      rewrite List.map_app. simpl. apply List.last_last.
    + intros Hon Hacc.
      exists (CustomEvent event_name
                (event_detail_of (Obj [("error", err)]))).
      split; [| split; [reflexivity | apply error_detail]].
      unfold after_catch, logError, log. simpl.
      pose proof (record_enabled (name ++ "/didError")
                    (Obj [("error", err)]) w1 Hon Hacc) as Hlast.
      unfold last_event in *. simpl. rewrite Hname in Hlast. exact Hlast.
Qed.

(** C9.  When telemetry is switched off in the configuration, or the
    configured account identifier is absent or otherwise falsy, [record]
    leaves the world as it found it: [window._aps] is neither created
    nor changed and no queue grows. *)
Theorem C9_record_is_inert_when_disabled
    (eventName : string) (data : value) (w : world) :
  readConfig (cfg w) "aps.telemetry" = Bool false
  \/ readConfig (cfg w) "aps.accountID" = Undefined
  \/ truthy (readConfig (cfg w) "aps.accountID") = false ->
  record eventName data w = w
  /\ window_aps (record eventName data w) = window_aps w.
Proof.
  intros H.
  assert (Hsame : record eventName data w = w).
  { destruct H as [H | [H | H]].
    - now apply record_disabled.
    - apply record_without_account. now rewrite H.
    - now apply record_without_account. }
  split; [assumption | now rewrite Hsame].
Qed.

(** C10.  With the account identifier configured as the number 0, the
    validation predicate accepts it and [isBidRequestValid] returns true,
    while every call of [record] leaves the world unchanged, so the
    validation call itself and all later calls file no event. *)
Theorem C10_zero_account_is_valid_but_silent (sign : bool) (w : world) :
  readConfig (cfg w) "aps.accountID" = Num (S754_zero sign) ->
  isValidAccountID (Num (S754_zero sign)) = true
  /\ (forall bid, isBidRequestValid bid w = (Ok (Bool true), w))
  /\ (forall eventName data, record eventName data w = w).
Proof.
  intros Hzero.
  assert (Hsilent : forall eventName data, record eventName data w = w).
  { intros eventName data. apply record_without_account.
    now rewrite Hzero. }
  split; [reflexivity |]. split; [| assumption].
  intros bid.
  unfold isBidRequestValid, mbind, do_record, try_catch,
    isBidRequestValid_body, read_config, mbind.
  rewrite Hsilent, Hzero. reflexivity.
Qed.

(** C7.  Each of the four operations the framework calls -- validation,
    request build, response interpretation, user-sync extraction --
    contains the exceptions of its body: it always returns normally; when
    the body throws, the operation returns undefined, the error has been
    handed to [record] under [<operation>/didError] and logged with
    [logError]; with telemetry on and a truthy account identifier the
    account's queue then ends with the event
    [prebidAdapter/<operation>/didError] whose detail carries the
    error. *)
Theorem C7_exceptions_never_escape :
  (forall bid,
     contains_exceptions
       "isBidRequestValid" "prebidAdapter/isBidRequestValid/didError"
       "Error while validating bid request"
       isBidRequestValid_body (isBidRequestValid bid))
  /\ (forall bidRequests bidderRequest,
        contains_exceptions
          "buildRequests" "prebidAdapter/buildRequests/didError"
          "Error while building bid request"
          (buildRequests_body bidRequests bidderRequest)
          (buildRequests bidRequests bidderRequest))
  /\ (forall response request,
        contains_exceptions
          "interpretResponse" "prebidAdapter/interpretResponse/didError"
          "Error while interpreting bid response"
          (interpretResponse_body response request)
          (interpretResponse response request))
  /\ (forall syncOptions serverResponses gdprConsent uspConsent,
        contains_exceptions
          "getUserSyncs" "prebidAdapter/getUserSyncs/didError"
          "Error while getting user syncs"
          (getUserSyncs_body syncOptions serverResponses)
          (getUserSyncs syncOptions serverResponses gdprConsent
             uspConsent)).
Proof.
  split; [| split; [| split]]; intros;
    apply try_catch_boundary; intros; reflexivity.
Qed.

(** *** The response hook *)

(** C5.  Generic conversion gives a wire bid whose media-type code is 2
    the media type [VIDEO].  For a wire bid whose [mtype] is 2 the hook
    then captures [adm], hands generic conversion the bid without its
    [adm] and leaves the wire bid without [adm], and it returns the Bid
    that generic conversion made with [vastUrl] set to the captured [adm],
    every other field of the Bid being as conversion made it. *)
Theorem C5_video_bid_vast_url
    (buildBidResponse : value -> value -> result value)
    (bid context generic : value) :
  video_code_gives_video buildBidResponse ->
  strict_equals (get "mtype" bid) (Num two) = true ->
  buildBidResponse (delete "adm" bid) context = Ok generic ->
  has_key "adm" (delete "adm" bid) = false
  /\ converter_bidResponse buildBidResponse bid context =
       Ok (put "vastUrl" (get "adm" bid) generic, delete "adm" bid)
  /\ get "vastUrl" (put "vastUrl" (get "adm" bid) generic) = get "adm" bid
  /\ (forall k, String.eqb k "vastUrl" = false ->
                get k (put "vastUrl" (get "adm" bid) generic)
                = get k generic).
Proof.
  intros Hconversion Hmtype Hbuild.
  assert (Hbid : is_nullish bid = false).
  { destruct bid; try reflexivity; simpl in Hmtype; discriminate. }
  assert (Hmedia :
            strict_equals (get "mediaType" generic) (Str VIDEO) = true).
  { apply (Hconversion (delete "adm" bid) context); [| assumption].
    now rewrite (@get_delete_other "mtype" "adm") by reflexivity. }
  assert (Hobj : is_object generic = true).
  { destruct generic; try reflexivity; simpl in Hmedia; discriminate. }
  split; [apply has_key_delete_same |].
  split.
  { unfold converter_bidResponse, get_prop.
    rewrite Hbid. simpl. rewrite Hmtype, Hbuild. simpl.
    rewrite (is_object_not_nullish _ Hobj). simpl. rewrite Hmedia.
    unfold set_prop. unfold is_object in Hobj.
    destruct (own_props generic); [reflexivity | discriminate]. }
  split; [now apply get_put_same |].
  intros k Hk. now apply get_put_other.
Qed.

(** *** User syncs *)

Lemma wants_sync_ok (syncOptions s : value) :
  is_nullish syncOptions = false ->
  is_nullish s = false ->
  wants_sync syncOptions s = Ok (sync_enabled syncOptions s).
Proof.
  intros Ho Hs. unfold wants_sync, sync_enabled, get_prop.
  rewrite Hs, Ho. simpl.
  destruct (strict_equals (get "type" s) (Str "iframe")); simpl.
  - destruct (truthy (get "iframeEnabled" syncOptions)); simpl;
      [reflexivity |].
    destruct (strict_equals (get "type" s) (Str "image")); reflexivity.
  - destruct (strict_equals (get "type" s) (Str "image")); reflexivity.
Qed.

Lemma filter_syncs_ok (syncOptions : value) (l : list value) :
  is_nullish syncOptions = false ->
  Forall (fun s => is_nullish s = false) l ->
  filter_syncs syncOptions l = Ok (filter (sync_enabled syncOptions) l).
Proof.
  intros Ho Hall. induction Hall as [| s rest Hs Hrest IH]; simpl;
    [reflexivity |].
  rewrite (wants_sync_ok _ _ Ho Hs), IH. simpl.
  destruct (sync_enabled syncOptions s); reflexivity.
Qed.

(** C8.  For a list of server responses, a sync-options object and
    entries none of which is null or undefined, [getUserSyncs] returns
    exactly the entries of the flattened [ext.userSyncs] lists (an absent
    list counting as empty) whose type is [iframe] with iframe syncing
    enabled or [image] with pixel syncing enabled, in their order.  With
    pixel syncing off every returned entry has type [iframe]; with iframe
    syncing off every returned entry has type [image]. *)
Theorem C8_user_syncs_filtered
    (syncOptions : value) (responses : list value) (ps : props)
    (gdprConsent uspConsent : value) (w : world) :
  is_nullish syncOptions = false ->
  Forall (fun s => is_nullish s = false)
         (flat_map user_syncs_of responses) ->
  let returned :=
    filter (sync_enabled syncOptions) (flat_map user_syncs_of responses) in
  fst (getUserSyncs syncOptions (Arr responses ps) gdprConsent uspConsent w)
    = Ok (array returned)
  /\ (forall s, In s returned <->
                In s (flat_map user_syncs_of responses)
                /\ sync_enabled syncOptions s = true)
  /\ (truthy (get "pixelEnabled" syncOptions) = false ->
      forall s, In s returned ->
                strict_equals (get "type" s) (Str "iframe") = true)
  /\ (truthy (get "iframeEnabled" syncOptions) = false ->
      forall s, In s returned ->
                strict_equals (get "type" s) (Str "image") = true)
  /\ (forall res,
        is_nullish (get "userSyncs" (get "ext" (get "body" res))) = true ->
        user_syncs_of res = []).
Proof.
  intros Ho Hall returned.
  split.
  { unfold getUserSyncs, mbind, do_record, try_catch, getUserSyncs_body,
      lift.
    rewrite (filter_syncs_ok _ Ho Hall). reflexivity. }
  split; [intros s; apply filter_In |].
  split; [| split].
  - intros Hpixel s Hin. apply filter_In in Hin. destruct Hin as [_ Hs].
    unfold sync_enabled in Hs. rewrite Hpixel, andb_false_r, orb_false_r in Hs.
    now apply andb_prop in Hs.
  - intros Hiframe s Hin. apply filter_In in Hin. destruct Hin as [_ Hs].
    unfold sync_enabled in Hs. rewrite Hiframe, andb_false_r in Hs.
    simpl in Hs. now apply andb_prop in Hs.
  - intros res Hnull. unfold user_syncs_of. rewrite !opt_get_get.
    unfold nullish_or. now rewrite Hnull.
Qed.

(** *** Base64 *)

Lemma sextet_roundtrip (n : N) :
  (n < 64)%N -> char_sextet (sextet_char n) = Some n.
Proof.
  intros Hn. rewrite <- (N2Nat.id n).
  assert (Hk : (N.to_nat n < 64)%nat) by lia.
  generalize dependent (N.to_nat n). clear n Hn. intros k Hk.
  do 64 (destruct k as [| k]; [reflexivity |]). lia.
Qed.

Lemma sextet_char_not_padding (n : N) :
  (n < 64)%N -> Ascii.eqb (sextet_char n) "=" = false.
Proof.
  intros Hn. destruct (Ascii.eqb (sextet_char n) "=") eqn:E;
    [| reflexivity].
  apply Ascii.eqb_eq in E. pose proof (sextet_roundtrip Hn) as H.
  rewrite E in H. discriminate.
Qed.

Lemma three_at_a_time (P : string -> Prop) :
  P EmptyString ->
  (forall a, P (String a EmptyString)) ->
  (forall a b, P (String a (String b EmptyString))) ->
  (forall a b c rest, P rest -> P (String a (String b (String c rest)))) ->
  forall s, P s.
Proof.
  intros H0 H1 H2 H3.
  fix go 1. intros s.
  destruct s as [| a [| b [| c rest]]].
  - exact H0.
  - apply H1.
  - apply H2.
  - apply H3. apply go.
Qed.

Lemma regroup (x y z : N) :
  (x < 256 -> y < 256 -> z < 256 ->
   x / 4 < 64
   /\ (x mod 4) * 16 + y / 16 < 64
   /\ (y mod 16) * 4 + z / 64 < 64
   /\ z mod 64 < 64
   /\ (x mod 4) * 16 < 64
   /\ (y mod 16) * 4 < 64
   /\ x / 4 * 4 + ((x mod 4) * 16 + y / 16) / 16 = x
   /\ (((x mod 4) * 16 + y / 16) mod 16) * 16
      + ((y mod 16) * 4 + z / 64) / 4 = y
   /\ (((y mod 16) * 4 + z / 64) mod 4) * 64 + z mod 64 = z
   /\ x / 4 * 4 + ((x mod 4) * 16) / 16 = x
   /\ (((x mod 4) * 16 + y / 16) mod 16) * 16 + ((y mod 16) * 4) / 4 = y)%N.
Proof.
  intros Hx Hy Hz.
  pose proof (N.div_mod x 4 ltac:(lia)).
  pose proof (N.mod_lt x 4 ltac:(lia)).
  pose proof (N.div_mod y 16 ltac:(lia)).
  pose proof (N.mod_lt y 16 ltac:(lia)).
  pose proof (N.div_mod z 64 ltac:(lia)).
  pose proof (N.mod_lt z 64 ltac:(lia)).
  set (x1 := (x / 4)%N) in *. set (x0 := (x mod 4)%N) in *.
  set (y1 := (y / 16)%N) in *. set (y0 := (y mod 16)%N) in *.
  set (z1 := (z / 64)%N) in *. set (z0 := (z mod 64)%N) in *.
  assert (Hy1 : (y1 < 16)%N) by lia.
  assert (Hz1 : (z1 < 4)%N) by lia.
  assert (E1 : ((x0 * 16 + y1) / 16 = x0)%N)
    by (symmetry; apply (N.div_unique _ 16 x0 y1); lia).
  assert (E2 : ((x0 * 16 + y1) mod 16 = y1)%N)
    by (symmetry; apply (N.mod_unique _ 16 x0 y1); lia).
  assert (E3 : ((y0 * 4 + z1) / 4 = y0)%N)
    by (symmetry; apply (N.div_unique _ 4 y0 z1); lia).
  assert (E4 : ((y0 * 4 + z1) mod 4 = z1)%N)
    by (symmetry; apply (N.mod_unique _ 4 y0 z1); lia).
  assert (E5 : ((x0 * 16) / 16 = x0)%N)
    by (symmetry; apply (N.div_unique _ 16 x0 0); lia).
  assert (E6 : ((y0 * 4) / 4 = y0)%N)
    by (symmetry; apply (N.div_unique _ 4 y0 0); lia).
  rewrite E1, E2, E3, E4, E5, E6.
  repeat split; lia.
Qed.

(** What [btoa] writes reads back as the text it was given. *)
Lemma base64_roundtrip (s : string) : base64_decode (btoa s) = Some s.
Proof.
  induction s as [| a | a b | a b c rest IH] using three_at_a_time.
  - reflexivity.
  - pose proof (N_ascii_bounded a) as Ha.
    destruct (regroup Ha Ha Ha)
      as (S0 & _ & _ & _ & S1 & _ & _ & _ & _ & E & _).
    cbn [btoa base64_decode].
    rewrite (sextet_roundtrip S0), (sextet_roundtrip S1).
    change (Ascii.eqb "=" "=") with true. cbn iota. cbn [is_empty negb].
    rewrite E, ascii_N_embedding. reflexivity.
  - pose proof (N_ascii_bounded a) as Ha.
    pose proof (N_ascii_bounded b) as Hb.
    destruct (regroup Ha Hb Hb)
      as (S0 & S1 & _ & _ & _ & S2 & E0 & _ & _ & _ & E1).
    cbn [btoa base64_decode].
    rewrite (sextet_roundtrip S0), (sextet_roundtrip S1).
    change (Ascii.eqb "=" "=") with true. cbn iota. cbn [is_empty negb].
    rewrite (sextet_char_not_padding S2), (sextet_roundtrip S2).
    rewrite E0, E1, !ascii_N_embedding. reflexivity.
  - pose proof (N_ascii_bounded a) as Ha.
    pose proof (N_ascii_bounded b) as Hb.
    pose proof (N_ascii_bounded c) as Hc.
    destruct (regroup Ha Hb Hc)
      as (S0 & S1 & S2 & S3 & _ & _ & E0 & E1 & E2 & _ & _).
    cbn [btoa base64_decode]. fold btoa. fold base64_decode.
    rewrite (sextet_roundtrip S0), (sextet_roundtrip S1),
      (sextet_roundtrip S2), (sextet_roundtrip S3).
    rewrite (sextet_char_not_padding S3).
    rewrite IH, E0, E1, E2, !ascii_N_embedding. reflexivity.
Qed.

(** *** The response interpreter *)

Lemma trim_start_identity (c : ascii) (rest : string) :
  is_whitespace c = false -> trim_start (String c rest) = String c rest.
Proof. intros H. simpl. now rewrite H. Qed.

Lemma is_empty_append (a b : string) :
  is_empty b = false -> is_empty (a ++ b) = false.
Proof. intros H. destruct a; [assumption | reflexivity]. Qed.

Lemma trim_end_append (a b : string) :
  is_empty b = false -> trim_end b = b -> trim_end (a ++ b) = a ++ b.
Proof.
  intros Hne Hb. induction a as [| c rest IH]; simpl; [assumption |].
  rewrite IH, (is_empty_append rest b Hne), andb_false_r. reflexivity.
Qed.

(** The template begins with [<] and ends with [>], so [trim] leaves it
    as it is. *)
Lemma trim_ad_markup (creativeUrl accountID aaxResponse seatBidId : string) :
  trim (ad_markup creativeUrl accountID aaxResponse seatBidId)
  = ad_markup creativeUrl accountID aaxResponse seatBidId.
Proof.
  unfold trim.
  assert (Hstart :
            trim_start (ad_markup creativeUrl accountID aaxResponse seatBidId)
            = ad_markup creativeUrl accountID aaxResponse seatBidId).
  { unfold ad_markup, ad_markup_body. cbn [append].
    apply trim_start_identity. reflexivity. }
  rewrite Hstart. unfold ad_markup.
  apply trim_end_append; reflexivity.
Qed.

Lemma for_each_bid_in (creativeUrl accountID body : value)
    (bids : list value) :
  forall (bids' : list value) (bid' : value),
    for_each_bid creativeUrl accountID body bids = Ok bids' ->
    In bid' bids' ->
    exists bid,
      In bid bids /\ render_bid creativeUrl accountID body bid = Ok bid'.
Proof.
  induction bids as [| b rest IH]; intros bids' bid' Hrun Hin; simpl in Hrun.
  - inversion Hrun; subst bids'. contradiction.
  - destruct (render_bid creativeUrl accountID body b) as [b' | e] eqn:Hb;
      simpl in Hrun; [| discriminate].
    destruct (for_each_bid creativeUrl accountID body rest)
      as [rest' | e] eqn:Hrest; simpl in Hrun; [| discriminate].
    inversion Hrun; subst bids'; clear Hrun.
    destruct Hin as [Heq | Hin].
    + subst b'. exists b. split; [now left | assumption].
    + destruct (IH rest' bid' eq_refl Hin) as [bid [Hbid Hr]].
      exists bid. split; [now right | assumption].
Qed.

Lemma render_bid_non_video (creativeUrl accountID body bid bid' : value) :
  render_bid creativeUrl accountID body bid = Ok bid' ->
  strict_equals (get "mediaType" bid') (Str VIDEO) = false ->
  get "ad" bid' =
    Str (ad_markup
           (to_string creativeUrl) (to_string accountID)
           (btoa (to_string (JSON_stringify body)))
           (to_string (JSON_stringify (get "seatBidId" bid'))))
  /\ get "mediaType" bid' = get "mediaType" bid
  /\ get "seatBidId" bid' = get "seatBidId" bid.
Proof.
  unfold render_bid, get_prop. intros Hrun Hmedia.
  destruct (is_nullish bid); simpl in Hrun; [discriminate |].
  destruct (strict_equals (get "mediaType" bid) (Str VIDEO)) eqn:Hv;
    simpl in Hrun.
  - inversion Hrun; subst bid'. congruence.
  - apply set_prop_ok in Hrun. destruct Hrun as [Hobj Hbid'].
    subst bid'.
    rewrite (@get_put_other "mediaType" "ad") by reflexivity.
    rewrite (@get_put_other "seatBidId" "ad") by reflexivity.
    rewrite (@get_delete_other "mediaType" "ad") by reflexivity.
    rewrite (@get_delete_other "seatBidId" "ad") by reflexivity.
    rewrite get_put_same by assumption.
    rewrite trim_ad_markup. auto.
Qed.

(** C6.  Every Bid that [interpretResponse] returns and whose media type
    is not [VIDEO] has as its [ad] the template of the adapter: a script
    tag that loads the configured creative URL (the default one when none
    is configured) followed by an inline script block that names the
    account and pushes the render event, whose [aaxResponse] is the base64
    text of [JSON.stringify(response.body)] and whose [seatBidId] is the
    JSON text of the Bid's [seatBidId].  The body is the one
    [response.body] holds when the markup is built, after the conversion;
    when the conversion left it untouched it is the body received.  The
    base64 text decodes to that JSON text. *)
Theorem C6_non_video_markup
    (response request returned : value) (w w' : world) (bid : value) :
  interpretResponse response request w = (Ok returned, w') ->
  In bid (elems_of returned) ->
  strict_equals (get "mediaType" bid) (Str VIDEO) = false ->
  exists interpreted body,
    fromORTB (get "body" response) (get "data" request)
    = Ok (interpreted, body)
    /\ get "ad" bid =
         Str (ad_markup
                (to_string (creative_url (cfg w)))
                (to_string (readConfig (cfg w) "aps.accountID"))
                (btoa (to_string (JSON_stringify body)))
                (to_string (JSON_stringify (get "seatBidId" bid))))
    /\ base64_decode (btoa (to_string (JSON_stringify body)))
       = Some (to_string (JSON_stringify body))
    /\ (body = get "body" response ->
        get "ad" bid =
          Str (ad_markup
                 (to_string (creative_url (cfg w)))
                 (to_string (readConfig (cfg w) "aps.accountID"))
                 (btoa (to_string (JSON_stringify (get "body" response))))
                 (to_string (JSON_stringify (get "seatBidId" bid))))).
Proof.
  unfold interpretResponse, mbind, do_record, try_catch,
    interpretResponse_body, lift, logError, log, mret.
  rewrite record_cfg.
  destruct (get_prop "body" response) as [body0 | e] eqn:Hbody; simpl;
    [| intros H; inversion H; subst returned; contradiction].
  apply get_prop_ok in Hbody. destruct Hbody as [_ Hbody]. subst body0.
  destruct (get_prop "data" request) as [data | e] eqn:Hdata; simpl;
    [| intros H; inversion H; subst returned; contradiction].
  apply get_prop_ok in Hdata. destruct Hdata as [_ Hdata]. subst data.
  destruct (fromORTB (get "body" response) (get "data" request))
    as [[interpreted body] | e] eqn:Hconv; simpl;
    [| intros H; inversion H; subst returned; contradiction].
  destruct (get_prop "bids" interpreted) as [bids | e] eqn:Hbids; simpl;
    [| intros H; inversion H; subst returned; contradiction].
  destruct bids as [| | b | x | s | es ps | ps | e ps]; simpl;
    try (intros H; inversion H; subst returned; contradiction).
  destruct (for_each_bid (creative_url (cfg w))
              (readConfig (cfg w) "aps.accountID") body es)
    as [es' | e] eqn:Heach; simpl;
    [| intros H; inversion H; subst returned; contradiction].
  intros H Hin Hmedia. inversion H; subst returned w'. clear H.
  simpl in Hin.
  destruct (for_each_bid_in _ _ _ _ _ Heach Hin) as [orig [_ Hrender]].
  destruct (render_bid_non_video _ _ _ _ Hrender Hmedia) as (Had & _ & _).
  exists interpreted, body.
  split; [reflexivity |]. split; [assumption |].
  split; [apply base64_roundtrip |].
  intros Hsame. rewrite <- Hsame. assumption.
Qed.

(** ** Further properties *)

(** *** Event names *)

Lemma prefix_append (p : string) :
  forall a s, String.prefix p a = true -> String.prefix p (a ++ s) = true.
Proof.
  induction p as [| c p IH]; intros a s H.
  - destruct (a ++ s); reflexivity.
  - destruct a as [| c' a]; simpl in *; [discriminate |].
    destruct (ascii_dec c c'); [now apply IH | discriminate].
Qed.

Lemma prefix_self_append (p s : string) : String.prefix p (p ++ s) = true.
Proof.
  induction p as [| c p IH]; simpl.
  - destruct s; reflexivity.
  - destruct (ascii_dec c c); [assumption | congruence].
Qed.

Lemma split_length (sep : ascii) (s : string) :
  List.length (split sep s) = S (count_char sep s).
Proof.
  induction s as [| c rest IH]; simpl; [reflexivity |].
  destruct (Ascii.eqb c sep); simpl; [now rewrite IH |].
  destruct (split sep rest) as [| part parts]; simpl in *; [discriminate |].
  assumption.
Qed.

Lemma count_char_append (c : ascii) (a b : string) :
  count_char c (a ++ b) = (count_char c a + count_char c b)%nat.
Proof.
  induction a as [| x a IH]; simpl; [reflexivity |].
  rewrite IH. lia.
Qed.

Lemma count_char_prefix (c : ascii) (p : string) :
  forall s, String.prefix p s = true ->
            (count_char c p <= count_char c s)%nat.
Proof.
  induction p as [| x p IH]; intros s H; simpl; [lia |].
  destruct s as [| y s]; simpl in H; [discriminate |].
  destruct (ascii_dec x y) as [E | E]; [| discriminate].
  subst y. simpl. specialize (IH s H). lia.
Qed.

(** X1.  The name under which [record] files an event always begins with
    [prebidAdapter/] and always has at least three parts between slashes;
    normalising a name twice is the same as normalising it once, so an
    already complete name is filed as it is. *)
Theorem X1_event_name_normal_form (eventName : string) :
  starts_with "prebidAdapter/" (final_event_name eventName) = true
  /\ (3 <= List.length (split "/" (final_event_name eventName)))%nat
  /\ final_event_name (final_event_name eventName)
     = final_event_name eventName
  /\ (starts_with "prebidAdapter/" eventName = true ->
      (3 <= List.length (split "/" eventName))%nat ->
      final_event_name eventName = eventName).
Proof.
  assert (Hprefix :
            starts_with "prebidAdapter/"
              (if starts_with "prebidAdapter/" eventName then eventName
               else "prebidAdapter/" ++ eventName) = true).
  { destruct (starts_with "prebidAdapter/" eventName) eqn:E; [assumption |].
    apply prefix_self_append. }
  assert (Hstart :
            starts_with "prebidAdapter/" (final_event_name eventName) = true).
  { unfold final_event_name.
    destruct (_ <? 3)%nat; [| assumption].
    now apply prefix_append. }
  assert (Hparts :
            (3 <= List.length (split "/" (final_event_name eventName)))%nat).
  { unfold final_event_name.
    set (prefixed := if starts_with "prebidAdapter/" eventName then eventName
                     else "prebidAdapter/" ++ eventName) in *.
    destruct (List.length (split "/" prefixed) <? 3)%nat eqn:E.
    - rewrite split_length, count_char_append.
      pose proof (count_char_prefix "/" "prebidAdapter/" prefixed Hprefix)
        as Hone.
      simpl in Hone. simpl (count_char "/" "/didTrigger"). lia.
    - apply Nat.ltb_ge in E. assumption. }
  assert (Hfixed : forall name,
             starts_with "prebidAdapter/" name = true ->
             (3 <= List.length (split "/" name))%nat ->
             final_event_name name = name).
  { intros name Hs Hp. unfold final_event_name. rewrite Hs.
    apply Nat.ltb_ge in Hp. now rewrite Hp. }
  repeat split; try assumption.
  - now apply Hfixed.
  - now apply Hfixed.
Qed.

(** *** The effect of [record] on the store *)

Lemma telemetry_on_true (w : world) :
  telemetry_on w = true ->
  strict_equals (readConfig (cfg w) "aps.telemetry") (Bool false) = false
  /\ truthy (readConfig (cfg w) "aps.accountID") = true.
Proof.
  unfold telemetry_on. intros H. apply andb_prop in H.
  destruct H as [H1 H2]. apply negb_true_iff in H1. auto.
Qed.

Lemma telemetry_on_false (w : world) (eventName : string) (data : value) :
  telemetry_on w = false -> record eventName data w = w.
Proof.
  unfold telemetry_on, record. intros H.
  destruct (strict_equals (readConfig (cfg w) "aps.telemetry") (Bool false));
    [reflexivity |].
  simpl in H. now rewrite H.
Qed.

Lemma aps_push_other (key : value) (ev : event) (m : aps_map)
    (k : value) (e : account_entry) :
  In (k, e) m -> same_value_zero key k = false ->
  In (k, e) (aps_push key ev m).
Proof.
  intros Hin Hk. induction m as [| [k0 e0] rest IH]; simpl in *;
    [contradiction |].
  destruct (same_value_zero key k0) eqn:E; simpl.
  - destruct Hin as [Heq | Hin]; [| now right].
    inversion Heq; subst. congruence.
  - destruct Hin as [Heq | Hin]; [now left | right; now apply IH].
Qed.

Lemma aps_set_other (key : value) (entry : account_entry) (m : aps_map)
    (k : value) (e : account_entry) :
  In (k, e) m -> same_value_zero key k = false ->
  In (k, e) (aps_set key entry m).
Proof.
  intros Hin Hk. induction m as [| [k0 e0] rest IH]; simpl in *;
    [contradiction |].
  destruct (same_value_zero key k0) eqn:E; simpl.
  - destruct Hin as [Heq | Hin]; [| now right].
    inversion Heq; subst. congruence.
  - destruct Hin as [Heq | Hin]; [now left | right; now apply IH].
Qed.

Lemma record_effect
    (eventName : string) (data : value) (w : world) :
  telemetry_on w = true ->
  let account := readConfig (cfg w) "aps.accountID" in
  let before := entry_of account (window_aps w) in
  let w' := record eventName data w in
  cfg w' = cfg w
  /\ console w' = console w
  /\ entry_of account (window_aps w')
     = AccountEntry (queue before ++ [event_of eventName data])%list
         (store before)
  /\ (forall k e,
        In (k, e) (aps_entries w) -> same_value_zero account k = false ->
        In (k, e) (aps_entries w')).
Proof.
  intros Hon account before w'.
  destruct (telemetry_on_true w Hon) as [Htel Hacc].
  split; [apply record_cfg |]. split; [apply record_console |].
  subst w' before. unfold record, entry_of, aps_entries.
  rewrite Htel, Hacc. simpl.
  change (readConfig (cfg w) "aps.accountID") with account.
  set (aps := match window_aps w with Some m => m | None => [] end).
  assert (Hentry :
            match window_aps w with
            | Some m =>
                match aps_get account m with
                | Some entry => entry
                | None => AccountEntry [] []
                end
            | None => AccountEntry [] []
            end
            = match aps_get account aps with
              | Some entry => entry
              | None => AccountEntry [] []
              end).
  { subst aps. destruct (window_aps w); reflexivity. }
  rewrite Hentry. rewrite aps_get_push. unfold aps_has.
  destruct (aps_get account aps) as [entry |] eqn:Hget; simpl.
  - rewrite Hget. split; [reflexivity |].
    intros k e Hin Hk. now apply aps_push_other.
  - rewrite aps_get_set. split; [reflexivity |].
    intros k e Hin Hk. apply aps_push_other; [| assumption].
    now apply aps_set_other.
Qed.

(** X2.  With telemetry on and a truthy account identifier, [record] files
    exactly one event: the queue of the configured account is its old queue
    followed by the new event (an account without entry starts from an
    empty queue), the account's auxiliary store is untouched, the entry of
    every other account is still there unchanged, and neither the
    configuration nor the console changes. *)
Theorem X2_record_appends_one_event
    (eventName : string) (data : value) (w : world) :
  telemetry_on w = true ->
  let account := readConfig (cfg w) "aps.accountID" in
  let before := entry_of account (window_aps w) in
  let w' := record eventName data w in
  cfg w' = cfg w
  /\ console w' = console w
  /\ entry_of account (window_aps w')
     = AccountEntry (queue before ++ [event_of eventName data])%list
         (store before)
  /\ (forall k e,
        In (k, e) (aps_entries w) -> same_value_zero account k = false ->
        In (k, e) (aps_entries w')).
Proof. exact (record_effect eventName data w). Qed.

(** *** The detail of an event *)

Lemma spread_object (v : value) : exists ps, spread v = Obj ps.
Proof. destruct v; simpl; eexists; reflexivity. Qed.

(** X3.  Whatever the data, the detail of a filed event has [source]
    [prebid-adapter] and [libraryVersion] 2.0.0, overriding fields of these
    names in the data, and every other field of the data except
    [analytics] as it was.  When the data carries a truthy [error] the
    detail has an [analytics] field only if the data had one; otherwise
    [analytics] is the data's own truthy [analytics] or an empty object. *)
Theorem X3_event_detail_fields (data : value) :
  get "source" (event_detail_of data) = Str "prebid-adapter"
  /\ get "libraryVersion" (event_detail_of data) = Str "2.0.0"
  /\ (forall k,
        String.eqb k "analytics" = false ->
        String.eqb k "source" = false ->
        String.eqb k "libraryVersion" = false ->
        get k (event_detail_of data) = get k (spread data)
        /\ has_key k (event_detail_of data) = has_key k (spread data))
  /\ (truthy (get "error" (spread data)) = true ->
      get "analytics" (event_detail_of data) = get "analytics" (spread data)
      /\ has_key "analytics" (event_detail_of data)
         = has_key "analytics" (spread data))
  /\ (truthy (get "error" (spread data)) = false ->
      get "analytics" (event_detail_of data)
      = or_else (get "analytics" (spread data)) empty_object
      /\ truthy (get "analytics" (event_detail_of data)) = true).
Proof.
  unfold event_detail_of.
  destruct (spread_object data) as [ps Hps]. rewrite Hps.
  set (detailData :=
         if negb (truthy (get "error" (Obj ps)))
         then put "analytics"
                (or_else (get "analytics" (Obj ps)) empty_object) (Obj ps)
         else Obj ps).
  assert (Hobj : exists qs, detailData = Obj qs).
  { subst detailData. destruct (negb _); simpl; eexists; reflexivity. }
  destruct Hobj as [qs Hqs].
  assert (Hspread : spread detailData = detailData)
    by (rewrite Hqs; reflexivity).
  rewrite Hspread.
  assert (Hobject : is_object detailData = true)
    by (rewrite Hqs; reflexivity).
  split.
  { rewrite get_put_other by reflexivity. now apply get_put_same. }
  split.
  { apply get_put_same. now rewrite is_object_put. }
  split.
  { intros k Ha Hs Hl.
    rewrite !get_put_other by assumption.
    rewrite !has_key_put_other by assumption.
    subst detailData. destruct (negb _); [| auto].
    rewrite get_put_other by assumption.
    rewrite has_key_put_other by assumption. auto. }
  split.
  - intros Herr.
    rewrite !get_put_other by reflexivity.
    rewrite !has_key_put_other by reflexivity.
    subst detailData. rewrite Herr. simpl. auto.
  - intros Herr.
    rewrite !get_put_other by reflexivity.
    subst detailData. rewrite Herr. simpl negb. cbv iota.
    assert (Hget : get "analytics"
                     (put "analytics"
                        (or_else (get "analytics" (Obj ps)) empty_object)
                        (Obj ps))
                   = or_else (get "analytics" (Obj ps)) empty_object)
      by now apply get_put_same.
    rewrite Hget. split; [reflexivity |].
    unfold or_else. destruct (truthy (get "analytics" (Obj ps))) eqn:E;
      [assumption | reflexivity].
Qed.

(** *** The notification callbacks *)

Lemma notifies_record (name final : string) (data : value) :
  final_event_name name = final ->
  forall w,
    (telemetry_on w = true ->
     last_event (record name data w)
     = Some (CustomEvent final (event_detail_of data)))
    /\ (telemetry_on w = false -> record name data w = w).
Proof.
  intros Hname w. split.
  - intros Hon. destruct (telemetry_on_true w Hon) as [Htel Hacc].
    rewrite <- Hname. now apply record_enabled.
  - intros Hoff. now apply telemetry_on_false.
Qed.

(** X4.  Each of the seven notification callbacks returns undefined and
    does nothing but call [record] once: with telemetry on and a truthy
    account identifier the account's queue then ends with the event
    [prebidAdapter/<callback>/didTrigger], and otherwise the world is
    unchanged.  [onTimeout] and [onBidderError] pass their argument as the
    [error] of the event, which is filed under [didTrigger] like the
    others. *)
Theorem X4_notification_callbacks :
  (forall timeoutData,
     notifies "onTimeout" (Obj [("error", timeoutData)])
       (onTimeout timeoutData)
     /\ get "error" (event_detail_of (Obj [("error", timeoutData)]))
        = timeoutData)
  /\ (forall bid, notifies "onSetTargeting" Undefined (onSetTargeting bid))
  /\ (forall bid,
        notifies "onAdRenderSucceeded" Undefined (onAdRenderSucceeded bid))
  /\ (forall error,
        notifies "onBidderError" (Obj [("error", error)])
          (onBidderError error)
        /\ get "error" (event_detail_of (Obj [("error", error)])) = error)
  /\ (forall bid, notifies "onBidWon" Undefined (onBidWon bid))
  /\ (forall bid, notifies "onBidAttribute" Undefined (onBidAttribute bid))
  /\ (forall bid, notifies "onBidBillable" Undefined (onBidBillable bid)).
Proof.
  assert (H : forall name final data,
             final_event_name name = final ->
             final = "prebidAdapter/" ++ name ++ "/didTrigger" ->
             notifies name data
               (_ <~ do_record name data ;; mret Undefined)).
  { intros name final data Hname Hfinal w.
    destruct (@notifies_record name final data Hname w) as [Hon Hoff].
    assert (Hrun : (_ <~ do_record name data ;; mret Undefined) w
                   = (Ok Undefined, record name data w)) by reflexivity.
    rewrite Hrun. cbn [snd].
    split; [reflexivity |]. rewrite <- Hfinal. auto. }
  split; [intros x; split;
          [eapply H; reflexivity | apply error_detail] |].
  split; [intros x; eapply H; reflexivity |].
  split; [intros x; eapply H; reflexivity |].
  split; [intros x; split;
          [eapply H; reflexivity | apply error_detail] |].
  split; [intros x; eapply H; reflexivity |].
  split; intros x; eapply H; reflexivity.
Qed.

(** *** The request descriptor *)

Lemma contains_char_append (c : ascii) (a b : string) :
  contains_char c (a ++ b) = contains_char c a || contains_char c b.
Proof.
  induction a as [| x a IH]; simpl; [reflexivity |].
  rewrite IH. now rewrite orb_assoc.
Qed.

Lemma string_append_assoc (a b c : string) : (a ++ b) ++ c = a ++ b ++ c.
Proof.
  induction a as [| x a IH]; simpl; [reflexivity | now rewrite IH].
Qed.

Lemma buildRequests_run (bidRequests bidderRequest : value) (w : world) :
  fst (buildRequests bidRequests bidderRequest w) =
    match
      (endpoint <- debug_endpoint (cfg w) (configured_endpoint (cfg w)) ;;
       data <- toORTB bidRequests bidderRequest ;;
       Ok (descriptor endpoint data))
    with
    | Ok v => Ok v
    | Throw _ => Ok Undefined
    end.
Proof.
  unfold buildRequests, mbind, do_record, try_catch, buildRequests_body,
    lift, logError, log, mret, configured_endpoint, descriptor.
  rewrite record_cfg.
  destruct (debug_endpoint (cfg w) _) as [endpoint | e]; simpl;
    [| reflexivity].
  destruct (toORTB bidRequests bidderRequest); reflexivity.
Qed.

(** X5.  Outside debug mode, whenever the converter yields a wire request
    [buildRequests] returns the descriptor with method POST, content type
    application/json, that wire request as data, and as URL the configured
    [aps.debugURL] just as it is configured, of whatever type, the
    production endpoint standing in only for a null or undefined one. *)
Theorem X5_request_descriptor
    (bidRequests bidderRequest data : value) (w : world) :
  truthy (readConfig (cfg w) "aps.debug") = false ->
  toORTB bidRequests bidderRequest = Ok data ->
  fst (buildRequests bidRequests bidderRequest w)
  = Ok (descriptor (configured_endpoint (cfg w)) data)
  /\ (is_nullish (readConfig (cfg w) "aps.debugURL") = true ->
      configured_endpoint (cfg w)
      = Str "https://web.ads.aps.amazon-adsystem.com/e/pb/bid")
  /\ (is_nullish (readConfig (cfg w) "aps.debugURL") = false ->
      configured_endpoint (cfg w) = readConfig (cfg w) "aps.debugURL").
Proof.
  intros Hdebug Hdata. rewrite buildRequests_run.
  unfold debug_endpoint. rewrite Hdebug. simpl. rewrite Hdata. simpl.
  split; [reflexivity |].
  unfold configured_endpoint, nullish_or.
  split; intros H; now rewrite H.
Qed.

(** X6.  In debug mode, with a string endpoint and a converter that yields a
    wire request, the URL of the descriptor is the endpoint followed by [&]
    when the endpoint already has a question mark and by [?] when it has
    none, followed by the debug parameters
    ([amzn_debug_mode=fif&amzn_debug_mode=1] for the render method [fif],
    [amzn_debug_mode=1] otherwise).  So the endpoint is a prefix of the URL,
    the URL has a query part, and it ends with [amzn_debug_mode=1]. *)
Theorem X6_debug_url
    (bidRequests bidderRequest data : value) (w : world) (endpoint : string) :
  truthy (readConfig (cfg w) "aps.debug") = true ->
  configured_endpoint (cfg w) = Str endpoint ->
  toORTB bidRequests bidderRequest = Ok data ->
  let separator := if contains_char "?" endpoint then "&" else "?" in
  let url := endpoint ++ separator ++ debug_parameters (cfg w) in
  fst (buildRequests bidRequests bidderRequest w)
  = Ok (descriptor (Str url) data)
  /\ String.prefix endpoint url = true
  /\ contains_char "?" url = true
  /\ (exists before, url = before ++ "amzn_debug_mode=1")
  /\ (contains_char "?" endpoint = false ->
      count_char "?" url = 1%nat).
Proof.
  intros Hdebug Hendpoint Hdata separator url.
  split.
  { rewrite buildRequests_run. unfold debug_endpoint.
    rewrite Hdebug, Hendpoint. simpl. subst url separator.
    unfold debug_parameters.
    destruct (strict_equals (readConfig (cfg w) "aps.renderMethod")
                (Str "fif")); simpl; rewrite Hdata; reflexivity. }
  split; [apply prefix_self_append |].
  split.
  { subst url separator. rewrite !contains_char_append.
    destruct (contains_char "?" endpoint); reflexivity. }
  split.
  { subst url. unfold debug_parameters.
    destruct (strict_equals _ _).
    - exists (endpoint ++ separator ++ "amzn_debug_mode=fif&").
      now rewrite !string_append_assoc.
    - exists (endpoint ++ separator).
      now rewrite !string_append_assoc. }
  intros Hnone. subst url separator. rewrite Hnone.
  rewrite !count_char_append.
  assert (Hzero : count_char "?" endpoint = 0%nat).
  { clear - Hnone.
    induction endpoint as [| c rest IH];
      cbn [contains_char count_char] in *; [reflexivity |].
    apply orb_false_elim in Hnone. destruct Hnone as [Hc Hrest].
    rewrite Ascii.eqb_sym in Hc. rewrite Hc. now rewrite IH. }
  rewrite Hzero. unfold debug_parameters.
  destruct (strict_equals _ _); reflexivity.
Qed.

(** X7.  In debug mode an endpoint that is neither a string nor an array
    has no [includes] method: [buildRequests] then returns undefined, with
    the TypeError logged, whatever the converter would have produced. *)
Theorem X7_debug_with_unusable_endpoint
    (bidRequests bidderRequest : value) (w : world) :
  truthy (readConfig (cfg w) "aps.debug") = true ->
  isStr (configured_endpoint (cfg w)) = false ->
  is_array (configured_endpoint (cfg w)) = false ->
  fst (buildRequests bidRequests bidderRequest w) = Ok Undefined
  /\ last_log (snd (buildRequests bidRequests bidderRequest w))
     = Some (LogError "Error while building bid request" type_error).
Proof.
  intros Hdebug Hstr Harr.
  assert (Hthrow : debug_endpoint (cfg w) (configured_endpoint (cfg w))
                   = Throw type_error).
  { unfold debug_endpoint. rewrite Hdebug.
    destruct (configured_endpoint (cfg w)); try reflexivity;
      simpl in *; discriminate. }
  split.
  - rewrite buildRequests_run, Hthrow. reflexivity.
  - unfold buildRequests, mbind, do_record, try_catch, buildRequests_body,
      lift, logError, log, mret.
    rewrite record_cfg. fold (configured_endpoint (cfg w)).
    rewrite Hthrow. simpl. unfold last_log. simpl.
    rewrite List.map_app. simpl. apply List.last_last.
Qed.

(** *** More on the request hook *)

(** The request that a successful run of the edits returns, written out. *)
Lemma request_edits_shape (c : config) (request r' : value) :
  request_edits c request = Ok r' ->
  is_object request = true
  /\ exists imps',
       for_each_imp 0 (elems_of (get "imp" request)) = Ok imps'
       /\ r' =
          put "imp" (Arr imps' (props_of (get "imp" request)))
            (put "cur" (nullish_or (get "cur" request) (array [Str "USD"]))
               (put "ext"
                  (put "account" (readConfig c "aps.accountID")
                     (nullish_or (get "ext" request) empty_object))
                  (put "ext" (nullish_or (get "ext" request) empty_object)
                     (if truthy (get "user" request)
                      then put "user" (strip_user_fields (get "user" request))
                             (strip_geo request)
                      else strip_geo request))))
       /\ is_object (nullish_or (get "ext" request) empty_object) = true.
Proof.
  intros Hrun.
  destruct (request_edits_inv _ _ Hrun) as (Hobj & _).
  split; [assumption |].
  revert Hrun. unfold request_edits.
  destruct (get_prop "user" (strip_geo request)) as [user | e] eqn:Huser;
    simpl; [| discriminate].
  apply get_prop_ok in Huser. destruct Huser as [_ Huser].
  rewrite strip_geo_get_other in Huser by reflexivity. subst user.
  set (r1 := if truthy (get "user" request)
             then put "user" (strip_user_fields (get "user" request))
                    (strip_geo request)
             else strip_geo request).
  assert (Hobj1 : is_object r1 = true).
  { subst r1. destruct (truthy (get "user" request));
      rewrite ?is_object_put, strip_geo_is_object; assumption. }
  assert (Hext1 : get "ext" r1 = get "ext" request).
  { subst r1. destruct (truthy (get "user" request));
      rewrite ?get_put_other by reflexivity;
      now apply strip_geo_get_other. }
  assert (Hcur1 : get "cur" r1 = get "cur" request).
  { subst r1. destruct (truthy (get "user" request));
      rewrite ?get_put_other by reflexivity;
      now apply strip_geo_get_other. }
  assert (Himp1 : get "imp" r1 = get "imp" request).
  { subst r1. destruct (truthy (get "user" request));
      rewrite ?get_put_other by reflexivity;
      now apply strip_geo_get_other. }
  rewrite Hext1.
  destruct (set_prop "ext" _ r1) as [r2 | e] eqn:Hset; simpl;
    [| discriminate].
  apply set_prop_ok in Hset. destruct Hset as [_ Hr2]. subst r2.
  rewrite get_put_same by assumption.
  destruct (set_prop "account" _ _) as [ext | e] eqn:Hacc; simpl;
    [| discriminate].
  apply set_prop_ok in Hacc. destruct Hacc as [Hext Hacc]. subst ext.
  rewrite (@get_put_other "cur" "ext") by reflexivity.
  rewrite (@get_put_other "cur" "ext") by reflexivity.
  rewrite Hcur1.
  destruct (set_prop "cur" _ _) as [r4 | e] eqn:Hcur; simpl;
    [| discriminate].
  apply set_prop_ok in Hcur. destruct Hcur as [_ Hr4]. subst r4.
  rewrite (@get_put_other "imp" "cur") by reflexivity.
  rewrite (@get_put_other "imp" "ext") by reflexivity.
  rewrite (@get_put_other "imp" "ext") by reflexivity.
  rewrite Himp1.
  destruct (negb (truthy (get "imp" request))
            || negb (is_array (get "imp" request))); [discriminate |].
  destruct (for_each_imp 0 (elems_of (get "imp" request)))
    as [imps' | e]; simpl; [| discriminate].
  intros H. inversion H. exists imps'. auto.
Qed.

(** X8.  A request that the hook returns has [ext.account] equal to the
    configured account identifier, every other field of [ext] as
    [buildRequest] left it, and as [cur] the list that [buildRequest] set,
    or the one-element list [USD] when it set none (null or undefined). *)
Theorem X8_account_and_currency
    (c : config) (buildRequest : value -> value -> value -> result value)
    (imps bidderRequest context request r' : value) :
  buildRequest imps bidderRequest context = Ok request ->
  converter_request c buildRequest imps bidderRequest context = Ok r' ->
  get "account" (get "ext" r') = readConfig c "aps.accountID"
  /\ (forall k, String.eqb k "account" = false ->
                get k (get "ext" r') = get k (get "ext" request))
  /\ (is_nullish (get "cur" request) = true ->
      get "cur" r' = array [Str "USD"])
  /\ (is_nullish (get "cur" request) = false ->
      get "cur" r' = get "cur" request).
Proof.
  intros Hbuild Hrun. unfold converter_request in Hrun.
  rewrite Hbuild in Hrun. simpl in Hrun.
  destruct (request_edits_shape _ _ Hrun)
    as (Hobj & imps' & _ & Hr' & Hext).
  set (r1 := if truthy (get "user" request)
             then put "user" (strip_user_fields (get "user" request))
                    (strip_geo request)
             else strip_geo request) in *.
  assert (Hobj1 : is_object r1 = true).
  { subst r1. destruct (truthy (get "user" request));
      rewrite ?is_object_put, strip_geo_is_object; assumption. }
  assert (Hget_ext :
            get "ext" r' =
              put "account" (readConfig c "aps.accountID")
                (nullish_or (get "ext" request) empty_object)).
  { subst r'. rewrite !get_put_other by reflexivity.
    apply get_put_same. now rewrite is_object_put. }
  assert (Hget_cur :
            get "cur" r' =
              nullish_or (get "cur" request) (array [Str "USD"])).
  { subst r'. rewrite get_put_other by reflexivity.
    apply get_put_same. now rewrite !is_object_put. }
  rewrite Hget_ext, Hget_cur.
  split; [now apply get_put_same |].
  split.
  - intros k Hk. rewrite get_put_other by assumption.
    unfold nullish_or.
    destruct (is_nullish (get "ext" request)) eqn:E; [| reflexivity].
    destruct (get "ext" request); simpl in E; try discriminate;
      destruct k; reflexivity.
  - unfold nullish_or. split; intros H; now rewrite H.
Qed.

Lemma strip_geo_device_other (k : string) (request : value) :
  String.eqb k "geo" = false ->
  get k (get "device" (strip_geo request)) = get k (get "device" request).
Proof.
  intros Hk. unfold strip_geo. rewrite !opt_get_get.
  destruct (truthy (get "geo" (get "device" request))) eqn:Hgeo;
    [| reflexivity].
  assert (Hdev : is_object (get "device" request) = true)
    by (eapply truthy_get_object; eassumption).
  assert (Hreq : is_object request = true).
  { destruct request; try reflexivity; simpl in Hdev; discriminate. }
  rewrite get_put_same by assumption. now apply get_put_other.
Qed.

Lemma strip_geo_geo_other (k : string) (request : value) :
  String.eqb k "lat" = false -> String.eqb k "lon" = false ->
  get k (get "geo" (get "device" (strip_geo request)))
  = get k (get "geo" (get "device" request)).
Proof.
  intros Hlat Hlon. unfold strip_geo. rewrite !opt_get_get.
  destruct (truthy (get "geo" (get "device" request))) eqn:Hgeo;
    [| reflexivity].
  assert (Hdev : is_object (get "device" request) = true)
    by (eapply truthy_get_object; eassumption).
  assert (Hreq : is_object request = true).
  { destruct request; try reflexivity; simpl in Hdev; discriminate. }
  rewrite get_put_same by assumption.
  rewrite get_put_same by assumption.
  now rewrite !get_delete_other by assumption.
Qed.

Lemma strip_user_fields_other (k : string) (user : value) :
  ~ In k ["gender"; "yob"; "keywords"; "kwarry"; "customdata"; "geo"; "data"] ->
  get k (strip_user_fields user) = get k user.
Proof.
  intros Hk. unfold strip_user_fields.
  assert (Hne : forall name,
             In name ["gender"; "yob"; "keywords"; "kwarry"; "customdata";
                      "geo"; "data"] ->
             String.eqb k name = false).
  { intros name Hin. apply String.eqb_neq. intros E. subst name.
    contradiction. }
  rewrite !get_delete_other; [reflexivity | | | | | | |];
    apply Hne; simpl; auto 10.
Qed.

(** X9.  The hook takes away nothing but the named privacy fields: in a
    request that it returns, every top-level field other than [device],
    [user], [ext], [cur] and [imp] is as [buildRequest] left it, and so is
    every field of [device] other than [geo], every field of [device.geo]
    other than [lat] and [lon], and every field of [user] other than
    [gender], [yob], [keywords], [kwarry], [customdata], [geo] and
    [data]. *)
Theorem X9_other_fields_survive
    (c : config) (buildRequest : value -> value -> value -> result value)
    (imps bidderRequest context request r' : value) :
  buildRequest imps bidderRequest context = Ok request ->
  converter_request c buildRequest imps bidderRequest context = Ok r' ->
  (forall k,
     ~ In k ["device"; "user"; "ext"; "cur"; "imp"] ->
     get k r' = get k request)
  /\ (forall k, String.eqb k "geo" = false ->
                get k (get "device" r') = get k (get "device" request))
  /\ (forall k, String.eqb k "lat" = false -> String.eqb k "lon" = false ->
                get k (get "geo" (get "device" r'))
                = get k (get "geo" (get "device" request)))
  /\ (forall k,
        ~ In k ["gender"; "yob"; "keywords"; "kwarry"; "customdata"; "geo";
                "data"] ->
        get k (get "user" r') = get k (get "user" request)).
Proof.
  intros Hbuild Hrun. unfold converter_request in Hrun.
  rewrite Hbuild in Hrun. simpl in Hrun.
  destruct (request_edits_inv _ _ Hrun) as (_ & _ & Hdev & Husr & _).
  destruct (request_edits_shape _ _ Hrun) as (Hobj & imps' & _ & Hr' & _).
  split.
  { intros k Hk.
    assert (Hne : forall name,
               In name ["device"; "user"; "ext"; "cur"; "imp"] ->
               String.eqb k name = false).
    { intros name Hin. apply String.eqb_neq. intros E. subst name.
      contradiction. }
    subst r'.
    rewrite !get_put_other by (apply Hne; simpl; auto 10).
    destruct (truthy (get "user" request)).
    - rewrite get_put_other by (apply Hne; simpl; auto 10).
      apply strip_geo_get_other. apply Hne. simpl; auto.
    - apply strip_geo_get_other. apply Hne. simpl; auto. }
  split; [intros k Hk; rewrite Hdev; now apply strip_geo_device_other |].
  split; [intros k H1 H2; rewrite Hdev; now apply strip_geo_geo_other |].
  intros k Hk. rewrite Husr.
  destruct (truthy (get "user" request)); [| reflexivity].
  now apply strip_user_fields_other.
Qed.

Lemma request_edits_preamble (c : config) (request : value) :
  is_object request = true ->
  is_nullish (get "ext" request) = true
  \/ is_object (get "ext" request) = true ->
  request_edits c request =
    (if negb (truthy (get "imp" request))
        || negb (is_array (get "imp" request))
     then Throw (new_error "Request must contain a valid impressions array")
     else
       imps <- for_each_imp 0 (elems_of (get "imp" request)) ;;
       Ok (put "imp" (Arr imps (props_of (get "imp" request)))
             (put "cur" (nullish_or (get "cur" request) (array [Str "USD"]))
                (put "ext"
                   (put "account" (readConfig c "aps.accountID")
                      (nullish_or (get "ext" request) empty_object))
                   (put "ext" (nullish_or (get "ext" request) empty_object)
                      (if truthy (get "user" request)
                       then put "user"
                              (strip_user_fields (get "user" request))
                              (strip_geo request)
                       else strip_geo request)))))).
Proof.
  intros Hobj Hext. unfold request_edits.
  unfold get_prop at 1.
  rewrite (is_object_not_nullish (strip_geo request))
    by now rewrite strip_geo_is_object.
  simpl. rewrite strip_geo_get_other by reflexivity.
  set (r1 := if truthy (get "user" request)
             then put "user" (strip_user_fields (get "user" request))
                    (strip_geo request)
             else strip_geo request).
  assert (Hobj1 : is_object r1 = true).
  { subst r1. destruct (truthy (get "user" request));
      rewrite ?is_object_put, strip_geo_is_object; assumption. }
  assert (Hother : forall k, String.eqb k "user" = false ->
                             String.eqb k "device" = false ->
                             get k r1 = get k request).
  { intros k H1 H2. subst r1. destruct (truthy (get "user" request));
      rewrite ?get_put_other by assumption;
      now apply strip_geo_get_other. }
  rewrite (Hother "ext") by reflexivity.
  assert (Hext2 : is_object (nullish_or (get "ext" request) empty_object)
                  = true).
  { unfold nullish_or. destruct Hext as [H | H].
    - now rewrite H.
    - rewrite (is_object_not_nullish _ H). assumption. }
  assert (Hset : forall k x v, is_object v = true ->
                               set_prop k x v = Ok (put k x v)).
  { intros k x v H. unfold set_prop. unfold is_object in H.
    destruct (own_props v); [reflexivity | discriminate]. }
  rewrite (Hset "ext" _ r1 Hobj1). simpl.
  rewrite get_put_same by assumption.
  rewrite (Hset "account" _ _ Hext2). simpl.
  rewrite (@get_put_other "cur" "ext") by reflexivity.
  rewrite (@get_put_other "cur" "ext") by reflexivity.
  rewrite (Hother "cur") by reflexivity.
  rewrite Hset by now rewrite !is_object_put. simpl.
  rewrite (@get_put_other "imp" "cur") by reflexivity.
  rewrite (@get_put_other "imp" "ext") by reflexivity.
  rewrite (@get_put_other "imp" "ext") by reflexivity.
  rewrite (Hother "imp") by reflexivity.
  reflexivity.
Qed.

(** X10.  The structural failures of the hook before it looks at any
    impression: a null or undefined request gives a TypeError, and so does
    an [ext] that is a primitive other than null and undefined (the account
    cannot be stored in it); on a request object whose [ext] is absent or an
    object, an [imp] that is absent, falsy or not an array gives the error
    [Request must contain a valid impressions array], while an empty [imp]
    array is accepted and returned empty. *)
Theorem X10_structural_errors (c : config) (request : value) :
  (is_nullish request = true -> request_edits c request = Throw type_error)
  /\ (is_object request = true ->
      is_nullish (get "ext" request) = false ->
      is_object (get "ext" request) = false ->
      request_edits c request = Throw type_error)
  /\ (is_object request = true ->
      is_nullish (get "ext" request) = true
      \/ is_object (get "ext" request) = true ->
      is_array (get "imp" request) = false ->
      request_edits c request
      = Throw (new_error "Request must contain a valid impressions array"))
  /\ (is_object request = true ->
      is_nullish (get "ext" request) = true
      \/ is_object (get "ext" request) = true ->
      forall ps, get "imp" request = Arr [] ps ->
      exists r', request_edits c request = Ok r'
                 /\ get "imp" r' = Arr [] ps).
Proof.
  split.
  { intros Hnull. unfold request_edits, get_prop.
    assert (Hgeo : strip_geo request = request).
    { destruct request; simpl in Hnull; try discriminate; reflexivity. }
    rewrite Hgeo, Hnull. reflexivity. }
  split.
  { intros Hobj Hnull Hprim. unfold request_edits.
    unfold get_prop at 1.
    rewrite (is_object_not_nullish (strip_geo request))
      by now rewrite strip_geo_is_object.
    simpl. rewrite strip_geo_get_other by reflexivity.
    set (r1 := if truthy (get "user" request)
               then put "user" (strip_user_fields (get "user" request))
                      (strip_geo request)
               else strip_geo request).
    assert (Hobj1 : is_object r1 = true).
    { subst r1. destruct (truthy (get "user" request));
        rewrite ?is_object_put, strip_geo_is_object; assumption. }
    assert (Hext1 : get "ext" r1 = get "ext" request).
    { subst r1. destruct (truthy (get "user" request));
        rewrite ?get_put_other by reflexivity;
        now apply strip_geo_get_other. }
    unfold set_prop at 1. unfold is_object in Hobj1.
    destruct (own_props r1) eqn:Hp; [| discriminate]. simpl.
    rewrite get_put_same by (unfold is_object; now rewrite Hp).
    rewrite Hext1. unfold nullish_or. rewrite Hnull.
    unfold set_prop at 1. unfold is_object in Hprim.
    destruct (own_props (get "ext" request)); [discriminate | reflexivity]. }
  split.
  { intros Hobj Hext Harr.
    rewrite request_edits_preamble by assumption.
    rewrite Harr. simpl. now rewrite orb_true_r. }
  intros Hobj Hext ps Himp.
  rewrite request_edits_preamble by assumption.
  rewrite Himp. simpl. eexists. split; [reflexivity |].
  apply get_put_same. rewrite !is_object_put.
  destruct (truthy (get "user" request));
    rewrite ?is_object_put, strip_geo_is_object; assumption.
Qed.

(** X11.  On a request object with a usable [ext] and an [imp] array, an
    impression that is null, undefined or otherwise falsy makes the hook
    throw [Impression at index i is null or undefined] with its own index,
    provided no earlier impression fails. *)
Theorem X11_missing_impression
    (c : config) (request : value) (i : nat) (imp : value) :
  is_object request = true ->
  is_nullish (get "ext" request) = true
  \/ is_object (get "ext" request) = true ->
  is_array (get "imp" request) = true ->
  nth_error (elems_of (get "imp" request)) i = Some imp ->
  truthy imp = false ->
  (forall j x, (j < i)%nat ->
               nth_error (elems_of (get "imp" request)) j = Some x ->
               exists x', process_imp j x = Ok x') ->
  request_edits c request
  = Throw (new_error ("Impression at index " ++ string_of_index i
                      ++ " is null or undefined")).
Proof.
  intros Hobj Hext Harr Hnth Hfalsy Hbefore.
  apply request_edits_throw_of_imp; try assumption.
  eapply for_each_imp_first_throw; [eassumption | | assumption].
  simpl. unfold process_imp. rewrite Hfalsy. reflexivity.
Qed.

Lemma for_each_imp_length (imps : list value) :
  forall index imps',
    for_each_imp index imps = Ok imps' ->
    List.length imps' = List.length imps.
Proof.
  induction imps as [| x rest IH]; intros index imps' Hrun; simpl in Hrun.
  - now inversion Hrun.
  - destruct (process_imp index x) as [x' | e]; simpl in Hrun;
      [| discriminate].
    destruct (for_each_imp (S index) rest) as [rest' | e] eqn:Hrest;
      simpl in Hrun; [| discriminate].
    inversion Hrun. simpl. f_equal. eapply IH. eassumption.
Qed.

Lemma process_imp_changes (index : nat) (imp imp' : value) :
  process_imp index imp = Ok imp' ->
  imp' = imp
  \/ (is_object imp = true
      /\ is_object (get "banner" imp) = true
      /\ exists w h,
           imp' = put "banner"
                    (put "h" h (put "w" w (get "banner" imp))) imp).
Proof.
  unfold process_imp.
  destruct (negb (truthy imp)); [discriminate |].
  destruct (negb (truthy (get "banner" imp))) eqn:Hbanner;
    [intros H; inversion H; auto |].
  destruct (negb (doesHWExist (get "banner" imp))
            && doesFormatExist (get "banner" imp)) eqn:Hcase;
    [| intros H; inversion H; auto].
  destruct (is_nullish _); [discriminate |].
  destruct (negb _ || negb _); [discriminate |].
  intros H. inversion H. right.
  apply andb_prop in Hcase. destruct Hcase as [_ Hformat].
  unfold doesFormatExist in Hformat. apply andb_prop in Hformat.
  destruct Hformat as [Hformat _].
  assert (Hb : is_object (get "banner" imp) = true).
  { destruct (get "banner" imp); try reflexivity; simpl in Hformat;
      discriminate. }
  assert (Hi : is_object imp = true).
  { apply (truthy_get_object "banner"). apply negb_false_iff in Hbanner.
    assumption. }
  repeat split; try assumption. eexists. eexists. reflexivity.
Qed.

(** X12.  The hook returns as many impressions as it was given, in the same
    order, and changes nothing in an impression but [banner.w] and
    [banner.h]: every other field of the impression and every other field
    of its banner, the format list included, is as [buildRequest] left
    it. *)
Theorem X12_impressions_keep_their_fields
    (c : config) (buildRequest : value -> value -> value -> result value)
    (imps bidderRequest context request r' : value) :
  buildRequest imps bidderRequest context = Ok request ->
  converter_request c buildRequest imps bidderRequest context = Ok r' ->
  List.length (elems_of (get "imp" r'))
  = List.length (elems_of (get "imp" request))
  /\ forall i imp,
       nth_error (elems_of (get "imp" request)) i = Some imp ->
       exists imp',
         nth_error (elems_of (get "imp" r')) i = Some imp'
         /\ (forall k, String.eqb k "banner" = false ->
                       get k imp' = get k imp)
         /\ (forall k, String.eqb k "w" = false -> String.eqb k "h" = false ->
                       get k (get "banner" imp') = get k (get "banner" imp)).
Proof.
  intros Hbuild Hrun. unfold converter_request in Hrun.
  rewrite Hbuild in Hrun. simpl in Hrun.
  destruct (request_edits_inv _ _ Hrun)
    as (_ & _ & _ & _ & imps' & Himps & Hget).
  split.
  { rewrite Hget. simpl. eapply for_each_imp_length. eassumption. }
  intros i imp Hnth.
  destruct (request_edits_imp _ _ _ Hrun Hnth) as [imp' [Hp Hn]].
  exists imp'. split; [assumption |].
  destruct (process_imp_changes _ _ Hp)
    as [Hsame | (Hi & Hb & w & h & Himp')].
  - subst imp'. auto.
  - subst imp'. split.
    + intros k Hk. now apply get_put_other.
    + intros k Hw Hh. rewrite get_put_same by assumption.
      now rewrite !get_put_other by assumption.
Qed.

(** *** More on the response hook *)

(** X13.  For a wire bid whose [mtype] is not 2 the hook leaves the wire
    bid alone, [adm] included, and hands it to generic conversion as it is.
    When the Bid that conversion returns is not a video Bid the hook
    returns it untouched; when it is a video Bid the hook sets its
    [vastUrl] to undefined, replacing whatever conversion had put there. *)
Theorem X13_other_media_types
    (buildBidResponse : value -> value -> result value)
    (bid context generic : value) :
  is_nullish bid = false ->
  strict_equals (get "mtype" bid) (Num two) = false ->
  buildBidResponse bid context = Ok generic ->
  is_nullish generic = false ->
  (strict_equals (get "mediaType" generic) (Str VIDEO) = false ->
   converter_bidResponse buildBidResponse bid context = Ok (generic, bid))
  /\ (strict_equals (get "mediaType" generic) (Str VIDEO) = true ->
      converter_bidResponse buildBidResponse bid context
      = Ok (put "vastUrl" Undefined generic, bid)
      /\ get "vastUrl" (put "vastUrl" Undefined generic) = Undefined).
Proof.
  intros Hbid Hmtype Hbuild Hgeneric.
  unfold converter_bidResponse, get_prop.
  rewrite Hbid. simpl. rewrite Hmtype, Hbuild. simpl.
  rewrite Hgeneric. simpl.
  split; intros Hmedia; rewrite Hmedia; [reflexivity |].
  assert (Hobj : is_object generic = true).
  { destruct generic; try reflexivity; simpl in Hmedia; discriminate. }
  unfold set_prop. unfold is_object in Hobj.
  destruct (own_props generic) eqn:Hp; [| discriminate]. simpl.
  split; [reflexivity |].
  apply get_put_same. unfold is_object. now rewrite Hp.
Qed.

(** X14.  How the response hook fails: a null or undefined wire bid gives a
    TypeError before conversion is tried; an error thrown by generic
    conversion comes out of the hook unchanged; a null or undefined result
    of conversion gives a TypeError. *)
Theorem X14_response_hook_failures
    (buildBidResponse : value -> value -> result value)
    (bid context : value) :
  let sent :=
    if strict_equals (get "mtype" bid) (Num two) then delete "adm" bid
    else bid in
  (is_nullish bid = true ->
   converter_bidResponse buildBidResponse bid context = Throw type_error)
  /\ (is_nullish bid = false ->
      forall e, buildBidResponse sent context = Throw e ->
                converter_bidResponse buildBidResponse bid context = Throw e)
  /\ (is_nullish bid = false ->
      forall generic,
        buildBidResponse sent context = Ok generic ->
        is_nullish generic = true ->
        converter_bidResponse buildBidResponse bid context
        = Throw type_error).
Proof.
  intros sent. unfold converter_bidResponse, get_prop.
  split; [intros H; now rewrite H |].
  split.
  - intros H e He. rewrite H. simpl. fold sent. now rewrite He.
  - intros H generic Hg Hnull. rewrite H. simpl. fold sent.
    rewrite Hg. simpl. now rewrite Hnull.
Qed.

(** *** More on the response interpreter *)

Lemma render_bid_object (creativeUrl accountID body bid : value) :
  is_object bid = true ->
  exists bid',
    render_bid creativeUrl accountID body bid = Ok bid'
    /\ (strict_equals (get "mediaType" bid) (Str VIDEO) = true -> bid' = bid)
    /\ (strict_equals (get "mediaType" bid) (Str VIDEO) = false ->
        (forall k, String.eqb k "ad" = false -> get k bid' = get k bid)
        /\ get "ad" bid' =
             Str (ad_markup
                    (to_string creativeUrl) (to_string accountID)
                    (btoa (to_string (JSON_stringify body)))
                    (to_string (JSON_stringify (get "seatBidId" bid))))).
Proof.
  intros Hobj. unfold render_bid, get_prop.
  rewrite (is_object_not_nullish _ Hobj). simpl.
  destruct (strict_equals (get "mediaType" bid) (Str VIDEO)) eqn:Hv; simpl.
  - exists bid. split; [reflexivity |]. split; [auto | discriminate].
  - assert (Hdel : is_object (delete "ad" bid) = true)
      by now rewrite is_object_delete.
    unfold set_prop. unfold is_object in Hdel.
    destruct (own_props (delete "ad" bid)) eqn:Hp; [| discriminate].
    eexists. split; [reflexivity |]. split; [discriminate |].
    intros _. split.
    + intros k Hk. rewrite get_put_other by assumption.
      now apply get_delete_other.
    + rewrite get_put_same by (unfold is_object; now rewrite Hp).
      rewrite trim_ad_markup.
      now rewrite (@get_delete_other "seatBidId" "ad") by reflexivity.
Qed.

Lemma render_bid_primitive (creativeUrl accountID body bid : value) :
  is_object bid = false ->
  render_bid creativeUrl accountID body bid = Throw type_error.
Proof.
  intros Hprim. unfold render_bid, get_prop.
  destruct (is_nullish bid) eqn:Hnull; [reflexivity |]. simpl.
  assert (Hget : get "mediaType" bid = Undefined)
    by (destruct bid; simpl in Hprim; try discriminate; reflexivity).
  rewrite Hget. simpl.
  unfold set_prop.
  assert (Hdel : is_object (delete "ad" bid) = false)
    by now rewrite is_object_delete.
  unfold is_object in Hdel.
  destruct (own_props (delete "ad" bid)); [discriminate | reflexivity].
Qed.

Lemma render_bid_throws (creativeUrl accountID body bid e : value) :
  render_bid creativeUrl accountID body bid = Throw e -> e = type_error.
Proof.
  destruct (is_object bid) eqn:Hobj.
  - destruct (render_bid_object creativeUrl accountID body bid Hobj)
      as [bid' [Hrun _]].
    rewrite Hrun. discriminate.
  - rewrite render_bid_primitive by assumption. congruence.
Qed.

Lemma for_each_bid_primitive (creativeUrl accountID body : value)
    (bids : list value) (bid : value) :
  In bid bids -> is_object bid = false ->
  for_each_bid creativeUrl accountID body bids = Throw type_error.
Proof.
  intros Hin Hprim. induction bids as [| b rest IH]; simpl in *;
    [contradiction |].
  destruct (render_bid creativeUrl accountID body b) as [b' | e] eqn:Hrun;
    simpl.
  - destruct Hin as [Heq | Hin].
    + subst b. rewrite render_bid_primitive in Hrun by assumption.
      discriminate.
    + now rewrite (IH Hin).
  - now rewrite (render_bid_throws _ _ _ _ Hrun).
Qed.

Lemma interpretResponse_run (response request : value) (w : world) :
  fst (interpretResponse response request w) =
    match
      (body <- get_prop "body" response ;;
       data <- get_prop "data" request ;;
       converted <- fromORTB body data ;;
       bids <- get_prop "bids" (fst converted) ;;
       match bids with
       | Arr es ps =>
           es' <- for_each_bid (creative_url (cfg w))
                    (readConfig (cfg w) "aps.accountID") (snd converted) es ;;
           Ok (Arr es' ps)
       | _ => Throw type_error
       end)
    with
    | Ok v => Ok v
    | Throw _ => Ok Undefined
    end.
Proof.
  unfold interpretResponse, mbind, do_record, try_catch,
    interpretResponse_body, lift, logError, log, mret.
  rewrite record_cfg.
  destruct (get_prop "body" response) as [body | e]; simpl; [| reflexivity].
  destruct (get_prop "data" request) as [data | e]; simpl; [| reflexivity].
  destruct (fromORTB body data) as [[interpreted body'] | e]; simpl;
    [| reflexivity].
  destruct (get_prop "bids" interpreted) as [bids | e]; simpl;
    [| reflexivity].
  destruct bids; simpl; try reflexivity.
  destruct (for_each_bid _ _ _ _); reflexivity.
Qed.

Lemma for_each_bid_nth (creativeUrl accountID body : value)
    (bids : list value) :
  forall bids',
    for_each_bid creativeUrl accountID body bids = Ok bids' ->
    List.length bids' = List.length bids
    /\ forall i bid,
         nth_error bids i = Some bid ->
         exists bid',
           nth_error bids' i = Some bid'
           /\ render_bid creativeUrl accountID body bid = Ok bid'.
Proof.
  induction bids as [| b rest IH]; intros bids' Hrun; simpl in Hrun.
  - inversion Hrun; subst bids'. split; [reflexivity |].
    intros i bid Hnth. destruct i; discriminate.
  - destruct (render_bid creativeUrl accountID body b) as [b' | e] eqn:Hb;
      simpl in Hrun; [| discriminate].
    destruct (for_each_bid creativeUrl accountID body rest)
      as [rest' | e] eqn:Hrest; simpl in Hrun; [| discriminate].
    inversion Hrun; subst bids'; clear Hrun.
    destruct (IH rest' eq_refl) as [Hlen Hnth].
    split; [simpl; now rewrite Hlen |].
    intros i bid Hi. destruct i as [| i]; simpl in *.
    + inversion Hi; subst bid. exists b'. auto.
    + now apply Hnth.
Qed.

Lemma render_bid_ok_object (creativeUrl accountID body bid bid' : value) :
  render_bid creativeUrl accountID body bid = Ok bid' ->
  is_object bid = true.
Proof.
  intros Hrun. destruct (is_object bid) eqn:Hobj; [reflexivity |].
  rewrite render_bid_primitive in Hrun by assumption. discriminate.
Qed.

(** X15.  Whenever [interpretResponse] returns an array, the conversion
    has succeeded with an array of Bids, every one of them an object, and
    the array returned holds as many Bids in the same order: a video Bid
    is returned as conversion made it, and a Bid of another media type
    differs from what conversion made only in [ad], which is the markup of
    the adapter for that Bid. *)
Theorem X15_bids_are_kept
    (response request returned : value) (w : world) :
  fst (interpretResponse response request w) = Ok returned ->
  is_array returned = true ->
  exists interpreted body bids bids' ps,
    fromORTB (get "body" response) (get "data" request)
    = Ok (interpreted, body)
    /\ get "bids" interpreted = Arr bids ps
    /\ returned = Arr bids' ps
    /\ List.length bids' = List.length bids
    /\ forall i bid,
         nth_error bids i = Some bid ->
         is_object bid = true
         /\ exists bid',
              nth_error bids' i = Some bid'
              /\ (strict_equals (get "mediaType" bid) (Str VIDEO) = true ->
                  bid' = bid)
              /\ (strict_equals (get "mediaType" bid) (Str VIDEO) = false ->
                  (forall k, String.eqb k "ad" = false ->
                             get k bid' = get k bid)
                  /\ get "ad" bid' =
                       Str (ad_markup
                              (to_string (creative_url (cfg w)))
                              (to_string
                                 (readConfig (cfg w) "aps.accountID"))
                              (btoa (to_string (JSON_stringify body)))
                              (to_string
                                 (JSON_stringify (get "seatBidId" bid))))).
Proof.
  rewrite interpretResponse_run. unfold get_prop.
  intros Hrun Harray.
  assert (Hundefined : forall r : result value,
            match r with Ok v => Ok v | Throw _ => Ok Undefined end
            = Ok returned ->
            exists v, r = Ok v /\ v = returned).
  { intros [v | e] H; inversion H; subst returned;
      [eauto | discriminate]. }
  apply Hundefined in Hrun. destruct Hrun as (v & Hrun & ->).
  destruct (is_nullish response); simpl in Hrun; [discriminate |].
  destruct (is_nullish request); simpl in Hrun; [discriminate |].
  destruct (fromORTB (get "body" response) (get "data" request))
    as [[interpreted body] | e] eqn:Hconv; simpl in Hrun; [| discriminate].
  destruct (is_nullish interpreted); simpl in Hrun; [discriminate |].
  destruct (get "bids" interpreted) as [| | | | | bids ps | |] eqn:Hbids;
    simpl in Hrun; try discriminate.
  destruct (for_each_bid (creative_url (cfg w))
              (readConfig (cfg w) "aps.accountID") body bids)
    as [bids' | e] eqn:Heach; simpl in Hrun; [| discriminate].
  inversion Hrun; subst returned; clear Hrun.
  destruct (for_each_bid_nth _ _ _ _ Heach) as [Hlen Hnth].
  exists interpreted, body, bids, bids', ps.
  split; [reflexivity |]. split; [assumption |]. split; [reflexivity |].
  split; [assumption |].
  intros i bid Hi. destruct (Hnth i bid Hi) as (bid' & Hn & Hbid).
  pose proof (render_bid_ok_object _ _ _ _ Hbid) as Hobj.
  split; [assumption |].
  exists bid'. split; [assumption |].
  destruct (render_bid_object (creative_url (cfg w))
              (readConfig (cfg w) "aps.accountID") body bid Hobj)
    as (bid'' & Hbid' & Hvideo & Hother).
  rewrite Hbid in Hbid'. inversion Hbid'; subst bid''. auto.
Qed.

(** X16.  [interpretResponse] gives all the Bids or none: it returns
    undefined when the response or the request is null or undefined, when
    the conversion throws, when the interpreted response has no [bids]
    array, and as soon as a single element of [bids] is not an object,
    whatever the other Bids are. *)
Theorem X16_all_bids_or_none (response request : value) (w : world) :
  (is_nullish response = true \/ is_nullish request = true ->
   fst (interpretResponse response request w) = Ok Undefined)
  /\ (forall e,
        fromORTB (get "body" response) (get "data" request) = Throw e ->
        fst (interpretResponse response request w) = Ok Undefined)
  /\ (forall interpreted body,
        fromORTB (get "body" response) (get "data" request)
        = Ok (interpreted, body) ->
        is_array (get "bids" interpreted) = false ->
        fst (interpretResponse response request w) = Ok Undefined)
  /\ (forall interpreted body bid,
        fromORTB (get "body" response) (get "data" request)
        = Ok (interpreted, body) ->
        In bid (elems_of (get "bids" interpreted)) ->
        is_object bid = false ->
        fst (interpretResponse response request w) = Ok Undefined).
Proof.
  assert (Hrun := interpretResponse_run response request w).
  unfold get_prop in Hrun.
  split.
  { intros H. rewrite Hrun.
    destruct (is_nullish response) eqn:E; [reflexivity |]. simpl.
    destruct H as [H | H]; [discriminate | now rewrite H]. }
  split.
  { intros e He. rewrite Hrun.
    destruct (is_nullish response); [reflexivity |]. simpl.
    destruct (is_nullish request); [reflexivity |]. simpl.
    now rewrite He. }
  split.
  { intros interpreted body Hconv Harr. rewrite Hrun.
    destruct (is_nullish response); [reflexivity |]. simpl.
    destruct (is_nullish request); [reflexivity |]. simpl.
    rewrite Hconv. simpl.
    destruct (is_nullish interpreted); [reflexivity |]. simpl.
    destruct (get "bids" interpreted); try reflexivity.
    discriminate. }
  intros interpreted body bid Hconv Hin Hprim. rewrite Hrun.
  destruct (is_nullish response); [reflexivity |]. simpl.
  destruct (is_nullish request); [reflexivity |]. simpl.
  rewrite Hconv. simpl.
  destruct (is_nullish interpreted); [reflexivity |]. simpl.
  destruct (get "bids" interpreted) as [| | | | | es ps | |];
    try reflexivity.
  simpl in Hin.
  now rewrite (for_each_bid_primitive _ _ _ _ _ Hin Hprim).
Qed.

(** *** More on the user syncs *)

Lemma wants_sync_throws (syncOptions s e : value) :
  wants_sync syncOptions s = Throw e -> e = type_error.
Proof.
  unfold wants_sync, get_prop.
  destruct (is_nullish s); simpl; [congruence |].
  destruct (strict_equals (get "type" s) (Str "iframe")); simpl.
  - destruct (is_nullish syncOptions); simpl; [congruence |].
    destruct (truthy (get "iframeEnabled" syncOptions)); simpl;
      [discriminate |].
    destruct (strict_equals (get "type" s) (Str "image")); simpl;
      discriminate.
  - destruct (strict_equals (get "type" s) (Str "image")); simpl;
      [| discriminate].
    destruct (is_nullish syncOptions); simpl; [congruence | discriminate].
Qed.

Lemma filter_syncs_null_entry (syncOptions : value) (l : list value)
    (s : value) :
  In s l -> is_nullish s = true ->
  filter_syncs syncOptions l = Throw type_error.
Proof.
  intros Hin Hnull. induction l as [| x rest IH]; simpl in *;
    [contradiction |].
  destruct (wants_sync syncOptions x) as [keep | e] eqn:Hx; simpl.
  - destruct Hin as [Heq | Hin].
    + subst x. unfold wants_sync, get_prop in Hx. rewrite Hnull in Hx.
      discriminate.
    + now rewrite (IH Hin).
  - now rewrite (wants_sync_throws _ _ Hx).
Qed.

Lemma getUserSyncs_run
    (syncOptions serverResponses gdprConsent uspConsent : value)
    (w : world) :
  fst (getUserSyncs syncOptions serverResponses gdprConsent uspConsent w) =
    match serverResponses with
    | Arr responses _ =>
        match filter_syncs syncOptions (flat_map user_syncs_of responses) with
        | Ok kept => Ok (array kept)
        | Throw _ => Ok Undefined
        end
    | _ => Ok Undefined
    end.
Proof.
  unfold getUserSyncs, mbind, do_record, try_catch, getUserSyncs_body,
    lift, logError, log, mret.
  destruct serverResponses; try reflexivity.
  destruct (filter_syncs _ _); reflexivity.
Qed.

(** X17.  A single entry that is null or undefined in the [userSyncs] list
    of any response makes [getUserSyncs] return undefined: the other
    entries are lost, whatever the sync options. *)
Theorem X17_null_entry_loses_all_syncs
    (syncOptions : value) (responses : list value) (ps : props)
    (gdprConsent uspConsent : value) (w : world) (s : value) :
  In s (flat_map user_syncs_of responses) ->
  is_nullish s = true ->
  fst (getUserSyncs syncOptions (Arr responses ps) gdprConsent uspConsent w)
  = Ok Undefined.
Proof.
  intros Hin Hnull. rewrite getUserSyncs_run.
  now rewrite (filter_syncs_null_entry syncOptions _ _ Hin Hnull).
Qed.

Lemma filter_syncs_other_types (syncOptions : value) (l : list value) :
  Forall (fun s => is_nullish s = false
                   /\ strict_equals (get "type" s) (Str "iframe") = false
                   /\ strict_equals (get "type" s) (Str "image") = false) l ->
  filter_syncs syncOptions l = Ok [].
Proof.
  intros Hall. induction Hall as [| s rest (Hs & Hi & Hp) Hrest IH]; simpl;
    [reflexivity |].
  unfold wants_sync, get_prop. rewrite Hs. simpl. rewrite Hi. simpl.
  rewrite Hp. simpl. now rewrite IH.
Qed.

(** X18.  The edges of [getUserSyncs]: server responses that are not an
    array give undefined; an empty array of responses gives an empty list;
    with both kinds of syncing off nothing is returned; entries of other
    types than [iframe] and [image] are dropped without the options being
    read, so that even undefined options give an empty list; and a
    [userSyncs] value that is not an array counts as one entry. *)
Theorem X18_user_sync_edges
    (syncOptions gdprConsent uspConsent : value) (w : world) :
  (forall serverResponses,
     is_array serverResponses = false ->
     fst (getUserSyncs syncOptions serverResponses gdprConsent uspConsent w)
     = Ok Undefined)
  /\ (forall ps,
        fst (getUserSyncs syncOptions (Arr [] ps) gdprConsent uspConsent w)
        = Ok (array []))
  /\ (forall responses ps,
        is_nullish syncOptions = false ->
        truthy (get "iframeEnabled" syncOptions) = false ->
        truthy (get "pixelEnabled" syncOptions) = false ->
        Forall (fun s => is_nullish s = false)
               (flat_map user_syncs_of responses) ->
        fst (getUserSyncs syncOptions (Arr responses ps) gdprConsent
               uspConsent w)
        = Ok (array []))
  /\ (forall responses ps,
        Forall (fun s => is_nullish s = false
                         /\ strict_equals (get "type" s) (Str "iframe")
                            = false
                         /\ strict_equals (get "type" s) (Str "image")
                            = false)
               (flat_map user_syncs_of responses) ->
        fst (getUserSyncs syncOptions (Arr responses ps) gdprConsent
               uspConsent w)
        = Ok (array []))
  /\ (forall res,
        let syncs := get "userSyncs" (get "ext" (get "body" res)) in
        is_nullish syncs = false -> is_array syncs = false ->
        user_syncs_of res = [syncs]).
Proof.
  split.
  { intros serverResponses Harr. rewrite getUserSyncs_run.
    destruct serverResponses; try reflexivity. discriminate. }
  split; [intros ps; now rewrite getUserSyncs_run |].
  split.
  { intros responses ps Ho Hiframe Hpixel Hall.
    rewrite getUserSyncs_run, (filter_syncs_ok _ Ho Hall).
    f_equal. f_equal.
    induction (flat_map user_syncs_of responses) as [| s rest IH];
      [reflexivity |].
    simpl. unfold sync_enabled at 1.
    rewrite Hiframe, Hpixel, !andb_false_r. simpl.
    apply IH. now inversion Hall. }
  split.
  { intros responses ps Hall.
    now rewrite getUserSyncs_run, (filter_syncs_other_types _ Hall). }
  intros res syncs Hnull Harr. unfold user_syncs_of.
  rewrite !opt_get_get. fold syncs. unfold nullish_or. rewrite Hnull.
  destruct syncs; try reflexivity. discriminate.
Qed.

(** *** The two gates on the account identifier *)

(** X19.  The validation gate and the telemetry gate disagree in both
    directions.  An account identifier that validation accepts passes the
    gate of [record] unless it is the number zero or NaN; and an
    identifier that validation refuses still passes the gate of [record]
    when it is truthy (a blank string, [true], an object), so the refused
    validation call itself is filed as an event under that identifier. *)
Theorem X19_validation_and_telemetry_gates (accountID : value) :
  (isValidAccountID accountID = true ->
   (truthy accountID = false <->
    exists x, accountID = Num x
              /\ (x = S754_nan \/ exists sign, x = S754_zero sign)))
  /\ (forall bid w,
        readConfig (cfg w) "aps.accountID" = accountID ->
        telemetry_on w = true ->
        isValidAccountID accountID = false ->
        fst (isBidRequestValid bid w) = Ok (Bool false)
        /\ last_event (snd (isBidRequestValid bid w))
           = Some (CustomEvent "prebidAdapter/isBidRequestValid/didTrigger"
                     (event_detail_of Undefined))
        /\ queue (entry_of accountID
                    (window_aps (snd (isBidRequestValid bid w))))
           = (queue (entry_of accountID (window_aps w))
              ++ [event_of "isBidRequestValid" Undefined])%list).
Proof.
  split.
  { intros Hvalid. split.
    - intros Hfalsy.
      destruct accountID as [| | b | x | s | es ps | ps | e ps];
        try (cbv in Hvalid; discriminate); try (simpl in Hfalsy; discriminate).
      + exists x. split; [reflexivity |].
        destruct x; simpl in Hfalsy; try discriminate; eauto.
      + rewrite isValidAccountID_string in Hvalid. simpl in Hfalsy.
        destruct s; simpl in *; discriminate.
    - intros (x & Hx & [Hnan | [sign Hzero]]); subst; reflexivity. }
  intros bid w Hacc Hon Hinvalid.
  split.
  { rewrite isBidRequestValid_result, Hacc, Hinvalid. reflexivity. }
  assert (Hrun : snd (isBidRequestValid bid w)
                 = snd (logWarn ("Invalid accountID: " ++ to_string accountID)
                          (record "isBidRequestValid" Undefined w))).
  { unfold isBidRequestValid, mbind, do_record, try_catch,
      isBidRequestValid_body, read_config, mbind.
    rewrite record_cfg, Hacc, Hinvalid. reflexivity. }
  rewrite Hrun.
  destruct (telemetry_on_true w Hon) as [Htel Htruthy].
  pose proof (record_enabled "isBidRequestValid" Undefined w Htel Htruthy)
    as Hlast.
  destruct (record_effect "isBidRequestValid" Undefined w Hon)
    as (_ & _ & Hentry & _).
  rewrite Hacc in Hentry.
  split.
  - unfold last_event in *. unfold logWarn, log. simpl. exact Hlast.
  - unfold logWarn, log. simpl. rewrite Hentry. reflexivity.
Qed.

(** X20.  [isBidRequestValid] never looks at the bid it is given: its
    verdict and its effects are the same for every bid.  It changes no
    configuration, files the event of the call, and writes to the console
    only when it refuses, and then exactly one warning naming the
    identifier. *)
Theorem X20_validation_ignores_the_bid (bid : value) (w : world) :
  let account := readConfig (cfg w) "aps.accountID" in
  let after := snd (isBidRequestValid bid w) in
  (forall other, isBidRequestValid other w = isBidRequestValid bid w)
  /\ cfg after = cfg w
  /\ window_aps after = window_aps (record "isBidRequestValid" Undefined w)
  /\ console after
     = (console w
        ++ (if isValidAccountID account then []
            else [LogWarn ("Invalid accountID: " ++ to_string account)]))%list.
Proof.
  intros account after. split; [reflexivity |].
  subst after.
  unfold isBidRequestValid, mbind, do_record, try_catch,
    isBidRequestValid_body, read_config, mbind.
  rewrite record_cfg. fold account.
  destruct (isValidAccountID account); simpl.
  - rewrite record_cfg, record_console, app_nil_r. auto.
  - rewrite record_cfg, record_console. auto.
Qed.

(** *** Running the request hook twice *)

Lemma write_same (k : string) (x : value) (ps : props) :
  lookup k ps = Some x -> write k x ps = ps.
Proof.
  induction ps as [| [k' v] rest IH]; simpl; [discriminate |].
  destruct (String.eqb k k') eqn:E.
  - intros H. inversion H; subst. apply String.eqb_eq in E. now subst.
  - intros H. now rewrite IH.
Qed.

Lemma remove_absent (k : string) (ps : props) :
  lookup k ps = None -> remove k ps = ps.
Proof.
  induction ps as [| [k' v] rest IH]; simpl; [reflexivity |].
  destruct (String.eqb k k'); [discriminate |].
  intros H. now rewrite IH.
Qed.

Lemma put_same (k : string) (x v : value) :
  has_key k v = true -> get k v = x -> put k x v = v.
Proof.
  unfold has_key, get, put.
  destruct v; simpl; try discriminate;
    (destruct (lookup k _) eqn:E; [| discriminate]);
    intros _ H; subst; now rewrite write_same.
Qed.

Lemma delete_absent (k : string) (v : value) :
  has_key k v = false -> delete k v = v.
Proof.
  unfold has_key, delete.
  destruct v; simpl; try reflexivity;
    (destruct (lookup k _) eqn:E; [discriminate |]);
    intros _; now rewrite remove_absent.
Qed.

Lemma has_key_put_same (k : string) (x v : value) :
  is_object v = true -> has_key k (put k x v) = true.
Proof.
  destruct v; simpl; intros H; try discriminate;
    unfold has_key, put; simpl; now rewrite lookup_write_same.
Qed.

Lemma truthy_has_key (k : string) (v : value) :
  truthy (get k v) = true -> has_key k v = true.
Proof.
  unfold get, has_key. destruct (own_props v); [| discriminate].
  destruct (lookup k p); [reflexivity | discriminate].
Qed.

Lemma object_truthy (v : value) : is_object v = true -> truthy v = true.
Proof. destruct v; simpl; intros H; try discriminate; reflexivity. Qed.

Lemma strip_geo_fixed (request : value) :
  has_key "lat" (get "geo" (get "device" request)) = false ->
  has_key "lon" (get "geo" (get "device" request)) = false ->
  strip_geo request = request.
Proof.
  intros Hlat Hlon. unfold strip_geo. rewrite !opt_get_get.
  destruct (truthy (get "geo" (get "device" request))) eqn:Hgeo;
    [| reflexivity].
  rewrite (delete_absent _ _ Hlat), (delete_absent _ _ Hlon).
  rewrite (put_same "geo") by (auto using truthy_has_key).
  apply put_same; [| reflexivity].
  apply truthy_has_key. apply object_truthy.
  eapply truthy_get_object. eassumption.
Qed.

Lemma strip_user_fields_fixed (user : value) :
  (forall k,
     In k ["gender"; "yob"; "keywords"; "kwarry"; "customdata"; "geo";
           "data"] ->
     has_key k user = false) ->
  strip_user_fields user = user.
Proof.
  intros H. unfold strip_user_fields.
  rewrite (delete_absent "gender" user) by (apply H; simpl; auto 10).
  rewrite (delete_absent "yob" user) by (apply H; simpl; auto 10).
  rewrite (delete_absent "keywords" user) by (apply H; simpl; auto 10).
  rewrite (delete_absent "kwarry" user) by (apply H; simpl; auto 10).
  rewrite (delete_absent "customdata" user) by (apply H; simpl; auto 10).
  rewrite (delete_absent "geo" user) by (apply H; simpl; auto 10).
  apply delete_absent. apply H; simpl; auto 10.
Qed.

Lemma process_imp_backfilled (index : nat) (imp imp' : value) :
  process_imp index imp = Ok imp' ->
  imp' = imp
  \/ (is_object imp = true
      /\ is_object (get "banner" imp) = true
      /\ doesFormatExist (get "banner" imp) = true
      /\ exists w h,
           get "w" (first_of (get "format" (get "banner" imp))) = Num w
           /\ get "h" (first_of (get "format" (get "banner" imp))) = Num h
           /\ imp' = put "banner"
                       (put "h" (Num h) (put "w" (Num w) (get "banner" imp)))
                       imp).
Proof.
  unfold process_imp.
  destruct (negb (truthy imp)); [discriminate |].
  destruct (negb (truthy (get "banner" imp))) eqn:Hbanner;
    [intros H; inversion H; auto |].
  destruct (negb (doesHWExist (get "banner" imp))) eqn:Hhw; simpl;
    [| intros H; inversion H; auto].
  destruct (doesFormatExist (get "banner" imp)) eqn:Hformat;
    [| intros H; inversion H; auto].
  destruct (is_nullish _); [discriminate |].
  destruct (get "w" (first_of (get "format" (get "banner" imp))))
    as [| | | w | | | |]; simpl; try discriminate.
  destruct (get "h" (first_of (get "format" (get "banner" imp))))
    as [| | | h | | | |]; simpl; try discriminate.
  intros H. inversion H. right.
  assert (Hb : is_object (get "banner" imp) = true).
  { unfold doesFormatExist in Hformat. apply andb_prop in Hformat.
    destruct Hformat as [Hformat _].
    destruct (get "banner" imp); try reflexivity; simpl in Hformat;
      discriminate. }
  assert (Hi : is_object imp = true).
  { apply (truthy_get_object "banner"). now apply object_truthy. }
  repeat split; try assumption. exists w, h. auto.
Qed.

Lemma process_imp_twice (index : nat) (imp imp' : value) :
  process_imp index imp = Ok imp' -> process_imp index imp' = Ok imp'.
Proof.
  intros Hrun.
  destruct (process_imp_backfilled _ _ Hrun)
    as [Hsame | (Hi & Hb & Hformat & w & h & Hw & Hh & Himp')].
  { now subst imp'. }
  set (banner := get "banner" imp) in *.
  set (filled := put "h" (Num h) (put "w" (Num w) banner)) in *.
  assert (Hfilled : is_object filled = true)
    by (subst filled; now rewrite !is_object_put).
  assert (Hbanner' : get "banner" imp' = filled)
    by (subst imp'; now apply get_put_same).
  assert (Himp'_obj : is_object imp' = true)
    by (subst imp'; now rewrite is_object_put).
  assert (Hgw : get "w" filled = Num w).
  { subst filled. rewrite get_put_other by reflexivity.
    now apply get_put_same. }
  assert (Hgh : get "h" filled = Num h).
  { subst filled. apply get_put_same. now rewrite is_object_put. }
  assert (Hgf : get "format" filled = get "format" banner).
  { subst filled. now rewrite !get_put_other by reflexivity. }
  destruct (doesHWExist filled) eqn:Hhw.
  - apply process_imp_with_dimensions; [now apply object_truthy |].
    right. now rewrite Hbanner'.
  - rewrite (@process_imp_backfill index imp' w h).
    + rewrite Hbanner'.
      assert (Hkw : has_key "w" filled = true).
      { subst filled. rewrite has_key_put_other by reflexivity.
        now apply has_key_put_same. }
      assert (Hkh : has_key "h" filled = true).
      { subst filled. apply has_key_put_same. now rewrite is_object_put. }
      rewrite (put_same "w") by assumption.
      rewrite (put_same "h") by assumption.
      f_equal. apply put_same; [| assumption].
      apply truthy_has_key. rewrite Hbanner'. now apply object_truthy.
    + now apply object_truthy.
    + rewrite Hbanner'. now apply object_truthy.
    + now rewrite Hbanner'.
    + rewrite Hbanner'. unfold doesFormatExist in *. now rewrite Hgf.
    + now rewrite Hbanner', Hgf.
    + now rewrite Hbanner', Hgf.
Qed.

Lemma for_each_imp_twice (imps : list value) :
  forall index imps',
    for_each_imp index imps = Ok imps' ->
    for_each_imp index imps' = Ok imps'.
Proof.
  induction imps as [| x rest IH]; intros index imps' Hrun; simpl in Hrun.
  - now inversion Hrun.
  - destruct (process_imp index x) as [x' | e] eqn:Hx; simpl in Hrun;
      [| discriminate].
    destruct (for_each_imp (S index) rest) as [rest' | e] eqn:Hrest;
      simpl in Hrun; [| discriminate].
    inversion Hrun. simpl.
    rewrite (process_imp_twice _ _ Hx). simpl.
    now rewrite (IH _ _ Hrest).
Qed.

(** X21.  The request hook is idempotent: the edits applied to a request
    they have returned succeed and return it unchanged.  Nothing is left to
    strip, the account and the currency are already in place, and a banner
    that was backfilled is backfilled with the same numbers. *)
Theorem X21_request_hook_is_idempotent (c : config) (request r' : value) :
  request_edits c request = Ok r' ->
  request_edits c r' = Ok r'.
Proof.
  intros Hrun.
  destruct (request_edits_inv _ _ Hrun)
    as (_ & _ & Hdev & Husr & imps' & Himps & Hget_imp).
  destruct (request_edits_shape _ _ Hrun)
    as (Hobj & imps'' & Himps'' & Hr' & Hext0).
  rewrite Himps in Himps''. inversion Himps''; subst imps''. clear Himps''.
  set (r1 := if truthy (get "user" request)
             then put "user" (strip_user_fields (get "user" request))
                    (strip_geo request)
             else strip_geo request) in *.
  set (ext0 := nullish_or (get "ext" request) empty_object) in *.
  set (account := readConfig c "aps.accountID") in *.
  set (cur := nullish_or (get "cur" request) (array [Str "USD"])) in *.
  assert (Hobj1 : is_object r1 = true).
  { subst r1. destruct (truthy (get "user" request));
      rewrite ?is_object_put, strip_geo_is_object; assumption. }
  assert (Hobj' : is_object r' = true)
    by (rewrite Hr'; now rewrite !is_object_put).
  assert (Hget_ext : get "ext" r' = put "account" account ext0).
  { rewrite Hr'. rewrite !get_put_other by reflexivity.
    apply get_put_same. now rewrite is_object_put. }
  assert (Hget_cur : get "cur" r' = cur).
  { rewrite Hr'. rewrite get_put_other by reflexivity.
    apply get_put_same. now rewrite !is_object_put. }
  assert (Hkey_ext : has_key "ext" r' = true).
  { rewrite Hr'. rewrite !has_key_put_other by reflexivity.
    apply has_key_put_same. now rewrite is_object_put. }
  assert (Hkey_cur : has_key "cur" r' = true).
  { rewrite Hr'. rewrite has_key_put_other by reflexivity.
    apply has_key_put_same. now rewrite !is_object_put. }
  assert (Hkey_imp : has_key "imp" r' = true).
  { rewrite Hr'. apply has_key_put_same. now rewrite !is_object_put. }
  assert (Hext' : is_object (get "ext" r') = true)
    by (rewrite Hget_ext; now rewrite is_object_put).
  assert (Hcur' : is_nullish (get "cur" r') = false).
  { rewrite Hget_cur. subst cur. unfold nullish_or.
    destruct (is_nullish (get "cur" request)) eqn:E;
      [reflexivity | assumption]. }
  rewrite request_edits_preamble by auto.
  rewrite Hget_imp. simpl. rewrite (for_each_imp_twice _ _ Himps). simpl.
  rewrite <- Hget_imp.
  (* nothing is left to strip *)
  assert (Hgeo : strip_geo r' = r').
  { destruct (strip_geo_no_coordinates request) as [Hlat Hlon].
    apply strip_geo_fixed; now rewrite Hdev. }
  assert (Huser :
            (if truthy (get "user" r')
             then put "user" (strip_user_fields (get "user" r')) (strip_geo r')
             else strip_geo r') = r').
  { rewrite Hgeo. destruct (truthy (get "user" r')) eqn:Ht; [| reflexivity].
    assert (Hfixed : strip_user_fields (get "user" r') = get "user" r').
    { apply strip_user_fields_fixed. intros k Hk. rewrite Husr.
      destruct (truthy (get "user" request)) eqn:Hu.
      - now apply strip_user_fields_keys.
      - now apply falsy_no_key. }
    rewrite Hfixed. apply put_same; [| reflexivity].
    now apply truthy_has_key. }
  rewrite Huser.
  assert (Hnull_ext : nullish_or (get "ext" r') empty_object = get "ext" r').
  { unfold nullish_or. now rewrite (is_object_not_nullish _ Hext'). }
  assert (Hnull_cur :
            nullish_or (get "cur" r') (array [Str "USD"]) = get "cur" r').
  { unfold nullish_or. now rewrite Hcur'. }
  rewrite Hnull_ext, Hnull_cur.
  assert (Hacc : put "account" account (get "ext" r') = get "ext" r').
  { apply put_same.
    - rewrite Hget_ext. now apply has_key_put_same.
    - rewrite Hget_ext. now apply get_put_same. }
  fold account. rewrite Hacc.
  rewrite (@put_same "ext" (get "ext" r') r') by auto.
  rewrite (@put_same "ext" (get "ext" r') r') by auto.
  rewrite (@put_same "cur" (get "cur" r') r') by auto.
  f_equal. apply put_same; [assumption |].
  rewrite Hget_imp. reflexivity.
Qed.

(** *** The queues only grow *)

Lemma entry_after_set (account key : value) (m : aps_map) :
  aps_get account m = None ->
  entry_of key (Some (aps_set account (AccountEntry [] []) m))
  = entry_of key (Some m).
Proof.
  unfold entry_of. induction m as [| [k e] rest IH]; simpl.
  - intros _. destruct (same_value_zero key account); reflexivity.
  - destruct (same_value_zero account k) eqn:Ha; [discriminate |].
    intros Hrest. simpl.
    destruct (same_value_zero key k); [reflexivity | now apply IH].
Qed.

Lemma entry_after_push (account key : value) (ev : event) (m : aps_map) :
  exists suffix,
    queue (entry_of key (Some (aps_push account ev m)))
    = (queue (entry_of key (Some m)) ++ suffix)%list
    /\ (List.length suffix <= 1)%nat
    /\ store (entry_of key (Some (aps_push account ev m)))
       = store (entry_of key (Some m)).
Proof.
  unfold entry_of. induction m as [| [k e] rest IH]; simpl.
  - exists []. auto.
  - destruct (same_value_zero account k) eqn:Ha; simpl.
    + destruct (same_value_zero key k).
      * exists [ev]. simpl. auto.
      * exists []. rewrite app_nil_r. auto.
    + destruct (same_value_zero key k).
      * exists []. rewrite app_nil_r. auto.
      * exact IH.
Qed.

Lemma entry_of_absent (key : value) :
  entry_of key (Some []) = entry_of key None.
Proof. reflexivity. Qed.

Lemma record_append_only (eventName : string) (data : value) (w : world)
    (key : value) :
  exists suffix,
    queue (entry_of key (window_aps (record eventName data w)))
    = (queue (entry_of key (window_aps w)) ++ suffix)%list
    /\ (List.length suffix <= 1)%nat
    /\ store (entry_of key (window_aps (record eventName data w)))
       = store (entry_of key (window_aps w)).
Proof.
  unfold record.
  destruct (strict_equals _ _);
    [exists []; rewrite app_nil_r; auto |].
  destruct (negb _); [exists []; rewrite app_nil_r; auto |].
  cbn [window_aps].
  set (account := readConfig (cfg w) "aps.accountID").
  set (aps := match window_aps w with Some m => m | None => [] end).
  assert (Hbefore : entry_of key (window_aps w) = entry_of key (Some aps)).
  { subst aps. destruct (window_aps w); reflexivity. }
  rewrite Hbefore.
  set (ensured := if negb (aps_has account aps)
                  then aps_set account (AccountEntry [] []) aps
                  else aps).
  assert (Hensured : entry_of key (Some ensured) = entry_of key (Some aps)).
  { subst ensured. unfold aps_has.
    destruct (aps_get account aps) eqn:Hget; simpl; [reflexivity |].
    now apply entry_after_set. }
  rewrite <- Hensured. apply entry_after_push.
Qed.

Lemma guarded_append_only (name message : string) (body op : M value) :
  (forall w,
     op w =
       (_ <~ do_record name Undefined ;;
        try_catch body
          (fun err =>
             _ <~ do_record (name ++ "/didError") (Obj [("error", err)]) ;;
             _ <~ logError message err ;;
             mret Undefined)) w) ->
  (forall w, window_aps (snd (body w)) = window_aps w) ->
  append_only op.
Proof.
  intros Hop Hbody w key. rewrite Hop.
  unfold mbind, do_record, try_catch, logError, log, mret.
  destruct (record_append_only name Undefined w key)
    as (s1 & Hq1 & Hl1 & Hs1).
  specialize (Hbody (record name Undefined w)).
  destruct (body (record name Undefined w)) as [[v | err] w1] eqn:Hrun;
    simpl in Hbody; simpl.
  - rewrite Hbody. exists s1. split; [assumption |].
    split; [lia | assumption].
  - destruct (record_append_only (name ++ "/didError")
                (Obj [("error", err)]) w1 key)
      as (s2 & Hq2 & Hl2 & Hs2).
    rewrite Hbody in Hq2, Hs2.
    exists (s1 ++ s2)%list. rewrite Hq2, Hq1, Hs2, Hs1.
    rewrite app_assoc, length_app. split; [reflexivity |].
    split; [lia | reflexivity].
Qed.

Lemma callback_append_only (name : string) (data : value) :
  append_only (_ <~ do_record name data ;; mret Undefined).
Proof.
  intros w key. unfold mbind, do_record, mret. simpl.
  destruct (record_append_only name data w key) as (s & Hq & Hl & Hs).
  exists s. split; [assumption |]. split; [lia | assumption].
Qed.

(** X22.  The event queues are append-only.  Whatever their arguments and
    the world, the four operations that the framework calls and the seven
    notification callbacks leave the queue of every account as it was,
    followed by at most two new events (the one of the call and, for the
    four operations, the one of a caught error), and leave the auxiliary
    store of every account as it was: no event is ever dropped, replaced or
    reordered. *)
Theorem X22_queues_only_grow :
  (forall bid, append_only (isBidRequestValid bid))
  /\ (forall bidRequests bidderRequest,
        append_only (buildRequests bidRequests bidderRequest))
  /\ (forall response request,
        append_only (interpretResponse response request))
  /\ (forall syncOptions serverResponses gdprConsent uspConsent,
        append_only
          (getUserSyncs syncOptions serverResponses gdprConsent uspConsent))
  /\ (forall timeoutData, append_only (onTimeout timeoutData))
  /\ (forall bid, append_only (onSetTargeting bid))
  /\ (forall bid, append_only (onAdRenderSucceeded bid))
  /\ (forall error, append_only (onBidderError error))
  /\ (forall bid, append_only (onBidWon bid))
  /\ (forall bid, append_only (onBidAttribute bid))
  /\ (forall bid, append_only (onBidBillable bid)).
Proof.
  split.
  { intros bid.
    apply (@guarded_append_only "isBidRequestValid"
             "Error while validating bid request" isBidRequestValid_body);
      [intros; reflexivity |].
    intros w. unfold isBidRequestValid_body, mbind, read_config.
    destruct (negb _); reflexivity. }
  split.
  { intros bidRequests bidderRequest.
    apply (@guarded_append_only "buildRequests"
             "Error while building bid request"
             (buildRequests_body bidRequests bidderRequest));
      [intros; reflexivity | reflexivity]. }
  split.
  { intros response request.
    apply (@guarded_append_only "interpretResponse"
             "Error while interpreting bid response"
             (interpretResponse_body response request));
      [intros; reflexivity | reflexivity]. }
  split.
  { intros syncOptions serverResponses gdprConsent uspConsent.
    apply (@guarded_append_only "getUserSyncs"
             "Error while getting user syncs"
             (getUserSyncs_body syncOptions serverResponses));
      [intros; reflexivity | reflexivity]. }
  repeat (split; [intros x; apply callback_append_only |]).
  intros x; apply callback_append_only.
Qed.

End Adapter.

(** ** The statements on concrete data *)

(** C1 does not hold as stated: [imp_without_format] has a banner with
    neither width nor height nor format list, and the hook returns the
    request with that impression in it, unchanged; [buildRequests] then
    returns a request descriptor that carries it. *)
Lemma C1_counterexample :
  nth_error (elems_of (get "imp" sample_request)) 1 = Some imp_without_format
  /\ get "w" (get "banner" imp_without_format) = Undefined
  /\ get "h" (get "banner" imp_without_format) = Undefined
  /\ get "format" (get "banner" imp_without_format) = Undefined
  /\ exists r' descriptor,
       converter_request integer_to_string digits_to_number sample_config
         sample_buildRequest Undefined Undefined Undefined = Ok r'
       /\ nth_error (elems_of (get "imp" r')) 1 = Some imp_without_format
       /\ fst (buildRequests integer_to_string
                 (fun bidRequests bidderRequest =>
                    converter_request integer_to_string digits_to_number
                      sample_config sample_buildRequest
                      bidRequests bidderRequest Undefined)
                 Undefined Undefined sample_world) = Ok descriptor
       /\ get "data" descriptor = r'.
Proof.
  repeat (split; [reflexivity |]).
  eexists. eexists.
  split; [vm_compute; reflexivity |].
  split; [reflexivity |].
  split; [vm_compute; reflexivity | reflexivity].
Qed.

Lemma C1_witness :
  process_imp integer_to_string digits_to_number 1 imp_without_format
  = Ok imp_without_format.
Proof.
  exact (proj1
           (C1_banner_without_format_is_kept
              integer_to_string digits_to_number sample_config
              sample_buildRequest Undefined Undefined Undefined 1
              (request := sample_request) (imp := imp_without_format)
              eq_refl eq_refl eq_refl eq_refl eq_refl eq_refl)).
Defined.

Lemma C2_witness :
  exists r',
    converter_request integer_to_string digits_to_number sample_config
      sample_buildRequest Undefined Undefined Undefined = Ok r'
    /\ has_key "lat" (get "geo" (get "device" sample_request)) = true
    /\ has_key "gender" (get "user" sample_request) = true
    /\ has_key "lat" (get "geo" (get "device" r')) = false
    /\ has_key "lon" (get "geo" (get "device" r')) = false
    /\ has_key "gender" (get "user" r') = false
    /\ has_key "data" (get "user" r') = false.
Proof.
  eexists. split; [vm_compute; reflexivity |].
  split; [reflexivity |]. split; [reflexivity |].
  match goal with
  | |- has_key _ (get _ (get _ ?r)) = _ /\ _ =>
      destruct (C2_privacy_fields_removed
                  integer_to_string digits_to_number sample_config
                  sample_buildRequest Undefined Undefined Undefined
                  (r' := r) eq_refl) as [Hgeo Huser]
  end.
  split; [apply Hgeo; simpl; auto |].
  split; [apply Hgeo; simpl; auto |].
  split; apply Huser; simpl; auto 10.
Defined.

(** C4 does not hold as stated: the banner has a width and a height, -1
    and 5, beside a non-empty format list; the hook does not keep them but
    overwrites them with the 300 and 250 of the first format entry, because
    -1 fails the test [>= 0]. *)
Lemma C4_counterexample :
  get "w" (get "banner" imp_with_negative_width) = num (-1)
  /\ get "h" (get "banner" imp_with_negative_width) = num 5
  /\ exists r' imp',
       converter_request integer_to_string digits_to_number sample_config
         negative_width_buildRequest Undefined Undefined Undefined = Ok r'
       /\ nth_error (elems_of (get "imp" r')) 0 = Some imp'
       /\ get "w" (get "banner" imp') = num 300
       /\ get "h" (get "banner" imp') = num 250
       /\ get "banner" imp' <> get "banner" imp_with_negative_width.
Proof.
  split; [reflexivity |]. split; [reflexivity |].
  eexists. eexists. split; [vm_compute; reflexivity |].
  split; [reflexivity |].
  split; [vm_compute; reflexivity |].
  split; [vm_compute; reflexivity |].
  vm_compute. discriminate.
Qed.

Lemma C4_witness :
  exists r' imp',
    converter_request integer_to_string digits_to_number sample_config
      sample_buildRequest Undefined Undefined Undefined = Ok r'
    /\ nth_error (elems_of (get "imp" r')) 0 = Some imp'
    /\ get "w" (get "banner" imp') = num 300
    /\ get "h" (get "banner" imp') = num 250.
Proof.
  eexists.
  match goal with
  | |- exists imp', ?hook = Ok ?r /\ _ =>
      assert (Hrun : hook = Ok r) by (vm_compute; reflexivity)
  end.
  destruct (C4_banner_backfill
              integer_to_string digits_to_number sample_config
              sample_buildRequest Undefined Undefined Undefined 0
              (request := sample_request) (imp := imp_with_format)
              eq_refl eq_refl) as (_ & Hfill & _).
  destruct (Hfill (num_of_Z 300) (num_of_Z 250) _
              eq_refl eq_refl eq_refl eq_refl Hrun)
    as (imp' & Hnth & _ & Hw & Hh).
  exists imp'. auto.
Defined.

Lemma C5_witness :
  exists bidResponse,
    converter_bidResponse "video" generic_by_mtype video_wire_bid Undefined
    = Ok (bidResponse, delete "adm" video_wire_bid)
    /\ get "vastUrl" bidResponse = get "adm" video_wire_bid
    /\ get "adm" video_wire_bid = Str "https://ads.example/vast.xml"
    /\ has_key "adm" (delete "adm" video_wire_bid) = false.
Proof.
  assert (Hconversion : video_code_gives_video "video" generic_by_mtype).
  { intros bid context bidResponse Hmtype Hbuild.
    unfold generic_by_mtype in Hbuild. injection Hbuild as <-.
    change (num 2) with (Num two). rewrite Hmtype. reflexivity. }
  destruct (@C5_video_bid_vast_url "video" generic_by_mtype
              video_wire_bid Undefined
              (Obj [("mediaType", Str "video"); ("seatBidId", Str "bid-v")])
              Hconversion eq_refl eq_refl) as (Hkey & Hrun & Hvast & _).
  eexists. split; [exact Hrun |]. split; [exact Hvast |].
  split; [reflexivity | exact Hkey].
Defined.

(** C6 does not hold as stated: the response carries a video bid and a
    banner bid; the conversion runs the hook, which deletes [adm] from the
    video wire bid; the markup of the banner Bid is two script elements,
    and its payload decodes to the JSON text of the body without that
    [adm], which is not the JSON text of the body received. *)
Lemma C6_counterexample :
  exists video_bid banner_bid w',
    interpretResponse integer_to_string json_stringify "video"
      (fromORTB_through_hook "video" generic_by_mtype)
      sample_response sample_server_request sample_world
    = (Ok (array [video_bid; banner_bid]), w')
    /\ strict_equals (get "mediaType" banner_bid) (Str "video") = false
    /\ base64_decode (payload_of (get "ad" banner_bid))
       = Some (to_string integer_to_string
                 (json_stringify
                    (Obj [("id", Str "auction-1");
                          ("seatbid",
                           array [Obj [("seat", Str "aps");
                                       ("bid",
                                        array [delete "adm" video_wire_bid;
                                               banner_wire_bid])]])])))
    /\ payload_of (get "ad" banner_bid)
       <> btoa (to_string integer_to_string
                  (json_stringify sample_response_body))
    /\ occurrences "<script" (to_string integer_to_string (get "ad" banner_bid))
       = 2%nat.
Proof.
  eexists. eexists. eexists.
  split; [vm_compute; reflexivity |].
  split; [reflexivity |].
  split; [vm_compute; reflexivity |].
  split; [vm_compute; discriminate |].
  vm_compute; reflexivity.
Qed.

Lemma C6_witness :
  exists returned w' bid interpreted body,
    interpretResponse integer_to_string json_stringify "video"
      (fromORTB_through_hook "video" generic_by_mtype)
      sample_response sample_server_request sample_world
    = (Ok returned, w')
    /\ nth_error (elems_of returned) 1 = Some bid
    /\ fromORTB_through_hook "video" generic_by_mtype
         sample_response_body sample_request
       = Ok (interpreted, body)
    /\ get "ad" bid =
         Str (ad_markup
                DEFAULT_PREBID_CREATIVE_JS_URL "example-account"
                (btoa (to_string integer_to_string (json_stringify body)))
                (to_string integer_to_string
                   (json_stringify (get "seatBidId" bid)))).
Proof.
  eexists. eexists. eexists.
  match goal with
  | |- exists interpreted body, ?run = (Ok ?r, ?w) /\ _ =>
      assert (Hrun : run = (Ok r, w)) by (vm_compute; reflexivity)
  end.
  match type of Hrun with
  | _ = (Ok (Arr [_; ?b] _), _) =>
      destruct (C6_non_video_markup
                  integer_to_string json_stringify "video"
                  (fromORTB_through_hook "video" generic_by_mtype)
                  sample_response sample_server_request sample_world b
                  Hrun (or_intror (or_introl eq_refl)) eq_refl)
        as (interpreted & body & Hconv & Had & _)
  end.
  exists interpreted, body.
  split; [exact Hrun |]. split; [reflexivity |].
  split; [exact Hconv | exact Had].
Defined.

Lemma C7_witness :
  exists w1 ev,
    getUserSyncs_body (Obj []) Undefined
      (record "getUserSyncs" Undefined sample_world)
    = (Throw type_error, w1)
    /\ getUserSyncs (Obj []) Undefined Undefined Undefined sample_world
       = (Ok Undefined,
          after_catch "getUserSyncs" "Error while getting user syncs"
            type_error w1)
    /\ last_event
         (after_catch "getUserSyncs" "Error while getting user syncs"
            type_error w1) = Some ev
    /\ event_type ev = "prebidAdapter/getUserSyncs/didError"
    /\ get "error" (event_detail ev) = type_error.
Proof.
  destruct (C7_exceptions_never_escape
              integer_to_string json_stringify "video"
              (fun bidRequests bidderRequest => Ok sample_request)
              (fun response request => Ok (Obj [("bids", array [])], response)))
    as (_ & _ & _ & Hsyncs).
  destruct (Hsyncs (Obj []) Undefined Undefined Undefined sample_world)
    as [_ Hcaught].
  destruct (Hcaught type_error _ eq_refl) as (Hop & _ & Hevent).
  destruct (Hevent eq_refl eq_refl) as (ev & Hlast & Htype & Herr).
  eexists. exists ev.
  split; [reflexivity |]. split; [exact Hop |].
  split; [exact Hlast |]. split; [exact Htype | exact Herr].
Defined.

Lemma C8_witness :
  fst (getUserSyncs
         (Obj [("iframeEnabled", Bool true); ("pixelEnabled", Bool false)])
         (array sample_sync_responses) Undefined Undefined sample_world)
  = Ok (array [Obj [("type", Str "iframe");
                    ("url", Str "https://s.example/i")]])
  /\ fst (getUserSyncs
            (Obj [("iframeEnabled", Bool false); ("pixelEnabled", Bool true)])
            (array sample_sync_responses) Undefined Undefined sample_world)
     = Ok (array [Obj [("type", Str "image");
                       ("url", Str "https://s.example/p")]]).
Proof.
  split.
  - refine (proj1
              (C8_user_syncs_filtered
                 (Obj [("iframeEnabled", Bool true);
                       ("pixelEnabled", Bool false)])
                 sample_sync_responses [] Undefined Undefined sample_world
                 eq_refl _)).
    simpl. repeat constructor.
  - refine (proj1
              (C8_user_syncs_filtered
                 (Obj [("iframeEnabled", Bool false);
                       ("pixelEnabled", Bool true)])
                 sample_sync_responses [] Undefined Undefined sample_world
                 eq_refl _)).
    simpl. repeat constructor.
Defined.

Lemma C9_witness :
  record "onBidWon" Undefined
    (World [("aps.telemetry", Bool false); ("aps.accountID", Str "a-1")]
       None [])
  = World [("aps.telemetry", Bool false); ("aps.accountID", Str "a-1")]
      None []
  /\ window_aps (record "onBidWon" Undefined (World [] None [])) = None.
Proof.
  split.
  - exact (proj1
             (C9_record_is_inert_when_disabled "onBidWon" Undefined
                (World [("aps.telemetry", Bool false);
                        ("aps.accountID", Str "a-1")] None [])
                (or_introl eq_refl))).
  - exact (proj2
             (C9_record_is_inert_when_disabled "onBidWon" Undefined
                (World [] None []) (or_intror (or_introl eq_refl)))).
Defined.

Lemma C10_witness :
  isValidAccountID (Num zero) = true
  /\ isBidRequestValid integer_to_string Undefined
       (World [("aps.accountID", Num zero)] None [])
     = (Ok (Bool true), World [("aps.accountID", Num zero)] None [])
  /\ record "buildRequests" Undefined
       (World [("aps.accountID", Num zero)] None [])
     = World [("aps.accountID", Num zero)] None [].
Proof.
  destruct (C10_zero_account_is_valid_but_silent integer_to_string
              (sign := false)
              (World [("aps.accountID", Num zero)] None []) eq_refl)
    as (Hvalid & Hgate & Hsilent).
  split; [exact Hvalid |]. split; [apply Hgate | apply Hsilent].
Defined.

(** The events that are filed once the account is a non-empty string, for
    comparison with the silent zero account. *)
Example record_files_event :
  last_event (record "buildRequests" Undefined sample_world)
  = Some (CustomEvent "prebidAdapter/buildRequests/didTrigger"
            (Obj [("analytics", Obj []);
                  ("source", Str "prebid-adapter");
                  ("libraryVersion", Str "2.0.0")])).
Proof. reflexivity. Qed.

(** A request with a non-numeric first format entry makes the hook throw the
    validation error, which [buildRequests] swallows. *)
Example bad_format_is_rejected :
  converter_request integer_to_string digits_to_number sample_config
    bad_buildRequest Undefined Undefined Undefined
  = Throw (new_error
             "Invalid banner format dimensions at impression 0: w=300, h=250")
  /\ fst (buildRequests integer_to_string
            (fun bidRequests bidderRequest =>
               converter_request integer_to_string digits_to_number
                 sample_config bad_buildRequest
                 bidRequests bidderRequest Undefined)
            Undefined Undefined sample_world) = Ok Undefined.
Proof. split; vm_compute; reflexivity. Qed.

(** ** The further properties on the sample data *)

Lemma X2_witness :
  telemetry_on world_with_history = true
  /\ entry_of (Str "example-account")
       (window_aps (record "onBidWon" Undefined world_with_history))
     = AccountEntry
         [CustomEvent "earlier" Undefined; event_of "onBidWon" Undefined]
         [(Str "note", Str "kept")]
  /\ In (Str "other-account", AccountEntry [CustomEvent "kept" Undefined] [])
       (aps_entries (record "onBidWon" Undefined world_with_history)).
Proof.
  split; [reflexivity |].
  destruct (X2_record_appends_one_event "onBidWon" Undefined
              world_with_history eq_refl)
    as (_ & _ & Hentry & Hothers).
  split; [exact Hentry |].
  apply Hothers; [simpl; auto | reflexivity].
Defined.

Lemma X5_witness :
  fst (buildRequests integer_to_string sample_toORTB Undefined Undefined
         sample_world)
  = Ok (descriptor (Str AAX_ENDPOINT) sample_request).
Proof.
  destruct (X5_request_descriptor integer_to_string sample_toORTB
              Undefined Undefined (data := sample_request) sample_world
              eq_refl eq_refl)
    as (Hrun & Hdefault & _).
  rewrite Hrun, (Hdefault eq_refl). reflexivity.
Defined.

Lemma X6_witness :
  fst (buildRequests integer_to_string sample_toORTB Undefined Undefined
         debug_world)
  = Ok (descriptor
          (Str ("https://debug.example/bid"
                ++ "?amzn_debug_mode=fif&amzn_debug_mode=1"))
          sample_request).
Proof.
  exact (proj1
           (X6_debug_url integer_to_string sample_toORTB
              Undefined Undefined (data := sample_request) debug_world
              (endpoint := "https://debug.example/bid")
              eq_refl eq_refl eq_refl)).
Defined.

Lemma X7_witness :
  fst (buildRequests integer_to_string sample_toORTB Undefined Undefined
         numeric_endpoint_world) = Ok Undefined
  /\ last_log (snd (buildRequests integer_to_string sample_toORTB
                      Undefined Undefined numeric_endpoint_world))
     = Some (LogError "Error while building bid request" type_error).
Proof.
  exact (X7_debug_with_unusable_endpoint integer_to_string sample_toORTB
           Undefined Undefined numeric_endpoint_world
           eq_refl eq_refl eq_refl).
Defined.

Lemma X8_witness :
  exists r',
    converter_request integer_to_string digits_to_number sample_config
      sample_buildRequest Undefined Undefined Undefined = Ok r'
    /\ get "account" (get "ext" r') = Str "example-account"
    /\ get "cur" r' = array [Str "USD"].
Proof.
  eexists. split; [vm_compute; reflexivity |].
  match goal with
  | |- get _ (get _ ?r) = _ /\ _ =>
      destruct (X8_account_and_currency
                  integer_to_string digits_to_number sample_config
                  sample_buildRequest Undefined Undefined Undefined
                  (request := sample_request) (r' := r) eq_refl eq_refl)
        as (Haccount & _ & Hcur & _)
  end.
  split; [exact Haccount | exact (Hcur eq_refl)].
Defined.

Lemma X9_witness :
  exists r',
    converter_request integer_to_string digits_to_number sample_config
      sample_buildRequest Undefined Undefined Undefined = Ok r'
    /\ get "id" r' = Str "auction-1"
    /\ get "country" (get "geo" (get "device" r')) = Str "CHE"
    /\ get "id" (get "user" r') = Str "u-1".
Proof.
  eexists. split; [vm_compute; reflexivity |].
  match goal with
  | |- get _ ?r = _ /\ _ =>
      destruct (X9_other_fields_survive
                  integer_to_string digits_to_number sample_config
                  sample_buildRequest Undefined Undefined Undefined
                  (request := sample_request) (r' := r) eq_refl eq_refl)
        as (Htop & _ & Hgeo & Huser)
  end.
  split.
  { rewrite Htop; [reflexivity |]. simpl. intuition discriminate. }
  split.
  { rewrite Hgeo; reflexivity. }
  rewrite Huser; [reflexivity |]. simpl. intuition discriminate.
Defined.

Lemma X11_witness :
  request_edits integer_to_string digits_to_number sample_config
    request_with_null_imp
  = Throw (new_error "Impression at index 1 is null or undefined").
Proof.
  refine (X11_missing_impression integer_to_string digits_to_number
            sample_config request_with_null_imp (i := 1) (imp := Null)
            eq_refl (or_introl eq_refl) eq_refl eq_refl eq_refl _).
  intros [| j] x Hj Hx; [| lia].
  simpl in Hx. injection Hx as <-.
  eexists. vm_compute. reflexivity.
Defined.

Lemma X12_witness :
  exists r' imp',
    converter_request integer_to_string digits_to_number sample_config
      sample_buildRequest Undefined Undefined Undefined = Ok r'
    /\ List.length (elems_of (get "imp" r')) = 2%nat
    /\ nth_error (elems_of (get "imp" r')) 0 = Some imp'
    /\ get "id" imp' = Str "1"
    /\ get "format" (get "banner" imp')
       = get "format" (get "banner" imp_with_format).
Proof.
  destruct (converter_request integer_to_string digits_to_number
              sample_config sample_buildRequest Undefined Undefined Undefined)
    as [r' | e] eqn:Hrun; [| vm_compute in Hrun; discriminate].
  destruct (X12_impressions_keep_their_fields
              integer_to_string digits_to_number sample_config
              sample_buildRequest Undefined Undefined Undefined
              (request := sample_request) eq_refl Hrun)
    as [Hlength Hfields].
  destruct (Hfields 0%nat imp_with_format eq_refl)
    as (imp' & Hnth & Hother & Hbanner).
  exists r', imp'.
  split; [reflexivity |]. split; [exact Hlength |].
  split; [exact Hnth |].
  split; [exact (Hother "id" eq_refl) | exact (Hbanner "format" eq_refl eq_refl)].
Defined.

Lemma X13_witness :
  converter_bidResponse "video" generic_by_mtype banner_wire_bid Undefined
  = Ok (Obj [("mediaType", Str "banner"); ("seatBidId", Str "bid-b")],
        banner_wire_bid)
  /\ get "vastUrl"
       (put "vastUrl" Undefined
          (Obj [("mediaType", Str "video"); ("seatBidId", Str "bid-b")]))
     = Undefined.
Proof.
  split.
  - exact (proj1
             (X13_other_media_types "video" generic_by_mtype
                banner_wire_bid Undefined
                (generic := Obj [("mediaType", Str "banner");
                                 ("seatBidId", Str "bid-b")])
                eq_refl eq_refl eq_refl eq_refl) eq_refl).
  - exact (proj2
             (proj2
                (X13_other_media_types "video" generic_as_video
                   banner_wire_bid Undefined
                   (generic := Obj [("mediaType", Str "video");
                                    ("seatBidId", Str "bid-b")])
                   eq_refl eq_refl eq_refl eq_refl) eq_refl)).
Defined.

Lemma X15_witness :
  exists returned interpreted body bids bids' ps,
    fst (interpretResponse integer_to_string json_stringify "video"
           (fromORTB_through_hook "video" generic_by_mtype)
           sample_response sample_server_request sample_world)
    = Ok returned
    /\ fromORTB_through_hook "video" generic_by_mtype
         sample_response_body sample_request
       = Ok (interpreted, body)
    /\ get "bids" interpreted = Arr bids ps
    /\ returned = Arr bids' ps
    /\ List.length bids' = List.length bids.
Proof.
  eexists.
  match goal with
  | |- exists interpreted body bids bids' ps, ?run = Ok ?r /\ _ =>
      assert (Hrun : run = Ok r) by (vm_compute; reflexivity)
  end.
  destruct (X15_bids_are_kept integer_to_string json_stringify "video"
              (fromORTB_through_hook "video" generic_by_mtype)
              sample_response sample_server_request sample_world
              Hrun eq_refl)
    as (interpreted & body & bids & bids' & ps
        & Hconv & Hbids & Hreturned & Hlength & _).
  exists interpreted, body, bids, bids', ps.
  split; [exact Hrun |]. split; [exact Hconv |]. split; [exact Hbids |].
  split; [exact Hreturned | exact Hlength].
Defined.

Lemma X17_witness :
  fst (getUserSyncs
         (Obj [("iframeEnabled", Bool true); ("pixelEnabled", Bool true)])
         (array sync_responses_with_null) Undefined Undefined sample_world)
  = Ok Undefined.
Proof.
  refine (X17_null_entry_loses_all_syncs
            (Obj [("iframeEnabled", Bool true); ("pixelEnabled", Bool true)])
            sync_responses_with_null [] Undefined Undefined sample_world
            Null _ eq_refl).
  simpl. auto.
Defined.

Lemma X21_witness :
  exists r',
    request_edits integer_to_string digits_to_number sample_config
      sample_request = Ok r'
    /\ request_edits integer_to_string digits_to_number sample_config r'
       = Ok r'.
Proof.
  eexists. split; [vm_compute; reflexivity |].
  apply (X21_request_hook_is_idempotent integer_to_string digits_to_number
           sample_config sample_request).
  vm_compute. reflexivity.
Defined.
